(** * DupliCheck: the detection and resolution engine, embedded in Rocq

    A shallow embedding of [core/attribute_checker.py],
    [core/geometry_checker.py], [core/priority_resolver.py] and
    [core/detector.py].  Python [float]s are IEEE binary64 numbers and are
    modelled by Rocq's primitive floats; Python [set]s of feature ids are
    [gset Z]; insertion-ordered dictionaries used as buckets are association
    lists; the QGIS geometry engine and the few Python built-ins whose
    result is only passed along are operations of two interfaces. *)

From Stdlib Require Import ZArith Floats Ascii String List Lia Bool.
From stdpp Require Import base gmap sets list strings sorting.

Local Open Scope string_scope.
Local Open Scope list_scope.

(** ** Python built-ins used by the engine *)

(** [enumerate(l)] *)
Definition enumerate {A : Type} (l : list A) : list (nat * A) :=
  combine (seq 0 (length l)) l.

(** [', '.join(names)] *)
Fixpoint join_comma (names : list string) : string :=
  match names with
  | [] => ""
  | [n] => n
  | n :: rest => n +:+ ", " +:+ join_comma rest
  end.

(** Conversion of a small non-negative Python [int] to [float] (exact below
    2^53, which covers every length and count handled here). *)
Definition float_of_nat (n : nat) : float :=
  PrimFloat.of_uint63 (Uint63.of_Z (Z.of_nat n)).

(** Python's [max(a, b)] on floats: the first argument is kept unless the
    second one compares greater. *)
Definition py_max (a b : float) : float :=
  if PrimFloat.ltb a b then b else a.

(** Python's [min(a, b)] on floats. *)
Definition py_min (a b : float) : float :=
  if PrimFloat.ltb b a then b else a.

(** The literal [0.9] (its nearest binary64 value). *)
Definition float_0_9 : float := 0x1.ccccccccccccdp-1%float.

(** ** Feature field values *)

(** The dynamically typed value of a feature field: NULL, a string, an
    integer, a real, or a value of another type (a date, ...) carried with
    its [str()] form. *)
Inductive FieldValue : Type :=
| VNull
| VText (s : string)
| VInteger (n : Z)
| VReal (x : float)
| VOther (text : string).

(** Exact comparison of a Python [int] with a [float], as [==] does it. *)
Definition int_float_eqb (n : Z) (x : float) : bool :=
  match Prim2SF x with
  | S754_zero _ => Z.eqb n 0
  | S754_finite s m e =>
      let v := if s then Z.opp (Z.pos m) else Z.pos m in
      if Z.leb 0 e then Z.eqb n (v * 2 ^ e) else Z.eqb (n * 2 ^ (- e)) v
  | _ => false
  end.

(** Python's [==] on field values. *)
Definition value_eqb (v1 v2 : FieldValue) : bool :=
  match v1, v2 with
  | VNull, VNull => true
  | VText a, VText b => String.eqb a b
  | VInteger a, VInteger b => Z.eqb a b
  | VReal a, VReal b => PrimFloat.eqb a b
  | VInteger a, VReal b => int_float_eqb a b
  | VReal a, VInteger b => int_float_eqb b a
  | VOther a, VOther b => String.eqb a b
  | _, _ => false
  end.

(** Python's [==] on tuples of field values. *)
Fixpoint key_eqb (k1 k2 : list FieldValue) : bool :=
  match k1, k2 with
  | [], [] => true
  | v1 :: r1, v2 :: r2 => value_eqb v1 v2 && key_eqb r1 r2
  | _, _ => false
  end.

(** ** The Python runtime *)

(** Services of the Python runtime whose output the engine only forwards
    or compares: [str.strip], [unicodedata.normalize('NFKC')], [str.lower],
    [' '.join(s.split())], float formatting, [10 ** (-precision)],
    [hashlib.md5(..).hexdigest()] (32 characters, the bytes being given as
    integers), the iteration order of a [set] (some enumeration of
    its elements), [random.sample], and the ordering of dynamically typed
    field values in the [try] block of [_apply_field_rule] ([None] when it
    raises or decides nothing). *)
Class PyRuntime := {
  py_strip : string -> string;
  py_nfkc : string -> string;
  py_lower : string -> string;
  py_collapse_spaces : string -> string;
  py_float_str : float -> string;
  py_format_4f : float -> string;
  py_format_pct : float -> string;
  py_pow10_neg : Z -> float;
  md5_hexdigest : list Z -> string;
  md5_hexdigest_length : forall wkb, String.length (md5_hexdigest wkb) = 32;
  set_iter : gset Z -> list Z;
  set_iter_perm : forall s, set_iter s ≡ₚ elements s;
  random_sample : list Z -> nat -> list Z;
  order_by_field : Z -> list (Z * FieldValue) -> option Z
}.

(** ** Features and layers *)

Section Features.
Context {Geom : Type}.

(** A [QgsGeometry]: [None] is the null geometry. *)
Definition QgsGeometry : Type := option Geom.

Definition isNull (g : QgsGeometry) : bool :=
  match g with None => true | Some _ => false end.

(** A [QgsFeature]: identifier, geometry, and the ordered mapping of field
    names to values. *)
Record QgsFeature : Type := mkFeature {
  feature_id : Z;
  geometry : QgsGeometry;
  attributes : list (string * FieldValue)
}.

(** [feature[field_name]]: [None] stands for the [KeyError]. *)
Fixpoint feature_getitem (attrs : list (string * FieldValue)) (name : string)
  : option FieldValue :=
  match attrs with
  | [] => None
  | (n, v) :: rest => if String.eqb n name then Some v else feature_getitem rest name
  end.

(** A [QgsVectorLayer] as the engine reads it. *)
Record QgsVectorLayer : Type := mkLayer {
  isValid : bool;
  getFeatures : list QgsFeature;
  layer_fields : list string;
  geometryType : Z
}.

Definition featureCount (layer : QgsVectorLayer) : nat :=
  length (getFeatures layer).

(** [layer.getFeatures(QgsFeatureRequest().setFilterFids(fids))] *)
Definition getFeatures_filtered (layer : QgsVectorLayer) (fids : list Z)
  : list QgsFeature :=
  List.filter (fun f => bool_decide (feature_id f ∈ fids)) (getFeatures layer).
End Features.

Arguments QgsGeometry : clear implicits.
Arguments QgsFeature : clear implicits.
Arguments QgsVectorLayer : clear implicits.

(** ** attribute_checker.py *)

Module AttributeChecker.
Section Checker.
Context `{PyRuntime} {Geom : Type}.

Record t : Type := mk {
  fields : list string;
  normalize : bool;
  ignore_null : bool;
  case_sensitive : bool;
  fuzzy_threshold : float
}.

(** The string branch of [_normalize_value]. *)
Definition normalize_str (self : t) (value : string) : string :=
  let value := py_strip value in
  let value := py_nfkc value in
  let value := if case_sensitive self then value else py_lower value in
  py_collapse_spaces value.

(** [_normalize_value]; the recursive call on [str(value)] for the other
    types lands in the string branch. *)
Definition _normalize_value (self : t) (value : FieldValue) : FieldValue :=
  match value with
  | VNull => VNull
  | VText s => VText (normalize_str self s)
  | VInteger n => VInteger n
  | VReal x => VReal x
  | VOther text => VText (normalize_str self text)
  end.

(** Is the raw value read from the feature NULL ([None], a null
    [QVariant], or a missing field)? *)
Definition raw_is_null (raw : option FieldValue) : bool :=
  match raw with
  | None | Some VNull => true
  | Some _ => false
  end.

(** The loop of [get_key] over the remaining field names, [values] being
    the list built so far; [None] is the early [return None]. *)
Fixpoint get_key_loop (self : t) (attrs : list (string * FieldValue))
    (names : list string) (values : list FieldValue) : option (list FieldValue) :=
  match names with
  | [] => Some values
  | field_name :: rest =>
      let raw := feature_getitem attrs field_name in
      if raw_is_null raw then
        if ignore_null self then None
        else get_key_loop self attrs rest (values ++ [VNull])
      else
        let value := match raw with Some v => v | None => VNull end in
        let value := if normalize self then _normalize_value self value else value in
        get_key_loop self attrs rest (values ++ [value])
  end.

Definition get_key (self : t) (feature : QgsFeature Geom) : option (list FieldValue) :=
  get_key_loop self (attributes feature) (fields self) [].

(** One row of the rolling buffer: the inner loop of
    [_levenshtein_distance].  The rows have [len(s2) + 1] entries, so that
    every index read is in range. *)
Definition row_step (c1 : ascii) (previous_row : list nat)
    (current_row : list nat) (jc : nat * ascii) : list nat :=
  let '(j, c2) := jc in
  let insertions := nth (j + 1) previous_row 0 + 1 in
  let deletions := nth j current_row 0 + 1 in
  let substitutions := nth j previous_row 0 + (if Ascii.eqb c1 c2 then 0 else 1) in
  current_row ++ [Nat.min insertions (Nat.min deletions substitutions)].

Definition next_row (s2 : list ascii) (previous_row : list nat)
    (ic : nat * ascii) : list nat :=
  let '(i, c1) := ic in
  fold_left (row_step c1 previous_row) (enumerate s2) [i + 1].

(** The body of [_levenshtein_distance] once [len(s1) >= len(s2)]. *)
Definition levenshtein_rows (s1 s2 : list ascii) : nat :=
  if Nat.eqb (length s2) 0 then length s1
  else
    let previous_row := seq 0 (length s2 + 1) in
    List.last (fold_left (next_row s2) (enumerate s1) previous_row) 0.

(** [_levenshtein_distance]: the recursive call only swaps the arguments. *)
Definition _levenshtein_distance (s1 s2 : string) : nat :=
  let l1 := list_ascii_of_string s1 in
  let l2 := list_ascii_of_string s2 in
  if Nat.ltb (length l1) (length l2) then levenshtein_rows l2 l1
  else levenshtein_rows l1 l2.

Definition _levenshtein_similarity (s1 s2 : string) : float :=
  if String.eqb s1 s2 then 1%float
  else if Nat.eqb (String.length s1) 0 || Nat.eqb (String.length s2) 0 then 0%float
  else
    let distance := _levenshtein_distance s1 s2 in
    let max_len := Nat.max (String.length s1) (String.length s2) in
    PrimFloat.sub 1%float (PrimFloat.div (float_of_nat distance) (float_of_nat max_len)).

(** The per-field similarity appended by [_calculate_similarity]. *)
Definition field_similarity (v1 v2 : FieldValue) : float :=
  match v1, v2 with
  | VNull, VNull => 1%float
  | VNull, _ | _, VNull => 0%float
  | VText a, VText b => _levenshtein_similarity a b
  | _, _ => if value_eqb v1 v2 then 1%float else 0%float
  end.

Definition _calculate_similarity (key1 key2 : list FieldValue) : float :=
  if negb (Nat.eqb (length key1) (length key2)) then 0%float
  else
    let similarities :=
      List.map (fun p => field_similarity (fst p) (snd p)) (combine key1 key2) in
    match similarities with
    | [] => 0%float
    | _ => PrimFloat.div (fold_left PrimFloat.add similarities 0%float)
                         (float_of_nat (length similarities))
    end.

(** [compare]: (is_match, confidence_score, reason). *)
Definition compare (self : t) (feature1 feature2 : QgsFeature Geom)
  : bool * float * string :=
  match get_key self feature1, get_key self feature2 with
  | Some key1, Some key2 =>
      if key_eqb key1 key2 then
        (true, 1%float, "Exact match on fields: " +:+ join_comma (fields self))
      else if PrimFloat.ltb 0%float (fuzzy_threshold self) then
        let similarity := _calculate_similarity key1 key2 in
        if PrimFloat.leb (fuzzy_threshold self) similarity then
          (true, similarity, "Fuzzy match (" +:+ py_format_pct similarity +:+ " similarity)")
        else (false, 0%float, "No match")
      else (false, 0%float, "No match")
  | _, _ => (false, 0%float, "One or both features have NULL key values")
  end.
End Checker.
End AttributeChecker.

(** ** attribute_checker.py: field values and differences *)

(** The dictionary returned by [find_differences]: four dictionaries keyed
    by field name. *)
Record Differences : Type := mkDifferences {
  same : gmap string FieldValue;
  different : gmap string (FieldValue * FieldValue);
  only_in_feature1 : gmap string FieldValue;
  only_in_feature2 : gmap string FieldValue
}.

Module AttributeFields.
Section Fields.
Context {Geom : Type}.

(** [get_field_values]: field name -> value, [None] (here NULL) for a
    null or missing value. *)
Definition get_field_values (self : AttributeChecker.t) (feature : QgsFeature Geom)
    (all_fields : bool) : gmap string FieldValue :=
  let fields_to_get :=
    if all_fields then List.map fst (attributes feature) else AttributeChecker.fields self in
  fold_left
    (fun result field_name =>
       <[field_name := match feature_getitem (attributes feature) field_name with
                       | Some value => value
                       | None => VNull
                       end]> result)
    fields_to_get ∅.

(** The body of the loop of [find_differences]; [dict.get] gives [None]
    (NULL) for an absent field. *)
Definition differences_step (values1 values2 : gmap string FieldValue)
    (acc : Differences) (field : string) : Differences :=
  let v1 := default VNull (values1 !! field) in
  let v2 := default VNull (values2 !! field) in
  if negb (bool_decide (field ∈ dom values2)) then
    mkDifferences (same acc) (different acc)
                  (<[field := v1]> (only_in_feature1 acc)) (only_in_feature2 acc)
  else if negb (bool_decide (field ∈ dom values1)) then
    mkDifferences (same acc) (different acc)
                  (only_in_feature1 acc) (<[field := v2]> (only_in_feature2 acc))
  else if value_eqb v1 v2 then
    mkDifferences (<[field := v1]> (same acc)) (different acc)
                  (only_in_feature1 acc) (only_in_feature2 acc)
  else
    mkDifferences (same acc) (<[field := (v1, v2)]> (different acc))
                  (only_in_feature1 acc) (only_in_feature2 acc).

(** [find_differences]; [all_fields] is the set of field names in the
    order in which the loop iterates over it. *)
Definition find_differences (self : AttributeChecker.t)
    (feature1 feature2 : QgsFeature Geom) (all_fields : list string) : Differences :=
  let values1 := get_field_values self feature1 true in
  let values2 := get_field_values self feature2 true in
  fold_left (differences_step values1 values2) all_fields
            (mkDifferences ∅ ∅ ∅ ∅).

(** The set [set(values1.keys()) | set(values2.keys())] of
    [find_differences]. *)
Definition all_fields_of (self : AttributeChecker.t)
    (feature1 feature2 : QgsFeature Geom) : gset string :=
  dom (get_field_values self feature1 true) ∪ dom (get_field_values self feature2 true).
End Fields.
End AttributeFields.

(** ** The QGIS geometry engine *)

(** Operations of [QgsGeometry], [QgsRectangle] and [QgsSpatialIndex] on
    non-null geometries.  [hausdorffDistance] answers [None] when the call
    raises; [spatial_index_intersects] is the query of an index into which
    the given features were added. *)
Class GeometryEngine (Geom : Type) := {
  QgsRectangle : Type;
  removeDuplicateNodes : Geom -> Geom;
  snappedToGrid : Geom -> float -> float -> QgsGeometry Geom;
  geom_type : Geom -> Z;
  normalize_rings : Geom -> Geom;
  asWkb : Geom -> list Z;
  centroid : Geom -> QgsGeometry Geom;
  distance : Geom -> Geom -> float;
  hausdorffDistance : Geom -> Geom -> option float;
  boundingBox : Geom -> QgsRectangle;
  rect_isEmpty : QgsRectangle -> bool;
  rect_grow : QgsRectangle -> float -> QgsRectangle;
  rect_intersects : QgsRectangle -> QgsRectangle -> bool;
  rect_intersect : QgsRectangle -> QgsRectangle -> QgsRectangle;
  rect_area : QgsRectangle -> float;
  isMultipart : Geom -> bool;
  asGeometryCollection : Geom -> list Geom;
  geom_area : Geom -> float;
  spatial_index_intersects : list (QgsFeature Geom) -> QgsRectangle -> list Z
}.

(** ** geometry_checker.py *)

Module GeometryChecker.
Section Checker.
Context `{PyRuntime} {Geom : Type} `{GeometryEngine Geom}.

Definition METHOD_WKB_HASH : Z := 0.
Definition METHOD_CENTROID : Z := 1.
Definition METHOD_HAUSDORFF : Z := 2.
Definition METHOD_BBOX : Z := 3.

Record t : Type := mk {
  tolerance : float;
  compare_method : Z;
  decompose_multipart : bool;
  precision : Z
}.

(** [_normalize_geometry]; a null geometry has the unknown type (3) and
    is returned as it is by the steps that follow a failed snap. *)
Definition _normalize_geometry (self : t) (geometry : QgsGeometry Geom)
  : QgsGeometry Geom :=
  match geometry with
  | None => None
  | Some g =>
      let geom := removeDuplicateNodes g in
      let geom :=
        if Z.ltb 0 (precision self) then
          let snap_tolerance := py_pow10_neg (precision self) in
          snappedToGrid geom snap_tolerance snap_tolerance
        else Some geom in
      match geom with
      | Some g' => if Z.eqb (geom_type g') 2 then Some (normalize_rings g') else Some g'
      | None => None
      end
  end.

(** [asWkb()] of a possibly null geometry: the null one has no bytes. *)
Definition wkb_of (g : QgsGeometry Geom) : list Z :=
  match g with Some g' => asWkb g' | None => [] end.

Definition hash_geometry (self : t) (geometry : QgsGeometry Geom) : string :=
  if isNull geometry then "NULL"
  else md5_hexdigest (wkb_of (_normalize_geometry self geometry)).

Definition _compare_wkb (self : t) (geom1 geom2 : Geom) : bool * float * string :=
  let hash1 := hash_geometry self (Some geom1) in
  let hash2 := hash_geometry self (Some geom2) in
  if String.eqb hash1 hash2 then (true, 1%float, "Exact WKB match")
  else (false, 0%float, "WKB mismatch").

Definition _compare_centroid (self : t) (geom1 geom2 : Geom) (tolerance : float)
  : bool * float * string :=
  match centroid geom1, centroid geom2 with
  | Some c1, Some c2 =>
      let distance := distance c1 c2 in
      if PrimFloat.leb distance tolerance then
        let score :=
          if PrimFloat.ltb 0%float tolerance
          then PrimFloat.sub 1%float (PrimFloat.div distance tolerance)
          else 1%float in
        (true, py_max 0.5%float score, "Centroid distance: " +:+ py_format_4f distance)
      else
        (false, 0%float,
         "Centroid distance " +:+ py_format_4f distance +:+ " exceeds tolerance")
  | _, _ => (false, 0%float, "Could not compute centroid")
  end.

Definition _compare_hausdorff (self : t) (geom1 geom2 : Geom) (tolerance : float)
  : bool * float * string :=
  match hausdorffDistance geom1 geom2 with
  | None => _compare_centroid self geom1 geom2 tolerance
  | Some distance =>
      if PrimFloat.leb distance tolerance then
        let score :=
          if PrimFloat.ltb 0%float tolerance
          then PrimFloat.sub 1%float (PrimFloat.div distance tolerance)
          else 1%float in
        (true, py_max 0.5%float score, "Hausdorff distance: " +:+ py_format_4f distance)
      else
        (false, 0%float,
         "Hausdorff distance " +:+ py_format_4f distance +:+ " exceeds tolerance")
  end.

Definition _compare_bbox (self : t) (geom1 geom2 : Geom) (tolerance : float)
  : bool * float * string :=
  let bbox1 := boundingBox geom1 in
  let bbox2 := boundingBox geom2 in
  if rect_isEmpty bbox1 || rect_isEmpty bbox2 then (false, 0%float, "Empty bounding box")
  else
    let bbox1 := rect_grow bbox1 tolerance in
    let bbox2 := rect_grow bbox2 tolerance in
    let no_match := (false, 0%float, "Insufficient bounding box overlap") in
    if rect_intersects bbox1 bbox2 then
      let intersection := rect_intersect bbox1 bbox2 in
      let union_area :=
        PrimFloat.sub (PrimFloat.add (rect_area bbox1) (rect_area bbox2))
                      (rect_area intersection) in
      if PrimFloat.ltb 0%float union_area then
        let overlap_ratio := PrimFloat.div (rect_area intersection) union_area in
        if PrimFloat.ltb float_0_9 overlap_ratio
        then (true, overlap_ratio, "BBox overlap: " +:+ py_format_pct overlap_ratio)
        else no_match
      else no_match
    else no_match.

Definition _compare_single (self : t) (geom1 geom2 : Geom) (tolerance : float)
  : bool * float * string :=
  if Z.eqb (compare_method self) METHOD_WKB_HASH then _compare_wkb self geom1 geom2
  else if Z.eqb (compare_method self) METHOD_CENTROID
    then _compare_centroid self geom1 geom2 tolerance
  else if Z.eqb (compare_method self) METHOD_HAUSDORFF
    then _compare_hausdorff self geom1 geom2 tolerance
  else if Z.eqb (compare_method self) METHOD_BBOX
    then _compare_bbox self geom1 geom2 tolerance
  else _compare_wkb self geom1 geom2.

Definition _get_parts (geometry : Geom) : list Geom :=
  if isMultipart geometry then asGeometryCollection geometry else [geometry].

(** The inner loop over [parts2], left at the first matching part. *)
Fixpoint first_match_in (self : t) (p1 : Geom) (parts2 : list Geom) (tolerance : float)
  : option (bool * float * string) :=
  match parts2 with
  | [] => None
  | p2 :: rest =>
      let r := _compare_single self p1 p2 tolerance in
      if fst (fst r) then Some r else first_match_in self p1 rest tolerance
  end.

(** The outer loop over [parts1]. *)
Fixpoint first_part_match (self : t) (parts1 parts2 : list Geom) (tolerance : float)
  : option (bool * float * string) :=
  match parts1 with
  | [] => None
  | p1 :: rest =>
      match first_match_in self p1 parts2 tolerance with
      | Some r => Some r
      | None => first_part_match self rest parts2 tolerance
      end
  end.

(** [compare(geom1, geom2, tolerance=None)] *)
Definition compare (self : t) (geom1 geom2 : QgsGeometry Geom)
    (override : option float) : bool * float * string :=
  let tolerance := match override with None => tolerance self | Some x => x end in
  match geom1, geom2 with
  | Some g1, Some g2 =>
      if decompose_multipart self then
        match first_part_match self (_get_parts g1) (_get_parts g2) tolerance with
        | Some r => r
        | None => (false, 0%float, "No matching parts found")
        end
      else _compare_single self g1 g2 tolerance
  | _, _ => (false, 0%float, "One or both geometries are NULL")
  end.
End Checker.
End GeometryChecker.

(** ** detector.py: duplicate groups *)

Record DuplicateGroup : Type := mkGroup {
  feature_ids : gset Z;
  detection_type : string;
  confidence_score : float;
  match_reason : string;
  suggested_keep : option Z;
  metadata : list (string * list FieldValue)
}.

Definition set_suggested_keep (group : DuplicateGroup) (fid : option Z) : DuplicateGroup :=
  {| feature_ids := feature_ids group;
     detection_type := detection_type group;
     confidence_score := confidence_score group;
     match_reason := match_reason group;
     suggested_keep := fid;
     metadata := metadata group |}.

(** [merge_with]: the object [self] after the in-place update. *)
Definition merge_with (self other : DuplicateGroup) : DuplicateGroup :=
  {| feature_ids := feature_ids self ∪ feature_ids other;
     detection_type := detection_type self;
     confidence_score := py_min (confidence_score self) (confidence_score other);
     match_reason := match_reason self;
     suggested_keep := suggested_keep self;
     metadata := metadata self |}.

(** Exceptions raised by the engine, and results of calls that may raise. *)
Inductive PyError : Type :=
| ValueError (message : string).

Inductive result (A : Type) : Type :=
| Ok (value : A)
| Raise (error : PyError).
Arguments Ok {A} value.
Arguments Raise {A} error.

(** Truth value of an optional feature id in [if result:]. *)
Definition fid_truthy (r : option Z) : bool :=
  match r with
  | Some fid => negb (Z.eqb fid 0)
  | None => false
  end.

(** Truth value of an optional string option such as [rules.get('field')]. *)
Definition str_truthy (s : option string) : bool :=
  match s with
  | Some v => negb (String.eqb v "")
  | None => false
  end.

(** The keys of a dictionary filled in the order of [ids]. *)
Fixpoint dict_keys (ids : list Z) (keys : list Z) : list Z :=
  match ids with
  | [] => keys
  | i :: rest => dict_keys rest (if bool_decide (i ∈ keys) then keys else keys ++ [i])
  end.

(** [min(candidates)] of a non-empty list of ids. *)
Definition min_fid (first : Z) (others : list Z) : Z :=
  fold_left Z.min others first.

(** ** priority_resolver.py *)

(** The priority options as the resolver's constructor reads them from the
    rules dictionary, defaults applied. *)
Record PriorityRules : Type := mkRules {
  rule_field : option string;
  rule_field_order : Z;
  rule_completeness : bool;
  rule_area : option string;
  rule_fid_fallback : bool
}.

Module PriorityResolver.
Section Resolver.
Context `{PyRuntime} {Geom : Type} `{GeometryEngine Geom}.

Record t : Type := mk {
  layer : QgsVectorLayer Geom;
  field_name : option string;
  field_order : Z;
  use_completeness : bool;
  area_rule : option string;
  fid_fallback : bool
}.

Definition init (layer : QgsVectorLayer Geom) (rules : PriorityRules) : t :=
  {| layer := layer;
     field_name := rule_field rules;
     field_order := rule_field_order rules;
     use_completeness := rule_completeness rules;
     area_rule := rule_area rules;
     fid_fallback := rule_fid_fallback rules |}.

(** [features.get(fid)] on the dictionary built from the fetched list:
    the last feature with that id. *)
Definition features_get (features : list (QgsFeature Geom)) (fid : Z)
  : option (QgsFeature Geom) :=
  List.find (fun f => Z.eqb (feature_id f) fid) (rev features).

Definition _apply_field_rule (self : t) (features : list (QgsFeature Geom))
    (candidates : list Z) : option Z :=
  match field_name self with
  | None => None
  | Some name =>
      if String.eqb name "" then None
      else
        let values :=
          omap (fun fid =>
                  match features_get features fid with
                  | None => None
                  | Some feature =>
                      Some (fid, match feature_getitem (attributes feature) name with
                                 | Some v => v
                                 | None => VNull
                                 end)
                  end) candidates in
        let valid_values :=
          List.filter (fun kv => match snd kv with VNull => false | _ => true end) values in
        match valid_values with
        | [] => None
        | _ => order_by_field (field_order self) valid_values
        end
  end.

Definition null_count (feature : QgsFeature Geom) : nat :=
  length (List.filter (fun kv => match snd kv with VNull => true | _ => false end)
                      (attributes feature)).

Definition _apply_completeness_rule (self : t) (features : list (QgsFeature Geom))
    (candidates : list Z) : option Z :=
  let null_counts :=
    omap (fun fid =>
            match features_get features fid with
            | None => None
            | Some feature => Some (fid, null_count feature)
            end) candidates in
  match null_counts with
  | [] => None
  | (_, first) :: others =>
      let min_nulls := fold_left Nat.min (List.map snd others) first in
      let best_candidates :=
        List.filter (fun kv => Nat.eqb (snd kv) min_nulls) null_counts in
      match best_candidates with
      | [(fid, _)] => Some fid
      | _ => None
      end
  end.

(** [max(areas.keys(), key=...)] and [min(areas.keys(), key=...)]: the
    first extremal entry is kept. *)
Definition max_by_area (first : Z * float) (others : list (Z * float)) : Z :=
  fst (fold_left (fun best kv => if PrimFloat.ltb (snd best) (snd kv) then kv else best)
                 others first).

Definition min_by_area (first : Z * float) (others : list (Z * float)) : Z :=
  fst (fold_left (fun best kv => if PrimFloat.ltb (snd kv) (snd best) then kv else best)
                 others first).

Definition _apply_area_rule (self : t) (features : list (QgsFeature Geom))
    (candidates : list Z) : option Z :=
  match area_rule self with
  | None => None
  | Some rule =>
      if String.eqb rule "" then None
      else
        let areas :=
          omap (fun fid =>
                  match features_get features fid with
                  | None => None
                  | Some feature =>
                      match geometry feature with
                      | None => None
                      | Some geom => Some (fid, geom_area geom)
                      end
                  end) candidates in
        match areas with
        | [] => None
        | first :: others =>
            if String.eqb rule "largest" then Some (max_by_area first others)
            else if String.eqb rule "smallest" then Some (min_by_area first others)
            else None
        end
  end.

Definition _resolve_group (self : t) (group : DuplicateGroup) : option Z :=
  if Nat.ltb (size (feature_ids group)) 2 then head (set_iter (feature_ids group))
  else
    let fids := set_iter (feature_ids group) in
    let features := getFeatures_filtered (layer self) fids in
    match dict_keys (List.map feature_id features) [] with
    | [] => None
    | first :: others =>
        let candidates := first :: others in
        let rule1 :=
          if str_truthy (field_name self)
             && bool_decide (default "" (field_name self) ∈ layer_fields (layer self))
          then _apply_field_rule self features candidates else None in
        if fid_truthy rule1 then rule1
        else
          let rule2 :=
            if use_completeness self
            then _apply_completeness_rule self features candidates else None in
          if fid_truthy rule2 then rule2
          else
            let rule3 :=
              if str_truthy (area_rule self) && Z.eqb (geometryType (layer self)) 2
              then _apply_area_rule self features candidates else None in
            if fid_truthy rule3 then rule3
            else if fid_fallback self then Some (min_fid first others)
            else None
    end.

(** [resolve]: every group gets its [suggested_keep]. *)
Definition resolve (self : t) (groups : list DuplicateGroup) : list DuplicateGroup :=
  List.map (fun group => set_suggested_keep group (_resolve_group self group)) groups.
End Resolver.
End PriorityResolver.

(** ** detector.py: the detection engine *)

(** [buckets[key].append(fid)] on an insertion-ordered [defaultdict(list)]. *)
Fixpoint bucket_append {K : Type} (eqb : K -> K -> bool) (key : K) (fid : Z)
    (buckets : list (K * list Z)) : list (K * list Z) :=
  match buckets with
  | [] => [(key, [fid])]
  | (k, fids) :: rest =>
      if eqb k key then (k, fids ++ [fid]) :: rest
      else (k, fids) :: bucket_append eqb key fid rest
  end.

Module DuplicateDetector.
Section Detector.
Context `{PyRuntime} {Geom : Type} `{GeometryEngine Geom}.

(** The detector's configuration; [layer = None] is a missing layer and
    [priority_rules = None] an absent or empty rules dictionary.  The
    progress callback receives values and returns nothing to the engine;
    it is left out. *)
Record t : Type := mk {
  layer : option (QgsVectorLayer Geom);
  detection_type : string;
  tolerance : float;
  compare_method : Z;
  decompose_multipart : bool;
  fields : list string;
  normalize_attributes : bool;
  ignore_null : bool;
  priority_rules : option PriorityRules;
  sample_mode : bool;
  sample_size : Z
}.

Definition _sample_features (self : t) (lyr : QgsVectorLayer Geom)
  : result (list (QgsFeature Geom)) :=
  let all_ids := List.map feature_id (getFeatures lyr) in
  let k := Z.min (sample_size self) (Z.of_nat (length all_ids)) in
  if Z.ltb k 0 then Raise (ValueError "Sample larger than population or is negative")
  else Ok (getFeatures_filtered lyr (random_sample all_ids (Z.to_nat k))).

(** [_build_spatial_index]: the cache maps each id to its feature; the
    index holds the features themselves. *)
Definition build_feature_cache (features : list (QgsFeature Geom))
  : gmap Z (QgsFeature Geom) :=
  fold_left (fun cache feature => <[feature_id feature := feature]> cache) features ∅.

Definition hash_step (checker : GeometryChecker.t) (hash_groups : list (string * list Z))
    (feature : QgsFeature Geom) : list (string * list Z) :=
  let geom := geometry feature in
  if isNull geom then hash_groups
  else
    let geom_hash := GeometryChecker.hash_geometry checker geom in
    bucket_append String.eqb geom_hash (feature_id feature) hash_groups.

Definition hash_group_of (bucket : string * list Z) : option DuplicateGroup :=
  let fids := snd bucket in
  if Nat.ltb 1 (length fids) then
    Some (mkGroup (list_to_set fids) "geometry" 1%float "Exact WKB match" None [])
  else None.

Definition _detect_by_hash (self : t) (features : list (QgsFeature Geom))
    (checker : GeometryChecker.t) : list DuplicateGroup :=
  let hash_groups := fold_left (hash_step checker) features [] in
  omap hash_group_of hash_groups.

(** The body of the loop over [candidate_ids]: the state is the list
    [duplicates] and the local variable [score] ([None] while unbound). *)
Definition candidate_step (self : t) (checker : GeometryChecker.t)
    (cache : gmap Z (QgsFeature Geom)) (processed : gset Z) (fid : Z) (geom : Geom)
    (st : list Z * option float) (cid : Z) : list Z * option float :=
  let '(duplicates, score) := st in
  if Z.eqb cid fid || bool_decide (cid ∈ processed) then st
  else
    match cache !! cid with
    | None => st
    | Some candidate =>
        match geometry candidate with
        | None => st
        | Some cgeom =>
            let '(is_match, new_score, reason) :=
              GeometryChecker.compare checker (Some geom) (Some cgeom)
                                      (Some (tolerance self)) in
            (if is_match then duplicates ++ [cid] else duplicates, Some new_score)
        end
    end.

(** State of the scan: [processed], [groups] and the local [score]. *)
Definition scan_state : Type := gset Z * list DuplicateGroup * option float.

(** The body of the loop over [features] in [_detect_by_tolerance]. *)
Definition tolerance_step (self : t) (checker : GeometryChecker.t)
    (index : list (QgsFeature Geom)) (cache : gmap Z (QgsFeature Geom))
    (st : scan_state) (feature : QgsFeature Geom) : scan_state :=
  let '(processed, groups, score) := st in
  let fid := feature_id feature in
  if bool_decide (fid ∈ processed) then st
  else
    match geometry feature with
    | None => st
    | Some geom =>
        let search_rect := rect_grow (boundingBox geom) (tolerance self) in
        let candidate_ids := spatial_index_intersects index search_rect in
        let '(duplicates, score) :=
          fold_left (candidate_step self checker cache processed fid geom)
                    candidate_ids ([fid], score) in
        if Nat.ltb 1 (length duplicates) then
          let group :=
            mkGroup (list_to_set duplicates) "geometry"
                    (match score with Some s => s | None => float_0_9 end)
                    ("Within " +:+ py_float_str (tolerance self) +:+ " tolerance")
                    None [] in
          (processed ∪ list_to_set duplicates, groups ++ [group], score)
        else (processed ∪ {[fid]}, groups, score)
    end.

Definition tolerance_scan (self : t) (checker : GeometryChecker.t)
    (index : list (QgsFeature Geom)) (cache : gmap Z (QgsFeature Geom))
    (features : list (QgsFeature Geom)) (st : scan_state) : scan_state :=
  fold_left (tolerance_step self checker index cache) features st.

(** [_detect_by_tolerance]; the index and the cache are those built from
    the same feature list by [_build_spatial_index]. *)
Definition _detect_by_tolerance (self : t) (features : list (QgsFeature Geom))
    (checker : GeometryChecker.t) : list DuplicateGroup :=
  snd (fst (tolerance_scan self checker features (build_feature_cache features)
                           features (∅, [], None))).

Definition _detect_geometry_duplicates (self : t) (features : list (QgsFeature Geom))
  : list DuplicateGroup :=
  let checker :=
    GeometryChecker.mk (tolerance self) (compare_method self)
                       (decompose_multipart self) 8 in
  if PrimFloat.eqb (tolerance self) 0%float then _detect_by_hash self features checker
  else _detect_by_tolerance self features checker.

Definition key_step (checker : AttributeChecker.t)
    (key_groups : list (list FieldValue * list Z)) (feature : QgsFeature Geom)
  : list (list FieldValue * list Z) :=
  match AttributeChecker.get_key checker feature with
  | Some key => bucket_append key_eqb key (feature_id feature) key_groups
  | None => key_groups
  end.

Definition key_group_of (self : t) (bucket : list FieldValue * list Z)
  : option DuplicateGroup :=
  let '(key, fids) := bucket in
  if Nat.ltb 1 (length fids) then
    Some (mkGroup (list_to_set fids) "attribute" 1%float
                  ("Matching fields: " +:+ join_comma (fields self))
                  None [("key", key)])
  else None.

Definition _detect_attribute_duplicates (self : t) (features : list (QgsFeature Geom))
  : result (list DuplicateGroup) :=
  match fields self with
  | [] => Raise (ValueError "No fields specified for attribute detection")
  | _ =>
      let checker :=
        AttributeChecker.mk (fields self) (normalize_attributes self)
                            (ignore_null self) false 0%float in
      let key_groups := fold_left (key_step checker) features [] in
      Ok (omap (key_group_of self) key_groups)
  end.

(** The first member of [ids], in iteration order, that already belongs
    to an accepted group; the answer is the handle of that group. *)
Fixpoint find_existing (feature_to_group : gmap Z nat) (ids : list Z) : option nat :=
  match ids with
  | [] => None
  | fid :: rest =>
      match feature_to_group !! fid with
      | Some handle => Some handle
      | None => find_existing feature_to_group rest
      end
  end.

(** [for fid in group.feature_ids: feature_to_group[fid] = ...] *)
Definition assign_all (feature_to_group : gmap Z nat) (ids : list Z) (handle : nat)
  : gmap Z nat :=
  fold_left (fun m fid => <[fid := handle]> m) ids feature_to_group.

(** The body of the loop of [_consolidate_groups].  Accepted groups are
    mutated in place through the references held by [feature_to_group];
    the list [consolidated] is the arena of those objects and a reference
    is the position of the group in it. *)
Definition consolidate_step (st : gmap Z nat * list DuplicateGroup)
    (group : DuplicateGroup) : gmap Z nat * list DuplicateGroup :=
  let '(feature_to_group, consolidated) := st in
  let ids := set_iter (feature_ids group) in
  match find_existing feature_to_group ids with
  | Some handle =>
      (assign_all feature_to_group ids handle,
       alter (fun existing_group => merge_with existing_group group) handle consolidated)
  | None =>
      (assign_all feature_to_group ids (length consolidated), consolidated ++ [group])
  end.

Definition _consolidate_groups (groups : list DuplicateGroup) : list DuplicateGroup :=
  match groups with
  | [] => []
  | _ => snd (fold_left consolidate_step groups (∅, []))
  end.

(** What [detect] does with the groups found by the scan: priority rules
    first, consolidation last. *)
Definition finish_detection (self : t) (lyr : QgsVectorLayer Geom)
    (groups : list DuplicateGroup) : list DuplicateGroup :=
  let groups :=
    match priority_rules self with
    | Some rules => PriorityResolver.resolve (PriorityResolver.init lyr rules) groups
    | None => groups
    end in
  _consolidate_groups groups.

Definition detect (self : t) : result (list DuplicateGroup) :=
  match layer self with
  | None => Raise (ValueError "Invalid or missing layer")
  | Some lyr =>
      if negb (isValid lyr) then Raise (ValueError "Invalid or missing layer")
      else
        let feature_count := Z.of_nat (featureCount lyr) in
        let sampled :=
          if sample_mode self && Z.ltb (sample_size self) feature_count
          then _sample_features self lyr
          else Ok (getFeatures lyr) in
        match sampled with
        | Raise e => Raise e
        | Ok features =>
            let scanned :=
              if String.eqb (detection_type self) "geometry"
              then Ok (_detect_geometry_duplicates self features)
              else _detect_attribute_duplicates self features in
            match scanned with
            | Raise e => Raise e
            | Ok groups => Ok (finish_detection self lyr groups)
            end
        end
  end.
End Detector.
End DuplicateDetector.

(** ** detector.py: statistics *)

(** The dictionary returned by [get_statistics] when groups were found. *)
Record Statistics : Type := mkStatistics {
  total_features : nat;
  duplicate_groups : nat;
  duplicate_features : nat;
  duplication_rate : float;
  statistics_detection_type : string;
  statistics_tolerance : float;
  statistics_fields : list string
}.

(** [get_statistics], [lyr] being the layer [self.layer] refers to and
    [_groups] the list stored by the last [detect]; [None] is the empty
    dictionary.  The rate is the true division of the two integers, the
    integer 0 of the other branch being written as the float 0. *)
Definition get_statistics `{PyRuntime} {Geom : Type} `{GeometryEngine Geom}
    (self : DuplicateDetector.t (Geom := Geom)) (lyr : QgsVectorLayer Geom)
    (_groups : list DuplicateGroup) : option Statistics :=
  match _groups with
  | [] => None
  | _ =>
      let total_features := featureCount lyr in
      let total_duplicates :=
        fold_left Nat.add (List.map (fun g => size (feature_ids g)) _groups) 0 in
      Some {| total_features := total_features;
              duplicate_groups := length _groups;
              duplicate_features := total_duplicates;
              duplication_rate :=
                if Nat.ltb 0 total_features
                then PrimFloat.div (float_of_nat total_duplicates)
                                   (float_of_nat total_features)
                else 0%float;
              statistics_detection_type := DuplicateDetector.detection_type self;
              statistics_tolerance := DuplicateDetector.tolerance self;
              statistics_fields := DuplicateDetector.fields self |}
  end.

(** ** A concrete runtime and geometry engine

    Points on the integer line, enough to run the engine on small layers:
    a geometry is a list of points (several points make a multipart
    geometry, no point a degenerate one without centroid), sets are
    iterated in increasing order, and the digest writes the bytes as
    hexadecimal digits. *)

Module Line.
Definition hex_digit (n : Z) : ascii :=
  nth (Z.to_nat (n mod 16)) (list_ascii_of_string "0123456789abcdef") "0"%char.

Fixpoint digest (n : nat) (wkb : list Z) : string :=
  match n with
  | O => EmptyString
  | S n' =>
      match wkb with
      | [] => String "0"%char (digest n' [])
      | b :: rest => String (hex_digit b) (digest n' rest)
      end
  end.

Lemma digest_length n : forall wkb, String.length (digest n wkb) = n.
Proof.
  induction n as [|n IH]; intros wkb; [reflexivity|].
  destruct wkb; simpl; now rewrite IH.
Qed.

Definition sorted_iter (s : gset Z) : list Z := merge_sort Z.le (elements s).

Lemma sorted_iter_perm (s : gset Z) : sorted_iter s ≡ₚ elements s.
Proof. apply merge_sort_Permutation. Qed.

#[export] Instance runtime : PyRuntime := {|
  py_strip := fun s => s;
  py_nfkc := fun s => s;
  py_lower := fun s => s;
  py_collapse_spaces := fun s => s;
  py_float_str := fun _ => "t";
  py_format_4f := fun _ => "d";
  py_format_pct := fun _ => "p";
  py_pow10_neg := fun _ => 0x1p-27%float;
  md5_hexdigest := digest 32;
  md5_hexdigest_length := digest_length 32;
  set_iter := sorted_iter;
  set_iter_perm := sorted_iter_perm;
  random_sample := fun ids k => take k ids;
  order_by_field := fun _ _ => None
|}.

Definition float_of_Z (z : Z) : float :=
  if Z.ltb z 0 then PrimFloat.opp (PrimFloat.of_uint63 (Uint63.of_Z (- z)))
  else PrimFloat.of_uint63 (Uint63.of_Z z).

Definition Geom : Type := list Z.

Definition first_point (g : Geom) : Z := List.hd 0%Z g.

Definition bbox (g : Geom) : float * float :=
  (float_of_Z (fold_left Z.min g (first_point g)),
   float_of_Z (fold_left Z.max g (first_point g))).

Definition overlaps (r1 r2 : float * float) : bool :=
  PrimFloat.leb (py_max (fst r1) (fst r2)) (py_min (snd r1) (snd r2)).

#[export] Instance engine : GeometryEngine Geom := {|
  QgsRectangle := float * float;
  removeDuplicateNodes := fun g => g;
  snappedToGrid := fun g _ _ => Some g;
  geom_type := fun _ => 0%Z;
  normalize_rings := fun g => g;
  asWkb := fun g => g;
  centroid := fun g => match g with [] => None | p :: _ => Some [p] end;
  distance := fun a b => float_of_Z (Z.abs (first_point a - first_point b));
  hausdorffDistance := fun _ _ => None;
  boundingBox := bbox;
  rect_isEmpty := fun r => PrimFloat.leb (snd r) (fst r);
  rect_grow := fun r d => (PrimFloat.sub (fst r) d, PrimFloat.add (snd r) d);
  rect_intersects := overlaps;
  rect_intersect := fun r1 r2 => (py_max (fst r1) (fst r2), py_min (snd r1) (snd r2));
  rect_area := fun r => PrimFloat.sub (snd r) (fst r);
  isMultipart := fun g => Nat.ltb 1 (length g);
  asGeometryCollection := fun g => List.map (fun p => [p]) g;
  geom_area := fun _ => 0%float;
  spatial_index_intersects := fun features rect =>
    omap (fun f => match geometry f with
                   | Some g => if overlaps (bbox g) rect then Some (feature_id f) else None
                   | None => None
                   end) features
|}.

Definition point_feature (fid : Z) (x : Z) : QgsFeature Geom := mkFeature fid (Some [x]) [].
Definition null_feature (fid : Z) : QgsFeature Geom := mkFeature fid None [].
Definition layer_of (features : list (QgsFeature Geom)) : QgsVectorLayer Geom :=
  mkLayer true features [] 0.

(** A detector with the constructor's defaults for the other options. *)
Definition detector (layer : option (QgsVectorLayer Geom)) (detection_type : string)
    (tolerance : float) (compare_method : Z) (fields : list string)
    (rules : option PriorityRules) : DuplicateDetector.t (Geom := Geom) :=
  DuplicateDetector.mk layer detection_type tolerance compare_method false fields
                       true false rules false 5000.

(** A candidate group as a scan creates it. *)
Definition group_of (ids : list Z) : DuplicateGroup :=
  mkGroup (list_to_set ids) "geometry" 1%float "Exact WKB match" None [].

(** Only the id fallback is enabled. *)
Definition fid_fallback_only : PriorityRules := mkRules None 0 false None true.

(** A group as the tolerance scan creates it under [runtime]. *)
Definition tolerance_group (ids : list Z) (score : float) : DuplicateGroup :=
  mkGroup (list_to_set ids) "geometry" score "Within t tolerance" None [].

(** A feature without geometry whose only field is [name]. *)
Definition named_feature (fid : Z) (name : FieldValue) : QgsFeature Geom :=
  mkFeature fid None [("name", name)].

(** Keys on the field [name]; features with a null name are skipped. *)
Definition name_checker : AttributeChecker.t :=
  AttributeChecker.mk ["name"] true true false 0.

(** The state in which a scan starts. *)
Definition scan_start : DuplicateDetector.scan_state := (∅, [], None).

(** Features 1 and 2 at the same place and feature 4 without geometry. *)
Definition two_points_and_null : list (QgsFeature Geom) :=
  [point_feature 1 5; point_feature 2 5; null_feature 4].

(** Features 1, 5 and 6. *)
Definition layer_1_5_6 : QgsVectorLayer Geom :=
  layer_of [point_feature 1 5; point_feature 5 6; point_feature 6 9].

(** Features 1 and 2 at the same place, feature 3 next to them. *)
Definition three_points : list (QgsFeature Geom) :=
  [point_feature 1 5; point_feature 2 5; point_feature 3 6].
End Line.

(** ** Specification-level definitions *)

(** The classic unit-cost edit distance, by recursion on both strings:
    deleting, inserting and substituting a character cost 1 each. *)
Fixpoint classic_edit_distance (s : list ascii) : list ascii -> nat :=
  fix against (t : list ascii) : nat :=
    match s, t with
    | [], _ => length t
    | _, [] => length s
    | a :: s', b :: t' =>
        Nat.min (classic_edit_distance s' t + 1)
                (Nat.min (against t' + 1)
                         (classic_edit_distance s' t' + (if Ascii.eqb a b then 0 else 1)))
    end.

(** Row [|x|] of the dynamic-programming table for [x] as the consumed
    prefix of the first string: the distances of [x] to every prefix of
    [s2]. *)
Definition prefix_row (x s2 : list ascii) : list nat :=
  List.map (fun j => classic_edit_distance x (take j s2)) (seq 0 (length s2 + 1)).

(** The entry of the comparison key for one configured field: NULL for a
    null or missing value, the (normalized) value otherwise. *)
Definition key_entry `{PyRuntime} (self : AttributeChecker.t)
    (attrs : list (string * FieldValue)) (name : string) : FieldValue :=
  match feature_getitem attrs name with
  | None | Some VNull => VNull
  | Some v =>
      if AttributeChecker.normalize self then AttributeChecker._normalize_value self v else v
  end.

(** Is the value of the field null or missing in the feature? *)
Definition field_is_null (attrs : list (string * FieldValue)) (name : string) : bool :=
  AttributeChecker.raw_is_null (feature_getitem attrs name).

(** A comparison result that reports a match. *)
Definition is_match (r : bool * float * string) : bool := fst (fst r).

(** The confidence score of a comparison result. *)
Definition score_of (r : bool * float * string) : float := snd (fst r).

(** [g'] stems from the candidate group [g]: it holds the ids of [g],
    possibly more, and keeps its suggestion. *)
Definition stems_from (g' g : DuplicateGroup) : Prop :=
  feature_ids g ⊆ feature_ids g' /\ suggested_keep g' = suggested_keep g.

(** [g'] is made of the candidate groups [seen]: it stems from one of them
    and every id it holds comes from one of them. *)
Definition made_of (seen : list DuplicateGroup) (g' : DuplicateGroup) : Prop :=
  (exists g, g ∈ seen /\ stems_from g' g) /\
  (forall fid, fid ∈ feature_ids g' -> exists g, g ∈ seen /\ fid ∈ feature_ids g).

(** [m] is the smallest feature id of the set [ids]. *)
Definition is_smallest_id (ids : gset Z) (m : Z) : Prop :=
  m ∈ ids /\ forall fid, fid ∈ ids -> (m <= fid)%Z.

(** The rules enable the id fallback and nothing else. *)
Definition only_fid_fallback (rules : PriorityRules) : Prop :=
  str_truthy (rule_field rules) = false /\
  rule_completeness rules = false /\
  str_truthy (rule_area rules) = false /\
  rule_fid_fallback rules = true.

(** The groups of a list hold pairwise disjoint id sets. *)
Definition pairwise_disjoint (groups : list DuplicateGroup) : Prop :=
  forall i j gi gj,
    groups !! i = Some gi -> groups !! j = Some gj -> i <> j ->
    feature_ids gi ## feature_ids gj.

(** The candidates of a seed that reach [checker.compare]: not the seed
    itself, not yet processed, present in the cache, with a geometry. *)
Definition eligible_candidate {Geom : Type} (cache : gmap Z (QgsFeature Geom))
    (processed : gset Z) (fid cid : Z) : option (Z * Geom) :=
  if Z.eqb cid fid || bool_decide (cid ∈ processed) then None
  else
    match cache !! cid with
    | Some candidate =>
        match geometry candidate with
        | Some cgeom => Some (cid, cgeom)
        | None => None
        end
    | None => None
    end.

Definition compared_candidates {Geom : Type} (cache : gmap Z (QgsFeature Geom))
    (processed : gset Z) (fid : Z) (candidate_ids : list Z) : list (Z * Geom) :=
  omap (eligible_candidate cache processed fid) candidate_ids.

(** The comparison of the seed geometry with one candidate. *)
Definition comparison `{PyRuntime} {Geom : Type} `{GeometryEngine Geom}
    (self : DuplicateDetector.t (Geom := Geom)) (checker : GeometryChecker.t) (geom : Geom)
    (candidate : Z * Geom) : bool * float * string :=
  GeometryChecker.compare checker (Some geom) (Some (snd candidate))
                          (Some (DuplicateDetector.tolerance self)).

(** The candidates found to match the seed. *)
Definition matched_candidates `{PyRuntime} {Geom : Type} `{GeometryEngine Geom}
    (self : DuplicateDetector.t (Geom := Geom)) (checker : GeometryChecker.t) (geom : Geom)
    (compared : list (Z * Geom)) : list Z :=
  List.map fst (List.filter (fun p => is_match (comparison self checker geom p)) compared).

(** The candidate ids the spatial index returns for a seed geometry. *)
Definition candidates_of `{PyRuntime} {Geom : Type} `{GeometryEngine Geom}
    (self : DuplicateDetector.t (Geom := Geom)) (index : list (QgsFeature Geom))
    (geom : Geom) : list Z :=
  spatial_index_intersects index
    (rect_grow (boundingBox geom) (DuplicateDetector.tolerance self)).

(** The state the scan reaches when the seed [fid] with geometry [geom] is
    examined in the state [(processed, groups, score)]. *)
Definition seed_outcome `{PyRuntime} {Geom : Type} `{GeometryEngine Geom}
    (self : DuplicateDetector.t (Geom := Geom)) (checker : GeometryChecker.t)
    (index : list (QgsFeature Geom)) (cache : gmap Z (QgsFeature Geom))
    (st : DuplicateDetector.scan_state) (fid : Z) (geom : Geom)
  : DuplicateDetector.scan_state :=
  let '(processed, groups, score) := st in
  let compared := compared_candidates cache processed fid (candidates_of self index geom) in
  let matched := matched_candidates self checker geom compared in
  let score :=
    match last compared with
    | Some p => Some (score_of (comparison self checker geom p))
    | None => score
    end in
  match matched with
  | [] => (processed ∪ {[fid]}, groups, score)
  | _ =>
      (processed ∪ list_to_set (fid :: matched),
       groups ++ [mkGroup (list_to_set (fid :: matched)) "geometry"
                          (match score with Some x => x | None => float_0_9 end)
                          ("Within " +:+ py_float_str (DuplicateDetector.tolerance self)
                                     +:+ " tolerance")
                          None []],
       score)
  end.

(** Some feature of the list has the id [fid] and a geometry. *)
Definition has_geometry_in {Geom : Type} (features : list (QgsFeature Geom)) (fid : Z) : Prop :=
  exists f, f ∈ features /\ feature_id f = fid /\ geometry f <> None.

(** What the scans guarantee for a group they create from [features]: at
    least two distinct ids, each the id of a feature with a geometry. *)
Definition sound_group {Geom : Type} (features : list (QgsFeature Geom))
    (g : DuplicateGroup) : Prop :=
  2 <= size (feature_ids g) /\
  forall fid, fid ∈ feature_ids g -> has_geometry_in features fid.

(** Two groups share no feature id. *)
Definition disjoint_ids (g1 g2 : DuplicateGroup) : Prop :=
  feature_ids g1 ## feature_ids g2.

(** A comparison result is in range: 0.0 without a match, at least 0.5
    with one. *)
Definition score_in_range (r : bool * float * string) : Prop :=
  if is_match r then PrimFloat.leb 0.5%float (score_of r) = true
  else score_of r = 0%float.

(** The dictionary filled by the loops of the rules: an entry
    [(fid, val feature)] for each candidate that has a feature. *)
Definition keyed_entries {A B : Type} (get : Z -> option A) (val : A -> B)
    (candidates : list Z) : list (Z * B) :=
  omap (fun fid => match get fid with
                   | None => None
                   | Some feature => Some (fid, val feature)
                   end) candidates.

(** A state of the loop of [_consolidate_groups] that keeps the candidates
    [seen]: every reference points into the list of accepted groups, and
    every candidate met so far lies within one of them. *)
Definition keeps (seen : list DuplicateGroup) (st : gmap Z nat * list DuplicateGroup)
  : Prop :=
  (forall fid handle, fst st !! fid = Some handle -> handle < length (snd st)) /\
  (forall g, g ∈ seen -> exists g', g' ∈ snd st /\ feature_ids g ⊆ feature_ids g').

(** What the four dictionaries of [find_differences] hold for a field. *)
Definition differences_at (d : Differences) (field : string)
  : option FieldValue * option (FieldValue * FieldValue) *
    option FieldValue * option FieldValue :=
  (same d !! field, different d !! field,
   only_in_feature1 d !! field, only_in_feature2 d !! field).

(** The entry a field is due, given its value in the first and in the
    second feature ([None] when the feature has no such field). *)
Definition due_entry (a1 a2 : option FieldValue)
  : option FieldValue * option (FieldValue * FieldValue) *
    option FieldValue * option FieldValue :=
  match a1, a2 with
  | Some v1, Some v2 =>
      if value_eqb v1 v2 then (Some v1, None, None, None)
      else (None, Some (v1, v2), None, None)
  | Some v1, None => (None, None, Some v1, None)
  | None, Some v2 => (None, None, None, Some v2)
  | None, None => (None, None, None, None)
  end.

(** The entry due to [field] in the result of [find_differences] for two
    features. *)
Definition due_at {Geom : Type} (feature1 feature2 : QgsFeature Geom) (field : string)
  : option FieldValue * option (FieldValue * FieldValue) *
    option FieldValue * option FieldValue :=
  due_entry (feature_getitem (attributes feature1) field)
            (feature_getitem (attributes feature2) field).

(** ** Two records of a table *)

Module Records.
Definition first : QgsFeature Line.Geom :=
  mkFeature 1 None [("name", VText "a"); ("pop", VInteger 3)].

Definition second : QgsFeature Line.Geom :=
  mkFeature 2 None [("name", VText "a"); ("pop", VInteger 4); ("zip", VNull)].
End Records.

(** ** A layer with two pairs of coincident points *)

Module Pairs.
Definition features : list (QgsFeature Line.Geom) :=
  [Line.point_feature 1 5; Line.point_feature 3 7; Line.point_feature 2 5;
   Line.point_feature 4 7].

Definition layer : QgsVectorLayer Line.Geom := Line.layer_of features.

(** The two groups of an exact run, with the suggestion given. *)
Definition groups (keep12 keep34 : option Z) : list DuplicateGroup :=
  [set_suggested_keep (Line.group_of [1; 2]%Z) keep12;
   set_suggested_keep (Line.group_of [3; 4]%Z) keep34].
End Pairs.

(** ** A small layer with attributes

    Feature 0 has a name, feature 1 has none; both lie at the same place. *)

Module Parcels.
Definition features : list (QgsFeature Line.Geom) :=
  [mkFeature 0 (Some [5%Z]) [("name", VText "a")];
   mkFeature 1 (Some [5%Z]) [("name", VNull)];
   mkFeature 2 (Some [5%Z]) [("name", VText "b")];
   mkFeature 3 (Some [5%Z]) [("name", VNull)]].

Definition layer : QgsVectorLayer Line.Geom := mkLayer true features ["name"] 0.

(** A resolver with the completeness rule alone. *)
Definition completeness_only : PriorityResolver.t (Geom := Line.Geom) :=
  PriorityResolver.mk layer None 0 true None false.
End Parcels.

(** ** A small attribute layer

    Three features without geometry and with the single field [name]:
    two towns of the same name and one whose name is null. *)

Module Towns.
Definition features : list (QgsFeature Line.Geom) :=
  [Line.named_feature 1 (VText "Paris"); Line.named_feature 2 (VText "Paris");
   Line.named_feature 3 VNull].

(** Attribute detection on [name]; [ignore_null] as given. *)
Definition detector (ignore_null : bool) : DuplicateDetector.t (Geom := Line.Geom) :=
  DuplicateDetector.mk (Some (mkLayer true features ["name"] 0)) "attribute" 0 0 false
                       ["name"] true ignore_null None false 5000.

(** The group of the two towns named alike. *)
Definition paris_group : DuplicateGroup :=
  mkGroup (list_to_set [1; 2]%Z) "attribute" 1%float "Matching fields: name" None
          [("key", [VText "Paris"])].
End Towns.

(** Has the feature a geometry whose hash is [h]? *)
Definition hashes_to `{PyRuntime} {Geom : Type} `{GeometryEngine Geom}
    (checker : GeometryChecker.t) (h : string) (f : QgsFeature Geom) : bool :=
  match (if isNull (geometry f) then None
         else Some (GeometryChecker.hash_geometry checker (geometry f))) with
  | Some h' => String.eqb h' h
  | None => false
  end.

(** [buckets[key]] on an insertion-ordered dictionary of buckets: the ids
    filed under [key], none when the key is absent. *)
Fixpoint bucket_ids {K : Type} (eqb : K -> K -> bool) (key : K)
    (buckets : list (K * list Z)) : list Z :=
  match buckets with
  | [] => []
  | (k, fids) :: rest => if eqb k key then fids else bucket_ids eqb key rest
  end.

(** * Proofs *)

(** ** Levenshtein distance *)

(** [min_below] proves [m <= a] when [m] is a tree of [Nat.min] one of
    whose leaves is below [a]. *)
Ltac min_below :=
  lazymatch goal with
  | |- Nat.min _ _ <= _ =>
      first [ solve [ etransitivity; [apply Nat.le_min_l | min_below] ]
            | solve [ etransitivity; [apply Nat.le_min_r | min_below] ] ]
  | |- _ => lia
  end.

(** Two trees of [Nat.min] (and [+] of constants) with the same leaves. *)
Ltac min_same_leaves :=
  rewrite <- ?Nat.add_min_distr_r;
  apply Nat.le_antisymm; repeat apply Nat.min_glb; min_below.

Section LevenshteinFacts.
Implicit Types s t x y : list ascii.

(** Both ways of unfolding the distance of two strings with a first and a
    last character reach the same nine neighbours. *)
Lemma min_grid (a1 a2 a3 a4 a5 a6 a7 a8 a9 d d0 : nat) :
  Nat.min (Nat.min (a1 + 1) (Nat.min (a2 + 1) (a3 + d)) + 1)
          (Nat.min (Nat.min (a4 + 1) (Nat.min (a5 + 1) (a6 + d)) + 1)
                   (Nat.min (a7 + 1) (Nat.min (a8 + 1) (a9 + d)) + d0)) =
  Nat.min (Nat.min (a1 + 1) (Nat.min (a4 + 1) (a7 + d0)) + 1)
          (Nat.min (Nat.min (a2 + 1) (Nat.min (a5 + 1) (a8 + d0)) + 1)
                   (Nat.min (a3 + 1) (Nat.min (a6 + 1) (a9 + d0)) + d)).
Proof. min_same_leaves. Qed.

Lemma ced_nil_l t : classic_edit_distance [] t = length t.
Proof. destruct t; reflexivity. Qed.

Lemma ced_nil_r s : classic_edit_distance s [] = length s.
Proof. destruct s; reflexivity. Qed.

Lemma ced_cons a s b t :
  classic_edit_distance (a :: s) (b :: t) =
  Nat.min (classic_edit_distance s (b :: t) + 1)
          (Nat.min (classic_edit_distance (a :: s) t + 1)
                   (classic_edit_distance s t + (if Ascii.eqb a b then 0 else 1))).
Proof. reflexivity. Qed.

Lemma ced_sym s : forall t, classic_edit_distance s t = classic_edit_distance t s.
Proof.
  induction s as [|a s IHs]; intros t.
  - now rewrite ced_nil_l, ced_nil_r.
  - induction t as [|b t IHt].
    + now rewrite ced_nil_l, ced_nil_r.
    + rewrite !ced_cons, IHt, (IHs (b :: t)), (IHs t).
      rewrite (Ascii.eqb_sym a b). lia.
Qed.

Lemma ced_refl s : classic_edit_distance s s = 0.
Proof.
  induction s as [|a s IH]; [reflexivity|].
  rewrite ced_cons, IH, Ascii.eqb_refl. lia.
Qed.

(** The recurrence on the last characters, which is the one the rolling
    buffer follows. *)
Lemma ced_snoc x : forall y a b,
  classic_edit_distance (x ++ [a]) (y ++ [b]) =
  Nat.min (classic_edit_distance x (y ++ [b]) + 1)
          (Nat.min (classic_edit_distance (x ++ [a]) y + 1)
                   (classic_edit_distance x y + (if Ascii.eqb a b then 0 else 1))).
Proof.
  induction x as [|x0 x IHx]; intros y; induction y as [|y0 y IHy]; intros a b.
  - reflexivity.
  - simpl app in *. rewrite (ced_cons a [] y0 (y ++ [b])), (ced_cons a [] y0 y).
    rewrite (IHy a b), !ced_nil_l. cbn [length]. rewrite length_app. cbn [length].
    destruct (Ascii.eqb a y0), (Ascii.eqb a b); lia.
  - simpl app in *. rewrite (ced_cons x0 (x ++ [a]) b []), (ced_cons x0 x b []).
    pose proof (IHx [] a b) as E. simpl app in E.
    rewrite E, !ced_nil_r. cbn [length]. rewrite length_app. cbn [length].
    destruct (Ascii.eqb x0 b), (Ascii.eqb a b); lia.
  - simpl app in *.
    rewrite (ced_cons x0 (x ++ [a]) y0 (y ++ [b])).
    rewrite (ced_cons x0 x y0 (y ++ [b])).
    rewrite (ced_cons x0 (x ++ [a]) y0 y).
    rewrite (ced_cons x0 x y0 y).
    pose proof (IHx (y0 :: y) a b) as E1. simpl app in E1. rewrite E1.
    specialize (IHy a b). simpl app in IHy. rewrite IHy.
    rewrite (IHx y a b).
    apply min_grid.
Qed.

Lemma nth_map_seq (f : nat -> nat) (n j d : nat) :
  j < n -> nth j (List.map f (seq 0 n)) d = f j.
Proof.
  intros Hj. rewrite (nth_indep _ d (f 0)) by now rewrite length_map, length_seq.
  rewrite map_nth, seq_nth by assumption. reflexivity.
Qed.

Lemma take_length_app y z : take (length y) (y ++ z) = y.
Proof. induction y as [|c y IH]; [now destruct z|]. simpl. now rewrite IH. Qed.

Lemma take_length_app1 y c z : take (length y + 1) (y ++ c :: z) = y ++ [c].
Proof.
  replace (y ++ c :: z) with ((y ++ [c]) ++ z) by now rewrite <- app_assoc.
  replace (length y + 1) with (length (y ++ [c])) by (rewrite length_app; simpl; lia).
  apply take_length_app.
Qed.

Lemma prefix_row_nth x s2 j :
  j < length s2 + 1 ->
  nth j (prefix_row x s2) 0 = classic_edit_distance x (take j s2).
Proof. intros Hj. unfold prefix_row. now rewrite nth_map_seq. Qed.

(** The inner loop, started after the prefix [y1] of [s2], completes the
    row of [x ++ [c1]]. *)
Lemma row_step_fold x c1 y2 : forall y1,
  fold_left (AttributeChecker.row_step c1 (prefix_row x (y1 ++ y2)))
            (combine (seq (length y1) (length y2)) y2)
            (List.map (fun j => classic_edit_distance (x ++ [c1]) (take j (y1 ++ y2)))
                      (seq 0 (length y1 + 1)))
  = prefix_row (x ++ [c1]) (y1 ++ y2).
Proof.
  induction y2 as [|c2 y2 IH]; intros y1.
  - simpl. unfold prefix_row. now rewrite app_nil_r.
  - cbn [length seq combine fold_left].
    replace (y1 ++ c2 :: y2) with ((y1 ++ [c2]) ++ y2) by now rewrite <- app_assoc.
    specialize (IH (y1 ++ [c2])).
    replace (length (y1 ++ [c2])) with (S (length y1)) in IH
      by (rewrite length_app; simpl; lia).
    rewrite <- IH. f_equal.
    unfold AttributeChecker.row_step.
    replace (S (length y1) + 1) with (S (length y1 + 1)) by lia.
    rewrite seq_S, map_app. cbn [List.map Nat.add]. f_equal. f_equal.
    rewrite !prefix_row_nth by (rewrite !length_app; simpl; lia).
    rewrite nth_map_seq by lia.
    rewrite <- !app_assoc. cbn [app].
    rewrite take_length_app1, take_length_app.
    symmetry. apply ced_snoc.
Qed.

Lemma next_row_prefix x c1 s2 :
  AttributeChecker.next_row s2 (prefix_row x s2) (length x, c1) = prefix_row (x ++ [c1]) s2.
Proof.
  unfold AttributeChecker.next_row, enumerate.
  pose proof (row_step_fold x c1 s2 []) as E. cbn [app length Nat.add seq List.map] in E.
  rewrite ced_nil_r, length_app in E. exact E.
Qed.

(** The outer loop, started after the prefix [x1] of the first string. *)
Lemma next_row_fold s2 x2 : forall x1,
  fold_left (AttributeChecker.next_row s2) (combine (seq (length x1) (length x2)) x2)
            (prefix_row x1 s2)
  = prefix_row (x1 ++ x2) s2.
Proof.
  induction x2 as [|c1 x2 IH]; intros x1.
  - simpl. now rewrite app_nil_r.
  - cbn [length seq combine fold_left]. rewrite next_row_prefix.
    specialize (IH (x1 ++ [c1])).
    replace (length (x1 ++ [c1])) with (S (length x1)) in IH
      by (rewrite length_app; simpl; lia).
    rewrite IH, <- app_assoc. reflexivity.
Qed.

Lemma prefix_row_nil s2 : prefix_row [] s2 = seq 0 (length s2 + 1).
Proof.
  unfold prefix_row. rewrite <- (map_id (seq 0 (length s2 + 1))) at 2.
  apply map_ext_in. intros j Hj. apply in_seq in Hj.
  rewrite ced_nil_l, length_take. lia.
Qed.

Lemma prefix_row_last s1 s2 :
  List.last (prefix_row s1 s2) 0 = classic_edit_distance s1 s2.
Proof.
  unfold prefix_row. replace (length s2 + 1) with (S (length s2)) by lia.
  rewrite seq_S, map_app. cbn [List.map Nat.add]. rewrite last_last.
  now rewrite firstn_all.
Qed.

(** The rolling buffer computes the classic distance, whatever the
    lengths of the two strings. *)
Lemma levenshtein_rows_classic s1 s2 :
  AttributeChecker.levenshtein_rows s1 s2 = classic_edit_distance s1 s2.
Proof.
  unfold AttributeChecker.levenshtein_rows.
  destruct (Nat.eqb_spec (length s2) 0) as [E|_].
  - destruct s2; [|discriminate]. now rewrite ced_nil_r.
  - rewrite <- prefix_row_nil. unfold enumerate.
    pose proof (next_row_fold s2 s1 []) as E. cbn [length app] in E.
    rewrite E. apply prefix_row_last.
Qed.

Lemma levenshtein_distance_classic (s1 s2 : string) :
  AttributeChecker._levenshtein_distance s1 s2 =
  classic_edit_distance (list_ascii_of_string s1) (list_ascii_of_string s2).
Proof.
  unfold AttributeChecker._levenshtein_distance.
  destruct (Nat.ltb _ _); rewrite levenshtein_rows_classic; [apply ced_sym | reflexivity].
Qed.
End LevenshteinFacts.

Lemma length_list_ascii_of_string (s : string) :
  length (list_ascii_of_string s) = String.length s.
Proof. induction s as [|c s IH]; simpl; congruence. Qed.

(** C8. [_levenshtein_distance] is the classic unit-cost edit distance:
    it agrees with the recursive definition on all strings, gives 3 for
    "kitten"/"sitting" and for ""/"abc", 0 for "abc"/"abc"; the distance of
    a string to itself is 0, the distance to the empty string is the length
    of the other string, and the similarity of a string with itself is
    exactly 1.0. *)
Theorem levenshtein_is_classic_edit_distance :
  (forall s1 s2 : string,
     AttributeChecker._levenshtein_distance s1 s2 =
     classic_edit_distance (list_ascii_of_string s1) (list_ascii_of_string s2)) /\
  AttributeChecker._levenshtein_distance "kitten" "sitting" = 3 /\
  AttributeChecker._levenshtein_distance "" "abc" = 3 /\
  AttributeChecker._levenshtein_distance "abc" "abc" = 0 /\
  (forall s : string, AttributeChecker._levenshtein_distance s s = 0) /\
  (forall s : string,
     AttributeChecker._levenshtein_distance "" s = String.length s /\
     AttributeChecker._levenshtein_distance s "" = String.length s) /\
  (forall s : string, AttributeChecker._levenshtein_similarity s s = 1%float).
Proof.
  split; [exact levenshtein_distance_classic|].
  split; [reflexivity|]. split; [reflexivity|]. split; [reflexivity|].
  split; [|split].
  - intros s. rewrite levenshtein_distance_classic. apply ced_refl.
  - intros s. rewrite !levenshtein_distance_classic. simpl list_ascii_of_string.
    rewrite ced_nil_l, ced_nil_r. split; apply length_list_ascii_of_string.
  - intros s. unfold AttributeChecker._levenshtein_similarity.
    now rewrite String.eqb_refl.
Qed.

(** ** Comparison keys *)

Section KeyFacts.
Context `{PyRuntime} {Geom : Type}.
Implicit Types (self : AttributeChecker.t) (attrs : list (string * FieldValue)).

Lemma key_entry_null self attrs name :
  field_is_null attrs name = true -> key_entry self attrs name = VNull.
Proof.
  unfold field_is_null, key_entry, AttributeChecker.raw_is_null.
  destruct (feature_getitem attrs name) as [[]|]; intros; congruence.
Qed.

Lemma key_entry_value self attrs name :
  field_is_null attrs name = false ->
  key_entry self attrs name =
  let value := match feature_getitem attrs name with Some v => v | None => VNull end in
  if AttributeChecker.normalize self then AttributeChecker._normalize_value self value
  else value.
Proof.
  unfold field_is_null, key_entry, AttributeChecker.raw_is_null.
  destruct (feature_getitem attrs name) as [[]|]; intros; congruence.
Qed.

(** The loop of [get_key] in closed form. *)
Lemma get_key_loop_closed self attrs names : forall values,
  AttributeChecker.get_key_loop self attrs names values =
  if AttributeChecker.ignore_null self && existsb (field_is_null attrs) names
  then None
  else Some (values ++ List.map (key_entry self attrs) names).
Proof.
  induction names as [|name names IH]; intros values.
  - simpl. rewrite andb_false_r, app_nil_r. reflexivity.
  - cbn [AttributeChecker.get_key_loop existsb List.map].
    fold (field_is_null attrs name).
    destruct (field_is_null attrs name) eqn:En.
    + rewrite (key_entry_null _ _ _ En).
      destruct (AttributeChecker.ignore_null self) eqn:Ei; [reflexivity|].
      rewrite IH, ?Ei, <- app_assoc. reflexivity.
    + rewrite (key_entry_value _ _ _ En). cbv zeta.
      rewrite IH, <- app_assoc. reflexivity.
Qed.

Lemma get_key_closed self (feature : QgsFeature Geom) :
  AttributeChecker.get_key self feature =
  if AttributeChecker.ignore_null self
     && existsb (field_is_null (attributes feature)) (AttributeChecker.fields self)
  then None
  else Some (List.map (key_entry self (attributes feature)) (AttributeChecker.fields self)).
Proof. unfold AttributeChecker.get_key. now rewrite get_key_loop_closed. Qed.
End KeyFacts.

(** C6. [get_key] returns no key exactly when [ignore_null] is enabled and
    some configured field is null or missing in the feature; otherwise it
    returns the tuple of the configured fields in order, with NULL for null
    or missing values.  In [compare], a pair in which a feature has no key
    never matches, even when both keys are absent, and two features whose
    keys are present and equal match with score 1.0. *)
Theorem get_key_and_compare_nulls `{PyRuntime} {Geom : Type}
    (self : AttributeChecker.t) (f1 f2 : QgsFeature Geom) :
  (AttributeChecker.get_key self f1 = None <->
   AttributeChecker.ignore_null self = true /\
   exists name, In name (AttributeChecker.fields self) /\
                field_is_null (attributes f1) name = true) /\
  (AttributeChecker.get_key self f1 <> None ->
   AttributeChecker.get_key self f1 =
   Some (List.map (key_entry self (attributes f1)) (AttributeChecker.fields self))) /\
  (AttributeChecker.get_key self f1 = None \/ AttributeChecker.get_key self f2 = None ->
   is_match (AttributeChecker.compare self f1 f2) = false) /\
  (forall key1 key2,
     AttributeChecker.get_key self f1 = Some key1 ->
     AttributeChecker.get_key self f2 = Some key2 ->
     key_eqb key1 key2 = true ->
     is_match (AttributeChecker.compare self f1 f2) = true /\
     score_of (AttributeChecker.compare self f1 f2) = 1%float).
Proof.
  split; [|split; [|split]].
  - rewrite get_key_closed. split.
    + destruct (AttributeChecker.ignore_null self); [|discriminate].
      destruct (existsb _ _) eqn:E; [|discriminate].
      intros _. split; [reflexivity|]. apply existsb_exists in E. exact E.
    + intros [Hi Hex]. rewrite Hi. apply existsb_exists in Hex. now rewrite Hex.
  - intros Hk. rewrite get_key_closed in *.
    destruct (_ && _); [congruence | reflexivity].
  - unfold AttributeChecker.compare, is_match.
    intros [-> | E]; [reflexivity|]. rewrite E.
    now destruct (AttributeChecker.get_key self f1).
  - intros key1 key2 E1 E2 Eq. unfold AttributeChecker.compare, is_match, score_of.
    rewrite E1, E2, Eq. split; reflexivity.
Qed.

Lemma get_key_and_compare_nulls_witness :
  AttributeChecker.get_key (H := Line.runtime) Line.name_checker
    (Line.named_feature 1 VNull) = None /\
  is_match (AttributeChecker.compare (H := Line.runtime) Line.name_checker
              (Line.named_feature 1 VNull) (Line.named_feature 2 VNull)) = false /\
  score_of (AttributeChecker.compare (H := Line.runtime) Line.name_checker
              (Line.named_feature 3 (VText "Paris")) (Line.named_feature 4 (VText "Paris")))
  = 1%float.
Proof.
  destruct (get_key_and_compare_nulls (H := Line.runtime) Line.name_checker
              (Line.named_feature 1 VNull) (Line.named_feature 2 VNull))
    as (Hnone & _ & Hnull & _).
  destruct (get_key_and_compare_nulls (H := Line.runtime) Line.name_checker
              (Line.named_feature 3 (VText "Paris")) (Line.named_feature 4 (VText "Paris")))
    as (_ & _ & _ & Hequal).
  split; [|split].
  - apply Hnone. split; [reflexivity|]. exists "name". split; [now left | reflexivity].
  - apply Hnull. left. reflexivity.
  - apply (Hequal [VText "Paris"] [VText "Paris"]); reflexivity.
Defined.

(** ** Geometry comparison *)

Lemma float_zero_not_positive (x : float) :
  PrimFloat.eqb x 0%float = true -> PrimFloat.ltb 0%float x = false.
Proof.
  rewrite FloatAxioms.eqb_spec, FloatAxioms.ltb_spec.
  change (Prim2SF 0%float) with (S754_zero false).
  destruct (Prim2SF x) as [[]|[]| |[] m e]; cbv; congruence.
Qed.

(** C7. For non-null geometries, [_compare_centroid] reports no match
    when a centroid cannot be computed; otherwise it matches exactly when
    the distance of the centroids is at most the tolerance, and then the
    score is [max(0.5, 1 - distance/tolerance)] for a positive tolerance
    and 1.0 for a zero tolerance. *)
Theorem compare_centroid_rule `{PyRuntime} {Geom : Type} `{GeometryEngine Geom}
    (self : GeometryChecker.t) (g1 g2 : Geom) (tolerance : float) :
  (centroid g1 = None \/ centroid g2 = None ->
   is_match (GeometryChecker._compare_centroid self g1 g2 tolerance) = false) /\
  (forall c1 c2 : Geom,
     centroid g1 = Some c1 -> centroid g2 = Some c2 ->
     (is_match (GeometryChecker._compare_centroid self g1 g2 tolerance) = true <->
      PrimFloat.leb (distance c1 c2) tolerance = true) /\
     (PrimFloat.leb (distance c1 c2) tolerance = true ->
      PrimFloat.ltb 0%float tolerance = true ->
      score_of (GeometryChecker._compare_centroid self g1 g2 tolerance) =
      py_max 0.5%float (PrimFloat.sub 1%float (PrimFloat.div (distance c1 c2) tolerance))) /\
     (PrimFloat.leb (distance c1 c2) tolerance = true ->
      PrimFloat.eqb tolerance 0%float = true ->
      score_of (GeometryChecker._compare_centroid self g1 g2 tolerance) = 1%float)).
Proof.
  unfold GeometryChecker._compare_centroid, is_match, score_of. split.
  - intros [-> | E]; [reflexivity|]. rewrite E. now destruct (centroid g1).
  - intros c1 c2 -> ->. cbv zeta.
    destruct (PrimFloat.leb (distance c1 c2) tolerance) eqn:Ed; cbn [fst snd].
    + split; [tauto|]. split.
      * intros _ ->. reflexivity.
      * intros _ E0. now rewrite (float_zero_not_positive _ E0).
    + split; [split; discriminate|]. split; discriminate.
Qed.

Lemma compare_centroid_rule_witness :
  is_match (GeometryChecker._compare_centroid (H := Line.runtime) (H0 := Line.engine)
              (GeometryChecker.mk 2 1 false 8) [0%Z] [1%Z] 2%float) = true /\
  score_of (GeometryChecker._compare_centroid (H := Line.runtime) (H0 := Line.engine)
              (GeometryChecker.mk 2 1 false 8) [0%Z] [1%Z] 2%float) = 0.5%float.
Proof.
  destruct (compare_centroid_rule (H := Line.runtime) (H0 := Line.engine)
              (GeometryChecker.mk 2 1 false 8) [0%Z] [1%Z] 2%float) as [_ Hc].
  destruct (Hc [0%Z] [1%Z] eq_refl eq_refl) as (Hm & Hs & _).
  split.
  - apply Hm. reflexivity.
  - rewrite Hs; reflexivity.
Defined.

Section HashFacts.
Context `{PyRuntime} {Geom : Type} `{GeometryEngine Geom}.

(** A digest is never the null sentinel. *)
Lemma hash_geometry_not_null_sentinel (self : GeometryChecker.t) (g : Geom) :
  GeometryChecker.hash_geometry self (Some g) <> "NULL".
Proof.
  unfold GeometryChecker.hash_geometry. cbn [isNull]. intros E.
  pose proof (md5_hexdigest_length
                (GeometryChecker.wkb_of (GeometryChecker._normalize_geometry self (Some g))))
    as L.
  rewrite E in L. discriminate L.
Qed.

Lemma compare_wkb_match (self : GeometryChecker.t) (g1 g2 : Geom) :
  GeometryChecker.hash_geometry self (Some g1) = GeometryChecker.hash_geometry self (Some g2) <->
  is_match (GeometryChecker._compare_wkb self g1 g2) = true /\
  score_of (GeometryChecker._compare_wkb self g1 g2) = 1%float.
Proof.
  unfold GeometryChecker._compare_wkb, is_match, score_of. cbv zeta.
  destruct (String.eqb_spec (GeometryChecker.hash_geometry self (Some g1))
                            (GeometryChecker.hash_geometry self (Some g2))) as [E|N];
    cbn [fst snd]; [tauto|].
  split; [contradiction | intros [? _]; discriminate].
Qed.
End HashFacts.

(** C2, as the code has it.  The null geometry hashes to the fixed
    sentinel "NULL", so that two null geometries hash-equal; but [compare]
    returns no match with score 0.0 as soon as one of the two geometries is
    null, whatever the method and the tolerance.  With the exact-hash method
    and multipart decomposition off, for geometries that are not both null,
    the hashes are equal exactly when [compare] with tolerance 0 reports a
    match with score 1.0. *)
Theorem exact_hash_agrees_with_compare `{PyRuntime} {Geom : Type} `{GeometryEngine Geom}
    (self : GeometryChecker.t) (A B : QgsGeometry Geom) :
  (GeometryChecker.hash_geometry self None = "NULL" /\
   (isNull A = true -> isNull B = true ->
    GeometryChecker.hash_geometry self A = GeometryChecker.hash_geometry self B)) /\
  (forall override : option float,
     isNull A || isNull B = true ->
     is_match (GeometryChecker.compare self A B override) = false /\
     score_of (GeometryChecker.compare self A B override) = 0%float) /\
  (GeometryChecker.compare_method self = GeometryChecker.METHOD_WKB_HASH ->
   GeometryChecker.decompose_multipart self = false ->
   isNull A && isNull B = false ->
   (GeometryChecker.hash_geometry self A = GeometryChecker.hash_geometry self B <->
    is_match (GeometryChecker.compare self A B (Some 0%float)) = true /\
    score_of (GeometryChecker.compare self A B (Some 0%float)) = 1%float)).
Proof.
  split; [|split].
  - split; [reflexivity|]. now destruct A, B.
  - intros override Hnull. unfold GeometryChecker.compare.
    destruct A as [a|], B as [b|]; try discriminate Hnull; split; reflexivity.
  - intros Hm Hd Hn. unfold GeometryChecker.compare. rewrite Hd.
    destruct A as [a|], B as [b|]; try discriminate Hn.
    + unfold GeometryChecker._compare_single. rewrite Hm.
      cbn [Z.eqb GeometryChecker.METHOD_WKB_HASH]. apply compare_wkb_match.
    + split; [|intros [? _]; discriminate].
      intros E. now apply hash_geometry_not_null_sentinel in E.
    + split; [|intros [? _]; discriminate].
      intros E. symmetry in E. now apply hash_geometry_not_null_sentinel in E.
Qed.

Lemma exact_hash_agrees_with_compare_witness :
  is_match (GeometryChecker.compare (H := Line.runtime) (H0 := Line.engine)
              (GeometryChecker.mk 0 0 false 8) (Some [5%Z]) (Some [5%Z]) (Some 0%float))
  = true /\
  score_of (GeometryChecker.compare (H := Line.runtime) (H0 := Line.engine)
              (GeometryChecker.mk 0 0 false 8) (Some [5%Z]) (Some [5%Z]) (Some 0%float))
  = 1%float.
Proof.
  apply (proj2 (proj2 (exact_hash_agrees_with_compare (H := Line.runtime) (H0 := Line.engine)
                         (GeometryChecker.mk 0 0 false 8) (Some [5%Z]) (Some [5%Z])))
               eq_refl eq_refl eq_refl).
  reflexivity.
Defined.

(** C2 as stated fails for two null geometries: their hashes are equal
    (both are the sentinel), while [compare] refuses any pair with a null
    geometry. *)
Lemma exact_hash_null_pair_counterexample :
  ~ (GeometryChecker.hash_geometry (H := Line.runtime) (H0 := Line.engine)
       (GeometryChecker.mk 0 0 false 8) None =
     GeometryChecker.hash_geometry (H := Line.runtime) (H0 := Line.engine)
       (GeometryChecker.mk 0 0 false 8) None <->
     is_match (GeometryChecker.compare (H := Line.runtime) (H0 := Line.engine)
                 (GeometryChecker.mk 0 0 false 8) None None (Some 0%float)) = true /\
     score_of (GeometryChecker.compare (H := Line.runtime) (H0 := Line.engine)
                 (GeometryChecker.mk 0 0 false 8) None None (Some 0%float)) = 1%float).
Proof. intros [Hh _]. destruct (Hh eq_refl) as [Hm _]. discriminate Hm. Qed.

(** With multipart decomposition on, [compare] matches two geometries as
    soon as one part of each agree, whatever their hashes. *)
Example decomposed_compare_ignores_other_parts :
  GeometryChecker.hash_geometry (H := Line.runtime) (H0 := Line.engine)
    (GeometryChecker.mk 0 0 true 8) (Some [1%Z; 2%Z]) <>
  GeometryChecker.hash_geometry (H := Line.runtime) (H0 := Line.engine)
    (GeometryChecker.mk 0 0 true 8) (Some [1%Z; 3%Z]) /\
  GeometryChecker.compare (H := Line.runtime) (H0 := Line.engine)
    (GeometryChecker.mk 0 0 true 8) (Some [1%Z; 2%Z]) (Some [1%Z; 3%Z]) (Some 0%float)
  = (true, 1%float, "Exact WKB match").
Proof. split; [discriminate | reflexivity]. Qed.

(** ** Failing fast *)

(** C5. [detect] raises as soon as the layer is missing or invalid, and
    raises when attribute detection is asked for with an empty field list
    (with the error of [_detect_attribute_duplicates] when the layer is
    valid and no sampling takes place); a raised error is the whole
    result, no group list comes with it. *)
Theorem detect_fails_fast `{PyRuntime} {Geom : Type} `{GeometryEngine Geom}
    (self : DuplicateDetector.t) :
  (DuplicateDetector.layer self = None \/
   (exists lyr, DuplicateDetector.layer self = Some lyr /\ isValid lyr = false) ->
   DuplicateDetector.detect self = Raise (ValueError "Invalid or missing layer")) /\
  (DuplicateDetector.detection_type self = "attribute" ->
   DuplicateDetector.fields self = [] ->
   (exists e, DuplicateDetector.detect self = Raise e) /\
   (forall lyr, DuplicateDetector.layer self = Some lyr -> isValid lyr = true ->
                DuplicateDetector.sample_mode self = false ->
                DuplicateDetector.detect self =
                Raise (ValueError "No fields specified for attribute detection"))).
Proof.
  unfold DuplicateDetector.detect. split.
  - intros [-> | (lyr & -> & ->)]; reflexivity.
  - intros Ht Hf. split.
    + destruct (DuplicateDetector.layer self) as [lyr|]; [|eauto].
      destruct (negb (isValid lyr)); [eauto|].
      match goal with
      | |- context [if ?c then DuplicateDetector._sample_features self lyr else ?o] =>
          destruct (if c then DuplicateDetector._sample_features self lyr else o)
            as [features|e]; [|eauto]
      end.
      rewrite Ht. cbn [String.eqb Ascii.eqb Bool.eqb].
      unfold DuplicateDetector._detect_attribute_duplicates. rewrite Hf. eauto.
    + intros lyr El Ev Es. rewrite El, Ev, Es. cbn [negb andb].
      rewrite Ht. cbn [String.eqb Ascii.eqb Bool.eqb].
      unfold DuplicateDetector._detect_attribute_duplicates. rewrite Hf. reflexivity.
Qed.

Lemma detect_fails_fast_witness :
  DuplicateDetector.detect (H := Line.runtime) (H0 := Line.engine)
    (Line.detector None "geometry" 0 0 [] None)
  = Raise (ValueError "Invalid or missing layer") /\
  DuplicateDetector.detect (H := Line.runtime) (H0 := Line.engine)
    (Line.detector (Some (Line.layer_of [Line.point_feature 1 5])) "attribute" 0 0 [] None)
  = Raise (ValueError "No fields specified for attribute detection").
Proof.
  split.
  - apply (proj1 (detect_fails_fast (H := Line.runtime) (H0 := Line.engine)
                    (Line.detector None "geometry" 0 0 [] None))).
    left. reflexivity.
  - apply (proj2 (proj2 (detect_fails_fast (H := Line.runtime) (H0 := Line.engine)
                           (Line.detector (Some (Line.layer_of [Line.point_feature 1 5]))
                                          "attribute" 0 0 [] None))
                        eq_refl eq_refl)
                 (Line.layer_of [Line.point_feature 1 5]));
      reflexivity.
Defined.

(** ** Consolidation *)

Section ConsolidationFacts.
Context `{PyRuntime}.

Lemma made_of_mono seen more g' : made_of seen g' -> made_of (seen ++ more) g'.
Proof.
  intros [(g & Hg & Hs) Hids]. split.
  - exists g. split; [apply elem_of_app; auto | exact Hs].
  - intros fid Hfid. destruct (Hids fid Hfid) as (g0 & Hg0 & Hin).
    exists g0. split; [apply elem_of_app; auto | exact Hin].
Qed.

Lemma made_of_new seen g : made_of (seen ++ [g]) g.
Proof.
  assert (g ∈ seen ++ [g]) as Hin by (apply elem_of_app; right; apply list_elem_of_singleton; reflexivity).
  split.
  - exists g. split; [exact Hin | split; [reflexivity | reflexivity]].
  - intros fid Hfid. exists g. auto.
Qed.

Lemma made_of_merge seen e g : made_of seen e -> g ∈ seen -> made_of seen (merge_with e g).
Proof.
  intros [(g0 & Hg0 & Hsub & Hkeep) Hids] Hg. split.
  - exists g0. split; [exact Hg0|].
    split; [cbn; set_solver | exact Hkeep].
  - intros fid Hfid. cbn in Hfid. apply elem_of_union in Hfid as [Hfid|Hfid].
    + exact (Hids fid Hfid).
    + exists g. split; assumption.
Qed.

Lemma consolidate_step_made_of seen st group :
  Forall (made_of seen) (snd st) ->
  Forall (made_of (seen ++ [group])) (snd (DuplicateDetector.consolidate_step st group)).
Proof.
  destruct st as [f2g cons]. cbn [snd]. intros Hall.
  unfold DuplicateDetector.consolidate_step.
  destruct (DuplicateDetector.find_existing f2g (set_iter (feature_ids group))) as [handle|];
    cbn [snd].
  - apply Forall_alter.
    + eapply Forall_impl; [exact Hall|]. intros g'. apply made_of_mono.
    + intros e _ He. apply made_of_merge; [exact He|].
      apply elem_of_app. right. apply list_elem_of_singleton. reflexivity.
  - apply Forall_app. split.
    + eapply Forall_impl; [exact Hall|]. intros g'. apply made_of_mono.
    + constructor; [apply made_of_new | constructor].
Qed.
End ConsolidationFacts.

Section ConsolidationResult.
Context `{PyRuntime}.

Lemma consolidate_fold_made_of groups : forall seen st,
  Forall (made_of seen) (snd st) ->
  Forall (made_of (seen ++ groups))
         (snd (fold_left DuplicateDetector.consolidate_step groups st)).
Proof.
  induction groups as [|group groups IH]; intros seen st Hall.
  - now rewrite app_nil_r.
  - cbn [fold_left].
    replace (seen ++ group :: groups) with ((seen ++ [group]) ++ groups)
      by now rewrite <- app_assoc.
    apply IH, consolidate_step_made_of, Hall.
Qed.

(** Every consolidated group stems from a candidate group and holds ids
    of candidate groups only. *)
Lemma consolidate_groups_made_of groups g' :
  g' ∈ DuplicateDetector._consolidate_groups groups -> made_of groups g'.
Proof.
  unfold DuplicateDetector._consolidate_groups.
  destruct groups as [|g0 rest]; [intros Hin; inversion Hin|].
  intros Hin.
  pose proof (consolidate_fold_made_of (g0 :: rest) [] (∅, [])
                (List.Forall_nil (made_of []))) as Hall.
  rewrite Forall_forall in Hall. exact (Hall g' Hin).
Qed.
End ConsolidationResult.

(** [closed_set_fact] decides a membership fact about explicit sets. *)
Ltac closed_set_fact := apply (bool_decide_unpack _); vm_compute; exact I.

Section ConsolidationSteps.
Context `{PyRuntime}.

Lemma set_iter_elem (s : gset Z) (x : Z) : x ∈ set_iter s <-> x ∈ s.
Proof. rewrite (set_iter_perm s). apply elem_of_elements. Qed.

Lemma find_existing_None (m : gmap Z nat) (ids : list Z) :
  (forall fid, fid ∈ ids -> m !! fid = None) ->
  DuplicateDetector.find_existing m ids = None.
Proof.
  induction ids as [|fid ids IH]; intros Hnone; cbn [DuplicateDetector.find_existing].
  - reflexivity.
  - rewrite (Hnone fid) by left. apply IH. intros x Hx. apply Hnone. now right.
Qed.

Lemma assign_all_lookup (ids : list Z) (handle : nat) (x : Z) : forall m : gmap Z nat,
  DuplicateDetector.assign_all m ids handle !! x =
  if bool_decide (x ∈ ids) then Some handle else m !! x.
Proof.
  unfold DuplicateDetector.assign_all.
  induction ids as [|fid ids IH]; intros m; cbn [fold_left].
  - now rewrite bool_decide_eq_false_2 by (intros Hx; inversion Hx).
  - rewrite IH. destruct (decide (x ∈ ids)) as [Hin|Hnin].
    + rewrite !bool_decide_eq_true_2; [reflexivity | now right | exact Hin].
    + rewrite (bool_decide_eq_false_2 _ Hnin).
      destruct (decide (x = fid)) as [->|Hne].
      * rewrite lookup_insert_eq. now rewrite bool_decide_eq_true_2 by left.
      * rewrite lookup_insert_ne by congruence.
        rewrite bool_decide_eq_false_2; [reflexivity|].
        intros Hx. apply elem_of_cons in Hx as [?|?]; auto.
Qed.

(** A group none of whose ids has an owner is accepted as it is. *)
Lemma consolidate_step_new (m : gmap Z nat) (consolidated : list DuplicateGroup)
    (group : DuplicateGroup) :
  (forall fid, fid ∈ feature_ids group -> m !! fid = None) ->
  DuplicateDetector.consolidate_step (m, consolidated) group =
  (DuplicateDetector.assign_all m (set_iter (feature_ids group)) (length consolidated),
   consolidated ++ [group]).
Proof.
  intros Hnone. unfold DuplicateDetector.consolidate_step.
  rewrite find_existing_None; [reflexivity|].
  intros fid Hfid. apply Hnone. rewrite (set_iter_perm (feature_ids group)) in Hfid.
  now apply elem_of_elements.
Qed.

(** A group whose first id, in iteration order, has an owner is merged
    into that owner. *)
Lemma consolidate_step_merge (m : gmap Z nat) (consolidated : list DuplicateGroup)
    (group : DuplicateGroup) (fid : Z) (rest : list Z) (handle : nat) :
  set_iter (feature_ids group) = fid :: rest ->
  m !! fid = Some handle ->
  snd (DuplicateDetector.consolidate_step (m, consolidated) group) =
  alter (fun existing_group => merge_with existing_group group) handle consolidated.
Proof.
  intros Hiter Hm. unfold DuplicateDetector.consolidate_step.
  rewrite Hiter. cbn [DuplicateDetector.find_existing]. now rewrite Hm.
Qed.

(** Candidate groups that share no id pass through consolidation
    unchanged. *)
Lemma consolidate_fold_disjoint (rest : list DuplicateGroup) :
  forall (m : gmap Z nat) (consolidated : list DuplicateGroup),
    (forall x handle, m !! x = Some handle ->
                      exists g, g ∈ consolidated /\ x ∈ feature_ids g) ->
    (forall g0 g, g0 ∈ consolidated -> g ∈ rest -> disjoint_ids g0 g) ->
    ForallOrdPairs disjoint_ids rest ->
    snd (fold_left DuplicateDetector.consolidate_step rest (m, consolidated))
    = consolidated ++ rest.
Proof.
  induction rest as [|group rest IH]; intros m consolidated Hm Hcross Hpairs;
    cbn [fold_left]; [now rewrite app_nil_r|].
  inversion Hpairs as [|? ? Hgroup Hrest]; subst.
  rewrite consolidate_step_new.
  - rewrite IH; [now rewrite <- app_assoc | | | exact Hrest].
    + intros x handle. rewrite assign_all_lookup.
      case_bool_decide as Hx.
      * intros _. exists group. split; [apply elem_of_app; right; left|].
        rewrite (set_iter_perm (feature_ids group)) in Hx. now apply elem_of_elements.
      * intros Hxm. destruct (Hm x handle Hxm) as (g & Hg & Hin).
        exists g. split; [apply elem_of_app; now left | exact Hin].
    + intros g0 g Hg0 Hg. apply elem_of_app in Hg0 as [Hg0|Hg0].
      * apply Hcross; [exact Hg0 | now right].
      * apply list_elem_of_singleton in Hg0 as ->.
        rewrite List.Forall_forall in Hgroup. apply Hgroup. now apply list_elem_of_In.
  - intros fid Hfid. destruct (m !! fid) as [handle|] eqn:Hmf; [|reflexivity].
    destruct (Hm fid handle Hmf) as (g0 & Hg0 & Hin).
    exfalso. apply (Hcross g0 group Hg0 ltac:(left) fid Hin Hfid).
Qed.

Lemma consolidate_groups_disjoint (groups : list DuplicateGroup) :
  ForallOrdPairs disjoint_ids groups ->
  DuplicateDetector._consolidate_groups groups = groups.
Proof.
  intros Hpairs. unfold DuplicateDetector._consolidate_groups.
  destruct groups as [|g0 groups]; [reflexivity|].
  rewrite (consolidate_fold_disjoint (g0 :: groups) ∅ []); [reflexivity | | | exact Hpairs].
  - intros x handle Hx. rewrite lookup_empty in Hx. discriminate Hx.
  - intros g1 g Hg1. inversion Hg1.
Qed.
End ConsolidationSteps.

(** [_consolidate_groups] called on its own with candidates that overlap,
    which no scan of a run hands over.  The candidate groups {1,2} and
    {3,4} are accepted, then {2,3} overlaps both: it is merged into the
    owner of its first id in iteration order and the other accepted group is
    left as it is.  Whatever the iteration order of the set, the result
    holds one feature id in two groups. *)
Lemma consolidate_bridging_group_overlap `{PyRuntime} :
  ~ pairwise_disjoint
      (DuplicateDetector._consolidate_groups
         [Line.group_of [1; 2]; Line.group_of [3; 4]; Line.group_of [2; 3]]%Z).
Proof.
  unfold DuplicateDetector._consolidate_groups. cbn [fold_left].
  rewrite consolidate_step_new
    by (intros fid _; apply lookup_empty).
  cbn [length app].
  rewrite consolidate_step_new.
  2:{ intros fid Hfid. rewrite assign_all_lookup, lookup_empty.
      rewrite bool_decide_eq_false_2; [reflexivity|].
      rewrite set_iter_elem. apply elem_of_list_to_set in Hfid.
      apply elem_of_cons in Hfid as [->|Hfid]; [closed_set_fact|].
      apply list_elem_of_singleton in Hfid as ->. closed_set_fact. }
  cbn [length app].
  destruct (set_iter (feature_ids (Line.group_of [2; 3]%Z))) as [|fid rest] eqn:Hiter.
  { pose proof (set_iter_perm (feature_ids (Line.group_of [2; 3]%Z))) as Hp.
    rewrite Hiter in Hp. apply Permutation_nil in Hp.
    apply (f_equal length) in Hp. vm_compute in Hp. discriminate Hp. }
  assert (fid = 2 \/ fid = 3)%Z as Hfid.
  { assert (fid ∈ set_iter (feature_ids (Line.group_of [2; 3]%Z))) as Hin
      by (rewrite Hiter; left).
    apply set_iter_elem, elem_of_list_to_set in Hin.
    apply elem_of_cons in Hin as [->|Hin]; [now left|].
    apply list_elem_of_singleton in Hin as ->. now right. }
  destruct Hfid as [-> | ->].
  - rewrite (consolidate_step_merge _ _ _ 2%Z rest 0 Hiter).
    2:{ rewrite !assign_all_lookup, lookup_empty.
        rewrite bool_decide_eq_false_2 by (rewrite set_iter_elem; closed_set_fact).
        rewrite bool_decide_eq_true_2 by (rewrite set_iter_elem; closed_set_fact).
        reflexivity. }
    intros Hd. specialize (Hd 0 1 _ _ eq_refl eq_refl ltac:(discriminate)).
    apply (Hd 3%Z); closed_set_fact.
  - rewrite (consolidate_step_merge _ _ _ 3%Z rest 1 Hiter).
    2:{ rewrite !assign_all_lookup, lookup_empty.
        rewrite bool_decide_eq_true_2 by (rewrite set_iter_elem; closed_set_fact).
        reflexivity. }
    intros Hd. specialize (Hd 0 1 _ _ eq_refl eq_refl ltac:(discriminate)).
    apply (Hd 2%Z); closed_set_fact.
Qed.

(** The same run with sets iterated in increasing order: feature 3 is in
    both groups of the result. *)
Example consolidate_bridging_group_result :
  DuplicateDetector._consolidate_groups (H := Line.runtime)
    [Line.group_of [1; 2]; Line.group_of [3; 4]; Line.group_of [2; 3]]%Z
  = [Line.group_of [1; 2; 3]; Line.group_of [3; 4]]%Z.
Proof. vm_compute. reflexivity. Qed.

(** ** Priority resolution *)

Section ResolverFacts.
Context `{PyRuntime} {Geom : Type} `{GeometryEngine Geom}.

Lemma dict_keys_elem (ids : list Z) : forall keys x,
  x ∈ dict_keys ids keys <-> x ∈ keys \/ x ∈ ids.
Proof.
  induction ids as [|i ids IH]; intros keys x; cbn [dict_keys].
  - split; [auto | intros [?|Hx]; [assumption | inversion Hx]].
  - rewrite IH. case_bool_decide as Hi.
    + rewrite elem_of_cons. split; [tauto|].
      intros [?|[->|?]]; auto.
    + rewrite elem_of_app, list_elem_of_singleton, elem_of_cons. tauto.
Qed.

Lemma min_fid_spec (others : list Z) : forall first,
  min_fid first others ∈ first :: others /\
  forall x, x ∈ first :: others -> (min_fid first others <= x)%Z.
Proof.
  unfold min_fid. induction others as [|o others IH]; intros first; cbn [fold_left].
  - split; [left|]. intros x Hx. apply list_elem_of_singleton in Hx. lia.
  - destruct (IH (Z.min first o)) as [Hin Hle]. split.
    + apply elem_of_cons in Hin as [->|Hin].
      * destruct (Z.min_spec first o) as [[_ ->]|[_ ->]]; [left | right; left].
      * right. right. exact Hin.
    + intros x Hx. apply elem_of_cons in Hx as [->|Hx].
      * specialize (Hle (Z.min first o) ltac:(left)). lia.
      * apply elem_of_cons in Hx as [->|Hx].
        -- specialize (Hle (Z.min first o) ltac:(left)). lia.
        -- apply Hle. right. exact Hx.
Qed.

Lemma getFeatures_filtered_ids (lyr : QgsVectorLayer Geom) (fids : list Z) (x : Z) :
  x ∈ List.map feature_id (getFeatures_filtered lyr fids) <->
  x ∈ fids /\ x ∈ List.map feature_id (getFeatures lyr).
Proof.
  unfold getFeatures_filtered. rewrite !list_elem_of_In, !in_map_iff. split.
  - intros (f & <- & Hf). apply filter_In in Hf as [Hf Hb].
    apply bool_decide_eq_true in Hb. split; [now apply list_elem_of_In | eauto].
  - intros (Hx & f & <- & Hf). exists f. split; [reflexivity|].
    apply filter_In. split; [exact Hf|].
    apply bool_decide_eq_true. now apply list_elem_of_In.
Qed.

(** With the id fallback alone, a group whose ids are all in the layer
    is resolved to its smallest id. *)
Lemma resolve_group_fid_fallback (lyr : QgsVectorLayer Geom) (rules : PriorityRules)
    (group : DuplicateGroup) :
  only_fid_fallback rules ->
  feature_ids group <> ∅ ->
  (forall fid, fid ∈ feature_ids group -> fid ∈ List.map feature_id (getFeatures lyr)) ->
  exists m,
    PriorityResolver._resolve_group (PriorityResolver.init lyr rules) group = Some m /\
    is_smallest_id (feature_ids group) m.
Proof.
  intros (Hf & Hc & Ha & Hfb) Hne Hlayer.
  unfold PriorityResolver._resolve_group.
  destruct (Nat.ltb_spec (size (feature_ids group)) 2) as [Hsmall|Hbig].
  - assert (size (feature_ids group) = 1) as Hone.
    { assert (size (feature_ids group) <> 0); [|lia].
      intros Hz. apply size_empty_iff in Hz. apply Hne. now apply leibniz_equiv. }
    apply size_1_elem_of in Hone as [x Hx]. apply leibniz_equiv in Hx.
    pose proof (set_iter_perm (feature_ids group)) as Hp.
    rewrite Hx, elements_singleton in Hp.
    apply Permutation_sym, Permutation_length_1_inv in Hp.
    exists x. rewrite Hx, Hp. split; [reflexivity|].
    split; [set_solver|]. intros fid Hfid. apply elem_of_singleton in Hfid. lia.
  - cbn [PriorityResolver.layer PriorityResolver.init PriorityResolver.field_name
         PriorityResolver.use_completeness PriorityResolver.area_rule
         PriorityResolver.fid_fallback].
    rewrite Hf, Hc, Ha, Hfb. cbn [andb fid_truthy].
    assert (forall x,
              x ∈ dict_keys (List.map feature_id
                               (getFeatures_filtered lyr (set_iter (feature_ids group)))) []
              <-> x ∈ feature_ids group) as Hkeys.
    { intros x. rewrite dict_keys_elem, getFeatures_filtered_ids, set_iter_elem.
      split.
      - intros [Hx|[Hx _]]; [inversion Hx | exact Hx].
      - intros Hx. right. split; [exact Hx | apply Hlayer, Hx]. }
    destruct (dict_keys _ []) as [|first others] eqn:Ek.
    + exfalso. apply Hne. apply set_eq. intros x. rewrite <- Hkeys.
      split; intros Hx; [inversion Hx | set_solver].
    + exists (min_fid first others). split; [reflexivity|].
      destruct (min_fid_spec others first) as [Hin Hle]. split.
      * apply Hkeys, Hin.
      * intros fid Hfid. apply Hle, Hkeys, Hfid.
Qed.

Lemma resolve_elem (self : PriorityResolver.t) (groups : list DuplicateGroup)
    (g : DuplicateGroup) :
  g ∈ PriorityResolver.resolve self groups ->
  exists g0, g0 ∈ groups /\
             feature_ids g = feature_ids g0 /\
             suggested_keep g = PriorityResolver._resolve_group self g0.
Proof.
  unfold PriorityResolver.resolve. rewrite list_elem_of_In, in_map_iff.
  intros (g0 & <- & Hin). exists g0. rewrite list_elem_of_In. auto.
Qed.
End ResolverFacts.

(** ** The tolerance scan *)

Section ToleranceFacts.
Context `{PyRuntime} {Geom : Type} `{GeometryEngine Geom}.
Variables (self : DuplicateDetector.t (Geom := Geom)) (checker : GeometryChecker.t).
Variables (index : list (QgsFeature Geom)) (cache : gmap Z (QgsFeature Geom)).

Lemma eligible_candidate_fst processed fid cid p :
  eligible_candidate cache processed fid cid = Some p -> fst p = cid.
Proof.
  unfold eligible_candidate.
  destruct (_ || _); [discriminate|].
  destruct (cache !! cid) as [c|]; [|discriminate].
  destruct (geometry c); [|discriminate].
  now intros [= <-].
Qed.

Lemma eligible_candidate_spec processed fid cid p :
  eligible_candidate cache processed fid cid = Some p ->
  cid <> fid /\ (cid ∉ processed) /\
  exists candidate, cache !! cid = Some candidate /\ geometry candidate = Some (snd p).
Proof.
  unfold eligible_candidate.
  destruct (Z.eqb_spec cid fid) as [|Hne]; [discriminate|].
  case_bool_decide as Hp; [discriminate|]. cbn [orb].
  destruct (cache !! cid) as [c|]; [|discriminate].
  destruct (geometry c) as [cg|] eqn:Eg; [|discriminate].
  intros [= <-]. cbn [snd]. eauto.
Qed.

(** One turn of the loop over the candidates. *)
Lemma candidate_step_eligible processed fid geom duplicates score cid :
  DuplicateDetector.candidate_step self checker cache processed fid geom
    (duplicates, score) cid
  = match eligible_candidate cache processed fid cid with
    | None => (duplicates, score)
    | Some p =>
        (if is_match (comparison self checker geom p)
         then duplicates ++ [cid] else duplicates,
         Some (score_of (comparison self checker geom p)))
    end.
Proof.
  unfold DuplicateDetector.candidate_step, eligible_candidate.
  destruct (_ || _); [reflexivity|].
  destruct (cache !! cid) as [c|]; [|reflexivity].
  destruct (geometry c) as [cg|]; [|reflexivity].
  unfold comparison, is_match, score_of. cbn [snd].
  now destruct (GeometryChecker.compare checker (Some geom) (Some cg)
                  (Some (DuplicateDetector.tolerance self))) as [[m s] reason].
Qed.

(** The loop over the candidates in closed form: the matches are
    appended to [duplicates] and [score] is left bound to the score of
    the last comparison that ran. *)
Lemma candidate_fold_closed processed fid geom candidate_ids : forall duplicates score,
  fold_left (DuplicateDetector.candidate_step self checker cache processed fid geom)
            candidate_ids (duplicates, score)
  = (duplicates ++
     matched_candidates self checker geom
       (compared_candidates cache processed fid candidate_ids),
     match last (compared_candidates cache processed fid candidate_ids) with
     | Some p => Some (score_of (comparison self checker geom p))
     | None => score
     end).
Proof.
  unfold matched_candidates, compared_candidates.
  induction candidate_ids as [|cid rest IH]; intros duplicates score.
  - cbn. now rewrite app_nil_r.
  - cbn [fold_left omap list_omap]. rewrite candidate_step_eligible.
    destruct (eligible_candidate cache processed fid cid) as [p|] eqn:Ep; [|apply IH].
    rewrite IH, last_cons. cbn [List.filter].
    rewrite <- (eligible_candidate_fst _ _ _ _ Ep).
    destruct (is_match (comparison self checker geom p)); cbn [List.map];
      rewrite <- ?app_assoc; cbn [app]; (f_equal; now destruct (last _)).
Qed.

(** The body of the scan for a seed that is examined. *)
Lemma tolerance_step_seed st feature geom :
  feature_id feature ∉ fst (fst st) ->
  geometry feature = Some geom ->
  DuplicateDetector.tolerance_step self checker index cache st feature
  = seed_outcome self checker index cache st (feature_id feature) geom.
Proof.
  destruct st as [[processed groups] score]. cbn [fst]. intros Hnp Hg.
  unfold DuplicateDetector.tolerance_step, seed_outcome, candidates_of.
  rewrite bool_decide_eq_false_2 by exact Hnp. rewrite Hg.
  rewrite candidate_fold_closed. cbn [app length].
  now destruct (matched_candidates _ _ _ _).
Qed.

(** A feature already processed, or without geometry, is passed over. *)
Lemma tolerance_step_skip st feature :
  feature_id feature ∈ fst (fst st) \/ geometry feature = None ->
  DuplicateDetector.tolerance_step self checker index cache st feature = st.
Proof.
  destruct st as [[processed groups] score]. cbn [fst].
  unfold DuplicateDetector.tolerance_step. intros [Hp|Hg].
  - now rewrite bool_decide_eq_true_2.
  - rewrite Hg. now destruct (bool_decide _).
Qed.

Lemma tolerance_step_cases st feature :
  DuplicateDetector.tolerance_step self checker index cache st feature = st \/
  exists geom, (feature_id feature ∉ fst (fst st)) /\ geometry feature = Some geom /\
    DuplicateDetector.tolerance_step self checker index cache st feature
    = seed_outcome self checker index cache st (feature_id feature) geom.
Proof.
  destruct (decide (feature_id feature ∈ fst (fst st))) as [Hp|Hnp].
  - left. apply tolerance_step_skip. now left.
  - destruct (geometry feature) as [geom|] eqn:Hg.
    + right. exists geom. split; [exact Hnp|]. split; [reflexivity|].
      now apply tolerance_step_seed.
    + left. apply tolerance_step_skip. now right.
Qed.

Lemma matched_candidates_spec processed fid geom candidate_ids cid :
  cid ∈ matched_candidates self checker geom
          (compared_candidates cache processed fid candidate_ids) ->
  cid <> fid /\ (cid ∉ processed) /\
  exists candidate cgeom, cache !! cid = Some candidate /\ geometry candidate = Some cgeom.
Proof.
  unfold matched_candidates, compared_candidates.
  rewrite list_elem_of_In, in_map_iff. intros (p & <- & Hp).
  apply filter_In in Hp as [Hp _]. apply list_elem_of_In, list_elem_of_omap in Hp.
  destruct Hp as (cid & _ & He).
  rewrite (eligible_candidate_fst _ _ _ _ He).
  destruct (eligible_candidate_spec _ _ _ _ He) as (Hne & Hnp & c & Hc & Hgc).
  split; [exact Hne|]. split; [exact Hnp|]. eauto.
Qed.

Lemma seed_outcome_processed st fid geom :
  fst (fst st) ∪ {[fid]} ⊆ fst (fst (seed_outcome self checker index cache st fid geom)).
Proof.
  destruct st as [[processed groups] score]. unfold seed_outcome. cbn [fst].
  destruct (matched_candidates _ _ _ _); cbn [fst];
    [reflexivity | apply union_mono_l, union_subseteq_l].
Qed.

Lemma tolerance_step_processed st feature :
  fst (fst st) ⊆ fst (fst (DuplicateDetector.tolerance_step self checker index cache st feature)).
Proof.
  destruct (tolerance_step_cases st feature) as [->|(geom & _ & _ & ->)]; [reflexivity|].
  etransitivity; [|apply seed_outcome_processed]. apply union_subseteq_l.
Qed.

(** A turn of the scan leaves the groups as they are or creates one. *)
Lemma tolerance_step_groups st feature :
  snd (fst (DuplicateDetector.tolerance_step self checker index cache st feature))
  = snd (fst st) \/
  exists g,
    snd (fst (DuplicateDetector.tolerance_step self checker index cache st feature))
    = snd (fst st) ++ [g].
Proof.
  destruct (tolerance_step_cases st feature) as [->|(geom & _ & _ & ->)]; [now left|].
  destruct st as [[processed groups] score]. unfold seed_outcome. cbn [fst snd].
  destruct (matched_candidates _ _ _ _); cbn [fst snd]; eauto.
Qed.

(** Every group found by a scan was created by one of its turns. *)
Lemma tolerance_scan_groups scanned : forall st g,
  g ∈ snd (fst (DuplicateDetector.tolerance_scan self checker index cache scanned st)) ->
  g ∈ snd (fst st) \/
  exists pre seed post,
    scanned = pre ++ seed :: post /\
    snd (fst (DuplicateDetector.tolerance_step self checker index cache
                (DuplicateDetector.tolerance_scan self checker index cache pre st) seed))
    = snd (fst (DuplicateDetector.tolerance_scan self checker index cache pre st)) ++ [g].
Proof.
  unfold DuplicateDetector.tolerance_scan.
  induction scanned as [|f scanned IH] using rev_ind; intros st g Hg; [now left|].
  rewrite fold_left_app in Hg. cbn [fold_left] in Hg.
  destruct (tolerance_step_groups
              (fold_left (DuplicateDetector.tolerance_step self checker index cache) scanned st)
              f) as [E|[g' E]]; rewrite E in Hg.
  - apply IH in Hg as [Hg|(pre & seed & post & -> & Hstep)]; [now left|].
    right. exists pre, seed, (post ++ [f]). split; [now rewrite <- app_assoc | exact Hstep].
  - apply elem_of_app in Hg as [Hg|Hg].
    + apply IH in Hg as [Hg|(pre & seed & post & -> & Hstep)]; [now left|].
      right. exists pre, seed, (post ++ [f]). split; [now rewrite <- app_assoc | exact Hstep].
    + apply list_elem_of_singleton in Hg as ->.
      right. exists scanned, f, []. split; [reflexivity | exact E].
Qed.

Lemma tolerance_scan_processed features : forall st,
  fst (fst st) ⊆ fst (fst (DuplicateDetector.tolerance_scan self checker index cache features st)).
Proof.
  unfold DuplicateDetector.tolerance_scan.
  induction features as [|f features IH]; intros st; cbn [fold_left]; [reflexivity|].
  etransitivity; [apply (tolerance_step_processed st f) | apply IH].
Qed.
End ToleranceFacts.

(** C3. In the tolerance scan, a group created from a seed holds the seed
    and its matched candidates; its confidence is the score returned by
    the last comparison that ran for that seed (the 0.9 default would be
    used if none had run; a created group always has one), its reason
    names the tolerance, and all its members are in [processed]
    afterwards, so that the scan passes over each of them from then on. *)
Theorem tolerance_group_confidence_and_assignment
    `{PyRuntime} {Geom : Type} `{GeometryEngine Geom}
    (self : DuplicateDetector.t (Geom := Geom)) (checker : GeometryChecker.t)
    (index : list (QgsFeature Geom)) (cache : gmap Z (QgsFeature Geom))
    (st : DuplicateDetector.scan_state) (feature : QgsFeature Geom) (g : DuplicateGroup) :
  snd (fst (DuplicateDetector.tolerance_step self checker index cache st feature))
  = snd (fst st) ++ [g] ->
  exists geom,
    geometry feature = Some geom /\
    confidence_score g =
      match last (compared_candidates cache (fst (fst st)) (feature_id feature)
                                      (candidates_of self index geom)) with
      | Some p => score_of (comparison self checker geom p)
      | None => float_0_9
      end /\
    last (compared_candidates cache (fst (fst st)) (feature_id feature)
                              (candidates_of self index geom)) <> None /\
    feature_ids g =
      list_to_set (feature_id feature ::
                   matched_candidates self checker geom
                     (compared_candidates cache (fst (fst st)) (feature_id feature)
                                          (candidates_of self index geom))) /\
    match_reason g =
      "Within " +:+ py_float_str (DuplicateDetector.tolerance self) +:+ " tolerance" /\
    feature_ids g ⊆
      fst (fst (DuplicateDetector.tolerance_step self checker index cache st feature)) /\
    forall (later : list (QgsFeature Geom)) (f : QgsFeature Geom),
      feature_id f ∈ feature_ids g ->
      DuplicateDetector.tolerance_step self checker index cache
        (DuplicateDetector.tolerance_scan self checker index cache later
           (DuplicateDetector.tolerance_step self checker index cache st feature)) f
      = DuplicateDetector.tolerance_scan self checker index cache later
          (DuplicateDetector.tolerance_step self checker index cache st feature).
Proof.
  intros Hnew.
  destruct (tolerance_step_cases self checker index cache st feature)
    as [E|(geom & Hnp & Hg & E)].
  { rewrite E in Hnew. apply (f_equal length) in Hnew.
    rewrite length_app in Hnew. cbn in Hnew. lia. }
  exists geom. split; [exact Hg|].
  assert (feature_ids g ⊆
          fst (fst (DuplicateDetector.tolerance_step self checker index cache st feature)) ->
          forall (later : list (QgsFeature Geom)) (f : QgsFeature Geom),
            feature_id f ∈ feature_ids g ->
            DuplicateDetector.tolerance_step self checker index cache
              (DuplicateDetector.tolerance_scan self checker index cache later
                 (DuplicateDetector.tolerance_step self checker index cache st feature)) f
            = DuplicateDetector.tolerance_scan self checker index cache later
                (DuplicateDetector.tolerance_step self checker index cache st feature))
    as Hlater.
  { intros Hsub later f Hf. apply tolerance_step_skip. left.
    apply (tolerance_scan_processed self checker index cache later), Hsub, Hf. }
  revert Hlater. rewrite E in *. clear E.
  destruct st as [[processed groups] score]. cbn [fst snd] in *.
  unfold seed_outcome in *.
  set (compared := compared_candidates cache processed (feature_id feature)
                                       (candidates_of self index geom)) in *.
  destruct (matched_candidates self checker geom compared) as [|cid matched] eqn:Em;
    cbn [fst snd] in Hnew |- *.
  { apply (f_equal length) in Hnew. rewrite length_app in Hnew. cbn in Hnew. lia. }
  apply app_inv_head in Hnew. injection Hnew as <-. cbn [confidence_score feature_ids match_reason].
  assert (last compared <> None) as Hlast.
  { intros Hn. apply last_None in Hn. unfold matched_candidates in Em.
    rewrite Hn in Em. discriminate Em. }
  intros Hlater.
  split; [now destruct (last compared)|].
  split; [exact Hlast|]. split; [reflexivity|]. split; [reflexivity|].
  assert (list_to_set (feature_id feature :: cid :: matched)
          ⊆ processed ∪ list_to_set (feature_id feature :: cid :: matched)) as Hsub
    by apply union_subseteq_r.
  split; [exact Hsub | exact (Hlater Hsub)].
Qed.

Lemma tolerance_group_confidence_and_assignment_witness :
  confidence_score (Line.tolerance_group [1; 2]%Z 0)
  = 0%float /\
  feature_ids (Line.tolerance_group [1; 2]%Z 0)
  ⊆ fst (fst (DuplicateDetector.tolerance_step (H := Line.runtime) (H0 := Line.engine)
                (Line.detector None "geometry" 2 0 [] None) (GeometryChecker.mk 2 0 false 8)
                Line.three_points (DuplicateDetector.build_feature_cache Line.three_points)
                Line.scan_start (Line.point_feature 1 5))).
Proof.
  destruct (tolerance_group_confidence_and_assignment (H := Line.runtime) (H0 := Line.engine)
              (Line.detector None "geometry" 2 0 [] None) (GeometryChecker.mk 2 0 false 8)
              Line.three_points (DuplicateDetector.build_feature_cache Line.three_points)
              Line.scan_start (Line.point_feature 1 5)
              (Line.tolerance_group [1; 2]%Z 0)
              ltac:(vm_compute; reflexivity))
    as (geom & _ & _ & _ & _ & _ & Hsub & _).
  split; [reflexivity | exact Hsub].
Defined.

(** The score kept for a group is the one of the last comparison, also
    when that comparison did not match: seed 1 matches candidate 2 exactly
    and is then compared with candidate 3, which differs. *)
Example confidence_of_last_comparison :
  List.map (fun g => (elements (feature_ids g), confidence_score g))
    (DuplicateDetector._detect_by_tolerance (H := Line.runtime) (H0 := Line.engine)
       (Line.detector None "geometry" 2 0 [] None) Line.three_points
       (GeometryChecker.mk 2 0 false 8))
  = [(elements (list_to_set [1; 2]%Z : gset Z), 0%float)].
Proof. vm_compute. reflexivity. Qed.

(** ** Buckets *)

Section BucketFacts.
Context {K : Type} (eqb : K -> K -> bool).

(** Appending to a bucket adds the id to the ids held by the buckets. *)
Lemma bucket_append_flat key fid (buckets : list (K * list Z)) :
  concat (List.map snd (bucket_append eqb key fid buckets))
  ≡ₚ fid :: concat (List.map snd buckets).
Proof.
  induction buckets as [|[k fids] rest IH]; cbn [bucket_append].
  - reflexivity.
  - destruct (eqb k key); cbn [List.map snd concat].
    + rewrite <- app_assoc. cbn [app]. symmetry. apply Permutation_middle.
    + rewrite IH. symmetry. apply Permutation_middle.
Qed.

Lemma NoDup_concat_elem (ls : list (list Z)) (l : list Z) :
  NoDup (concat ls) -> l ∈ ls -> NoDup l.
Proof.
  induction ls as [|l0 ls IH]; cbn [concat]; intros Hnd Hin; [inversion Hin|].
  apply NoDup_app in Hnd as (Hl0 & _ & Hls).
  apply elem_of_cons in Hin as [->|Hin]; auto.
Qed.

Lemma elem_of_concat_elem (ls : list (list Z)) (l : list Z) (x : Z) :
  l ∈ ls -> x ∈ l -> x ∈ concat ls.
Proof.
  induction ls as [|l0 ls IH]; cbn [concat]; intros Hin Hx; [inversion Hin|].
  apply elem_of_app. apply elem_of_cons in Hin as [->|Hin]; auto.
Qed.
End BucketFacts.

Lemma two_members_size (s : gset Z) (x y : Z) :
  x ∈ s -> y ∈ s -> x <> y -> 2 <= size s.
Proof.
  intros Hx Hy Hne.
  assert ({[x]} ∪ {[y]} ⊆ s) as Hsub.
  { intros z Hz. apply elem_of_union in Hz as [Hz|Hz]; apply elem_of_singleton in Hz;
      now subst. }
  apply subseteq_size in Hsub. rewrite size_union, !size_singleton in Hsub; [exact Hsub|].
  intros z Hz1 Hz2. apply elem_of_singleton in Hz1, Hz2. congruence.
Qed.

Lemma NoDup_list_size (fids : list Z) :
  NoDup fids -> 1 < length fids -> 2 <= size (list_to_set fids : gset Z).
Proof. intros Hnd Hlen. rewrite size_list_to_set by exact Hnd. lia. Qed.

(** ** Groups created by the scans *)

Section ScanFacts.
Context `{PyRuntime} {Geom : Type} `{GeometryEngine Geom}.
Implicit Types (features : list (QgsFeature Geom)) (g : DuplicateGroup).

Lemma build_feature_cache_fold features : forall (cache : gmap Z (QgsFeature Geom)) fid c,
  fold_left (fun cache feature => <[feature_id feature := feature]> cache) features cache
    !! fid = Some c ->
  cache !! fid = Some c \/ (c ∈ features /\ feature_id c = fid).
Proof.
  induction features as [|f features IH]; intros cache fid c; cbn [fold_left]; [auto|].
  intros Hc. apply IH in Hc as [Hc|[Hin Hid]].
  - destruct (decide (feature_id f = fid)) as [E|N].
    + rewrite E, lookup_insert_eq in Hc. injection Hc as <-.
      right. split; [left | exact E].
    + rewrite lookup_insert_ne in Hc by exact N. now left.
  - right. split; [now right | exact Hid].
Qed.

(** The cache answers with a feature of the list that has the id asked
    for. *)
Lemma build_feature_cache_lookup features fid c :
  DuplicateDetector.build_feature_cache features !! fid = Some c ->
  c ∈ features /\ feature_id c = fid.
Proof.
  intros Hc. apply build_feature_cache_fold in Hc as [Hc|Hc]; [|exact Hc].
  rewrite lookup_empty in Hc. discriminate Hc.
Qed.

Lemma seed_outcome_groups (self : DuplicateDetector.t (Geom := Geom)) checker index
    features (st : DuplicateDetector.scan_state) seed geom :
  seed ∈ features -> geometry seed = Some geom ->
  Forall (sound_group features) (snd (fst st)) ->
  Forall (sound_group features)
         (snd (fst (seed_outcome self checker index
                      (DuplicateDetector.build_feature_cache features) st
                      (feature_id seed) geom))).
Proof.
  destruct st as [[processed groups] score]. cbn [fst snd]. intros Hseed Hg Hall.
  unfold seed_outcome.
  destruct (matched_candidates _ _ _ _) as [|cid matched] eqn:Em; cbn [fst snd]; [exact Hall|].
  apply Forall_app. split; [exact Hall|]. constructor; [|constructor].
  assert (forall x, x ∈ cid :: matched ->
            x <> feature_id seed /\ has_geometry_in features x) as Hm.
  { intros x Hx. rewrite <- Em in Hx.
    apply matched_candidates_spec in Hx as (Hne & _ & c & cg & Hc & Hcg).
    apply build_feature_cache_lookup in Hc as [Hin Hid].
    split; [exact Hne|]. exists c. split; [exact Hin|]. split; [exact Hid|]. congruence. }
  split; cbn [feature_ids].
  - apply (two_members_size _ (feature_id seed) cid).
    + apply elem_of_list_to_set. left.
    + apply elem_of_list_to_set. right. left.
    + intros E. destruct (Hm cid ltac:(left)) as [Hne _]. congruence.
  - intros fid Hfid. apply elem_of_list_to_set, elem_of_cons in Hfid as [->|Hfid].
    + exists seed. split; [exact Hseed|]. split; [reflexivity|]. congruence.
    + now apply Hm.
Qed.

Lemma tolerance_scan_sound (self : DuplicateDetector.t (Geom := Geom)) checker index
    features scanned : forall st : DuplicateDetector.scan_state,
  (forall f, f ∈ scanned -> f ∈ features) ->
  Forall (sound_group features) (snd (fst st)) ->
  Forall (sound_group features)
         (snd (fst (DuplicateDetector.tolerance_scan self checker index
                      (DuplicateDetector.build_feature_cache features) scanned st))).
Proof.
  unfold DuplicateDetector.tolerance_scan.
  induction scanned as [|f scanned IH]; intros st Hsub Hall; cbn [fold_left]; [exact Hall|].
  apply IH; [intros f' Hf'; apply Hsub; now right|].
  destruct (tolerance_step_cases self checker index
              (DuplicateDetector.build_feature_cache features) st f)
    as [->|(geom & _ & Hg & ->)]; [exact Hall|].
  apply seed_outcome_groups; [apply Hsub; left | exact Hg | exact Hall].
Qed.

Lemma detect_by_tolerance_sound (self : DuplicateDetector.t (Geom := Geom)) checker features :
  Forall (sound_group features) (DuplicateDetector._detect_by_tolerance self features checker).
Proof.
  unfold DuplicateDetector._detect_by_tolerance.
  apply tolerance_scan_sound; [auto | constructor].
Qed.
End ScanFacts.

Section BucketScanFacts.
Context {Geom K : Type} (eqb : K -> K -> bool) (key_of : QgsFeature Geom -> option K).
Variable step : list (K * list Z) -> QgsFeature Geom -> list (K * list Z).
Hypothesis step_eq : forall buckets f,
  step buckets f =
  match key_of f with
  | Some key => bucket_append eqb key (feature_id f) buckets
  | None => buckets
  end.

(** The buckets hold, each once, the ids of the features that have a
    key. *)
Lemma bucket_fold_flat features : forall buckets,
  concat (List.map snd (fold_left step features buckets))
  ≡ₚ concat (List.map snd buckets) ++
     List.map feature_id
       (List.filter (fun f => match key_of f with Some _ => true | None => false end)
                    features).
Proof.
  induction features as [|f features IH]; intros buckets; cbn [fold_left List.filter].
  - now rewrite app_nil_r.
  - rewrite IH, step_eq. destruct (key_of f) as [key|]; [|reflexivity].
    rewrite bucket_append_flat. cbn [List.map]. apply Permutation_middle.
Qed.

Lemma NoDup_map_filter (p : QgsFeature Geom -> bool) features :
  NoDup (List.map feature_id features) ->
  NoDup (List.map feature_id (List.filter p features)).
Proof.
  induction features as [|f features IH]; cbn [List.map List.filter]; [auto|].
  intros Hnd. apply NoDup_cons in Hnd as [Hf Hnd].
  destruct (p f); [|auto]. cbn [List.map]. apply NoDup_cons. split; [|auto].
  intros Hin. apply Hf. apply list_elem_of_In, in_map_iff in Hin as (f' & E & Hf').
  apply filter_In in Hf' as [Hf' _]. apply list_elem_of_In, in_map_iff. eauto.
Qed.

Lemma bucket_scan_sound features bucket :
  NoDup (List.map feature_id features) ->
  bucket ∈ fold_left step features [] ->
  NoDup (snd bucket) /\
  forall fid, fid ∈ snd bucket ->
              exists f, f ∈ features /\ feature_id f = fid /\ key_of f <> None.
Proof.
  intros Hnd Hb.
  pose proof (bucket_fold_flat features []) as Hflat. cbn [List.map concat app] in Hflat.
  assert (snd bucket ∈ List.map snd (fold_left step features [])) as Hin.
  { apply list_elem_of_In, in_map, list_elem_of_In, Hb. }
  split.
  - apply (NoDup_concat_elem _ _ ltac:(rewrite Hflat; apply NoDup_map_filter, Hnd) Hin).
  - intros fid Hfid. pose proof (elem_of_concat_elem _ _ _ Hin Hfid) as Hc.
    rewrite Hflat in Hc. apply list_elem_of_In, in_map_iff in Hc as (f & E & Hf).
    apply filter_In in Hf as [Hf Hk]. exists f.
    split; [now apply list_elem_of_In|]. split; [exact E|].
    now destruct (key_of f).
Qed.
End BucketScanFacts.

Section HashScanFacts.
Context `{PyRuntime} {Geom : Type} `{GeometryEngine Geom}.

Lemma detect_by_hash_sound (self : DuplicateDetector.t (Geom := Geom)) checker
    (features : list (QgsFeature Geom)) :
  NoDup (List.map feature_id features) ->
  Forall (sound_group features) (DuplicateDetector._detect_by_hash self features checker).
Proof.
  intros Hnd. apply Forall_forall. intros g Hg.
  unfold DuplicateDetector._detect_by_hash in Hg.
  apply list_elem_of_omap in Hg as (bucket & Hb & Hgroup).
  eapply (bucket_scan_sound String.eqb
            (fun f => if isNull (geometry f) then None
                      else Some (GeometryChecker.hash_geometry checker (geometry f))))
    in Hb as [Hnb Hmem]; [| |exact Hnd].
  2:{ intros buckets f. unfold DuplicateDetector.hash_step.
      now destruct (isNull (geometry f)). }
  unfold DuplicateDetector.hash_group_of in Hgroup.
  destruct (Nat.ltb_spec 1 (length (snd bucket))) as [Hlen|]; [|discriminate].
  injection Hgroup as <-. split; cbn [feature_ids].
  - now apply NoDup_list_size.
  - intros fid Hfid. apply elem_of_list_to_set, Hmem in Hfid as (f & Hf & Hid & Hk).
    exists f. split; [exact Hf|]. split; [exact Hid|].
    intros Hn. rewrite Hn in Hk. now apply Hk.
Qed.

Lemma detect_geometry_sound (self : DuplicateDetector.t (Geom := Geom))
    (features : list (QgsFeature Geom)) :
  NoDup (List.map feature_id features) ->
  Forall (sound_group features) (DuplicateDetector._detect_geometry_duplicates self features).
Proof.
  intros Hnd. unfold DuplicateDetector._detect_geometry_duplicates.
  destruct (PrimFloat.eqb _ _);
    [now apply detect_by_hash_sound | apply detect_by_tolerance_sound].
Qed.

Lemma detect_attribute_size (self : DuplicateDetector.t (Geom := Geom))
    (features : list (QgsFeature Geom)) groups :
  NoDup (List.map feature_id features) ->
  DuplicateDetector._detect_attribute_duplicates self features = Ok groups ->
  Forall (fun g => 2 <= size (feature_ids g)) groups.
Proof.
  intros Hnd. unfold DuplicateDetector._detect_attribute_duplicates.
  destruct (DuplicateDetector.fields self) as [|field1 fields']; [discriminate|].
  intros [= <-]. apply Forall_forall. intros g Hg.
  apply list_elem_of_omap in Hg as (bucket & Hb & Hgroup).
  eapply (bucket_scan_sound key_eqb
            (AttributeChecker.get_key
               (AttributeChecker.mk (field1 :: fields')
                  (DuplicateDetector.normalize_attributes self)
                  (DuplicateDetector.ignore_null self) false 0)))
    in Hb as [Hnb _]; [| |exact Hnd].
  2:{ intros buckets f. reflexivity. }
  unfold DuplicateDetector.key_group_of in Hgroup. destruct bucket as [key fids].
  destruct (Nat.ltb_spec 1 (length fids)) as [Hlen|]; [|discriminate].
  injection Hgroup as <-. cbn [feature_ids]. now apply NoDup_list_size.
Qed.
End HashScanFacts.

(** ** Results of a detection run *)

Lemma NoDup_feature_id_inj {Geom : Type} (features : list (QgsFeature Geom)) f1 f2 :
  NoDup (List.map feature_id features) ->
  f1 ∈ features -> f2 ∈ features -> feature_id f1 = feature_id f2 -> f1 = f2.
Proof.
  induction features as [|f features IH]; intros Hnd H1 H2 E; [inversion H1|].
  cbn [List.map] in Hnd. apply NoDup_cons in Hnd as [Hf Hnd].
  apply elem_of_cons in H1 as [->|H1], H2 as [->|H2]; auto.
  - exfalso. apply Hf. rewrite E. apply list_elem_of_In, in_map, list_elem_of_In, H2.
  - exfalso. apply Hf. rewrite <- E. apply list_elem_of_In, in_map, list_elem_of_In, H1.
Qed.

Lemma sound_group_excludes_null {Geom : Type} (features : list (QgsFeature Geom)) g f :
  NoDup (List.map feature_id features) ->
  sound_group features g -> f ∈ features -> geometry f = None ->
  feature_id f ∉ feature_ids g.
Proof.
  intros Hnd [_ Hmem] Hf Hnull Hin.
  destruct (Hmem _ Hin) as (f' & Hf' & Hid & Hgeom).
  apply Hgeom. now rewrite (NoDup_feature_id_inj features f' f Hnd Hf' Hf Hid).
Qed.

(** C10. A feature whose geometry is null belongs to no group produced by
    geometry detection: neither by the exact-hash scan, nor by the
    tolerance scan, nor therefore by [_detect_geometry_duplicates], although
    [hash_geometry] maps every null geometry to the sentinel "NULL".  Feature
    ids are unique within the scanned features. *)
Theorem null_geometry_never_grouped `{PyRuntime} {Geom : Type} `{GeometryEngine Geom}
    (self : DuplicateDetector.t (Geom := Geom)) (features : list (QgsFeature Geom))
    (f : QgsFeature Geom) :
  NoDup (List.map feature_id features) ->
  f ∈ features ->
  geometry f = None ->
  (forall checker g,
     g ∈ DuplicateDetector._detect_by_hash self features checker ->
     feature_id f ∉ feature_ids g) /\
  (forall checker g,
     g ∈ DuplicateDetector._detect_by_tolerance self features checker ->
     feature_id f ∉ feature_ids g) /\
  (forall g,
     g ∈ DuplicateDetector._detect_geometry_duplicates self features ->
     feature_id f ∉ feature_ids g) /\
  (forall checker, GeometryChecker.hash_geometry checker (geometry f) = "NULL").
Proof.
  intros Hnd Hf Hnull. repeat split.
  - intros checker g Hg.
    pose proof (detect_by_hash_sound self checker features Hnd) as Hall.
    rewrite Forall_forall in Hall.
    exact (sound_group_excludes_null features g f Hnd (Hall g Hg) Hf Hnull).
  - intros checker g Hg.
    pose proof (detect_by_tolerance_sound self checker features) as Hall.
    rewrite Forall_forall in Hall.
    exact (sound_group_excludes_null features g f Hnd (Hall g Hg) Hf Hnull).
  - intros g Hg.
    pose proof (detect_geometry_sound self features Hnd) as Hall.
    rewrite Forall_forall in Hall.
    exact (sound_group_excludes_null features g f Hnd (Hall g Hg) Hf Hnull).
  - intros checker. now rewrite Hnull.
Qed.

Section RunFacts.
Context `{PyRuntime} {Geom : Type} `{GeometryEngine Geom}.

Lemma finish_detection_made_of (self : DuplicateDetector.t (Geom := Geom)) lyr groups g' :
  g' ∈ DuplicateDetector.finish_detection self lyr groups ->
  exists g, g ∈ groups /\ feature_ids g ⊆ feature_ids g' /\
    suggested_keep g' =
      match DuplicateDetector.priority_rules self with
      | Some rules => PriorityResolver._resolve_group (PriorityResolver.init lyr rules) g
      | None => suggested_keep g
      end.
Proof.
  unfold DuplicateDetector.finish_detection. intros Hg'.
  apply consolidate_groups_made_of in Hg' as [(gr & Hgr & Hsub & Hkeep) _].
  destruct (DuplicateDetector.priority_rules self) as [rules|].
  - apply resolve_elem in Hgr as (g & Hg & Hids & Hres).
    exists g. rewrite <- Hids, Hkeep. auto.
  - exists gr. auto.
Qed.

Lemma finish_detection_size (self : DuplicateDetector.t (Geom := Geom)) lyr groups :
  Forall (fun g => 2 <= size (feature_ids g)) groups ->
  Forall (fun g => 2 <= size (feature_ids g))
         (DuplicateDetector.finish_detection self lyr groups).
Proof.
  rewrite !Forall_forall. intros Hall g' Hg'.
  apply finish_detection_made_of in Hg' as (g & Hg & Hsub & _).
  specialize (Hall g Hg). apply subseteq_size in Hsub. lia.
Qed.
End RunFacts.

(** C9. Every group of the list returned by [detect] holds at least two
    distinct feature ids, the ids of the layer's features being unique. *)
Theorem detect_groups_have_two_ids `{PyRuntime} {Geom : Type} `{GeometryEngine Geom}
    (self : DuplicateDetector.t (Geom := Geom)) (lyr : QgsVectorLayer Geom)
    (groups : list DuplicateGroup) (g : DuplicateGroup) :
  DuplicateDetector.layer self = Some lyr ->
  NoDup (List.map feature_id (getFeatures lyr)) ->
  DuplicateDetector.detect self = Ok groups ->
  g ∈ groups ->
  2 <= size (feature_ids g).
Proof.
  intros Hl Hnd Hdetect Hg. unfold DuplicateDetector.detect in Hdetect. rewrite Hl in Hdetect.
  destruct (negb (isValid lyr)); [discriminate|].
  assert (forall features,
            NoDup (List.map feature_id features) ->
            match
              (if String.eqb (DuplicateDetector.detection_type self) "geometry"
               then Ok (DuplicateDetector._detect_geometry_duplicates self features)
               else DuplicateDetector._detect_attribute_duplicates self features)
            with
            | Ok groups0 => Ok (DuplicateDetector.finish_detection self lyr groups0)
            | Raise e => Raise e
            end = Ok groups ->
            2 <= size (feature_ids g)) as Hscan.
  { intros features Hndf Hrun.
    destruct (String.eqb _ "geometry").
    - injection Hrun as <-.
      assert (Forall (fun g => 2 <= size (feature_ids g))
                (DuplicateDetector.finish_detection self lyr
                   (DuplicateDetector._detect_geometry_duplicates self features))) as Hall.
      { apply finish_detection_size.
        eapply Forall_impl; [apply detect_geometry_sound, Hndf|]. now intros g0 [Hs _]. }
      rewrite Forall_forall in Hall. exact (Hall g Hg).
    - destruct (DuplicateDetector._detect_attribute_duplicates self features)
        as [groups0|e] eqn:Ea; [|discriminate].
      injection Hrun as <-.
      assert (Forall (fun g => 2 <= size (feature_ids g))
                (DuplicateDetector.finish_detection self lyr groups0)) as Hall.
      { apply finish_detection_size. now apply (detect_attribute_size self features). }
      rewrite Forall_forall in Hall. exact (Hall g Hg). }
  destruct (DuplicateDetector.sample_mode self && _).
  - unfold DuplicateDetector._sample_features in Hdetect.
    destruct (Z.ltb _ 0); [discriminate|].
    apply (Hscan _ (NoDup_map_filter _ _ Hnd) Hdetect).
  - apply (Hscan _ Hnd Hdetect).
Qed.

Lemma null_geometry_never_grouped_witness :
  feature_id (Line.null_feature 4) ∉ feature_ids (Line.group_of [1; 2]%Z).
Proof.
  apply (proj1 (proj2 (proj2
           (null_geometry_never_grouped (H := Line.runtime) (H0 := Line.engine)
              (Line.detector None "geometry" 0 0 [] None)
              Line.two_points_and_null (Line.null_feature 4)
              ltac:(apply (bool_decide_unpack _); vm_compute; exact I)
              ltac:(right; right; left)
              eq_refl)))
           (Line.group_of [1; 2]%Z)).
  vm_compute. left.
Defined.

Lemma detect_groups_have_two_ids_witness :
  2 <= size (feature_ids (Line.group_of [1; 2]%Z)).
Proof.
  apply (detect_groups_have_two_ids (H := Line.runtime) (H0 := Line.engine)
           (Line.detector (Some (Line.layer_of Line.two_points_and_null)) "geometry" 0 0 [] None)
           (Line.layer_of Line.two_points_and_null)
           [Line.group_of [1; 2]%Z] (Line.group_of [1; 2]%Z)
           eq_refl
           ltac:(apply (bool_decide_unpack _); vm_compute; exact I)
           ltac:(vm_compute; reflexivity)
           ltac:(left)).
Defined.

(** The tail of [detect] on any list of candidate groups: the priority
    rules are applied first, consolidation comes afterwards.  With the id
    fallback alone, every group of the final list stems from a candidate
    group whose smallest id is its [suggested_keep]; when nothing was merged
    in, this is the smallest id of the final group. *)
Lemma suggested_keep_is_smallest_before_consolidation
    `{PyRuntime} {Geom : Type} `{GeometryEngine Geom}
    (self : DuplicateDetector.t (Geom := Geom)) (lyr : QgsVectorLayer Geom)
    (rules : PriorityRules) (groups : list DuplicateGroup) (g' : DuplicateGroup) :
  DuplicateDetector.priority_rules self = Some rules ->
  only_fid_fallback rules ->
  (forall g fid, g ∈ groups -> fid ∈ feature_ids g ->
                 fid ∈ List.map feature_id (getFeatures lyr)) ->
  (forall g, g ∈ groups -> feature_ids g <> ∅) ->
  g' ∈ DuplicateDetector.finish_detection self lyr groups ->
  exists g m,
    g ∈ groups /\
    feature_ids g ⊆ feature_ids g' /\
    suggested_keep g' = Some m /\
    is_smallest_id (feature_ids g) m /\
    (feature_ids g' = feature_ids g -> is_smallest_id (feature_ids g') m).
Proof.
  intros Hrules Honly Hlayer Hne Hg'.
  apply finish_detection_made_of in Hg' as (g & Hg & Hsub & Hkeep).
  rewrite Hrules in Hkeep.
  destruct (resolve_group_fid_fallback lyr rules g Honly (Hne g Hg) (fun fid => Hlayer g fid Hg))
    as (m & Hres & Hmin).
  exists g, m. split; [exact Hg|]. split; [exact Hsub|].
  split; [now rewrite Hkeep|]. split; [exact Hmin|]. now intros ->.
Qed.

(** The tail of [detect] on overlapping candidates, which no scan of a
    run hands over: the candidate groups {5,6} and {1,5} are resolved to 5
    and 1, then {1,5} is merged into {5,6}, whose suggestion stays 5 although
    the merged group holds 1. *)
Lemma suggested_keep_after_merge_on_overlap :
  ~ (forall g',
       g' ∈ DuplicateDetector.finish_detection (H := Line.runtime) (H0 := Line.engine)
              (Line.detector (Some Line.layer_1_5_6) "geometry" 0 0 []
                             (Some Line.fid_fallback_only))
              Line.layer_1_5_6 [Line.group_of [5; 6]%Z; Line.group_of [1; 5]%Z] ->
       exists m, suggested_keep g' = Some m /\ is_smallest_id (feature_ids g') m).
Proof.
  intros Hall.
  destruct (Hall (set_suggested_keep (Line.group_of [1; 5; 6]%Z) (Some 5%Z)))
    as (m & Hkeep & _ & Hmin).
  - vm_compute. left.
  - injection Hkeep as <-.
    assert (1%Z ∈ feature_ids (set_suggested_keep (Line.group_of [1; 5; 6]%Z) (Some 5%Z)))
      as H1 by (apply elem_of_list_to_set; left).
    specialize (Hmin 1%Z H1). lia.
Qed.

(** ** Candidate groups of one run share no id *)

Section OrderedPairsFacts.
Context {A : Type} (R : A -> A -> Prop).

Lemma ForallOrdPairs_snoc (l : list A) (x : A) :
  ForallOrdPairs R l -> Forall (fun y => R y x) l -> ForallOrdPairs R (l ++ [x]).
Proof.
  induction 1 as [|a l Ha Hl IH]; intros Hx; cbn [app].
  - constructor; constructor.
  - apply Forall_cons in Hx as [Hax Hx]. constructor; [|now apply IH].
    apply Forall_app. split; [exact Ha | now constructor].
Qed.

Lemma ForallOrdPairs_lookup (l : list A) :
  (forall a b, R a b -> R b a) ->
  ForallOrdPairs R l ->
  forall i j a b, l !! i = Some a -> l !! j = Some b -> i <> j -> R a b.
Proof.
  intros Hsym. induction 1 as [|x l Hx Hl IH]; intros i j a b Hi Hj Hne.
  - now rewrite lookup_nil in Hi.
  - rewrite List.Forall_forall in Hx.
    destruct i as [|i], j as [|j]; cbn in Hi, Hj; try congruence.
    + injection Hi as <-. apply Hx. now apply list_elem_of_lookup_2, list_elem_of_In in Hj.
    + injection Hj as <-. apply Hsym, Hx.
      now apply list_elem_of_lookup_2, list_elem_of_In in Hi.
    + apply (IH i j); auto.
Qed.
End OrderedPairsFacts.

Lemma ForallOrdPairs_omap {A B : Type} (R' : A -> A -> Prop) (R : B -> B -> Prop)
    (f : A -> option B) (l : list A) :
  (forall x y a b, f x = Some a -> f y = Some b -> R' x y -> R a b) ->
  ForallOrdPairs R' l -> ForallOrdPairs R (omap f l).
Proof.
  intros Hf. induction 1 as [|x l Hx Hl IH]; cbn [omap list_omap]; [constructor|].
  destruct (f x) as [a|] eqn:Ea; [|exact IH].
  constructor; [|exact IH].
  apply List.Forall_forall. intros b Hb.
  apply list_elem_of_In, list_elem_of_omap in Hb as (y & Hy & Eb).
  rewrite List.Forall_forall in Hx. apply (Hf x y a b Ea Eb), Hx. now apply list_elem_of_In.
Qed.

Lemma NoDup_concat_buckets {K : Type} (buckets : list (K * list Z)) :
  NoDup (concat (List.map snd buckets)) ->
  ForallOrdPairs (fun b1 b2 => forall x, x ∈ snd b1 -> x ∈ snd b2 -> False) buckets.
Proof.
  induction buckets as [|b buckets IH]; cbn [List.map concat]; intros Hnd; [constructor|].
  apply NoDup_app in Hnd as (_ & Hcross & Hrest).
  constructor; [|now apply IH].
  apply List.Forall_forall. intros b' Hb' x Hx Hx'.
  apply (Hcross x Hx). apply (elem_of_concat_elem _ (snd b')); [|exact Hx'].
  apply list_elem_of_In, in_map, Hb'.
Qed.

Section DisjointCandidates.
Context `{PyRuntime} {Geom : Type} `{GeometryEngine Geom}.

Lemma disjoint_ids_sym (g1 g2 : DuplicateGroup) : disjoint_ids g1 g2 -> disjoint_ids g2 g1.
Proof. unfold disjoint_ids. intros Hd x H1 H2. exact (Hd x H2 H1). Qed.

Lemma bucket_groups_disjoint {K : Type} (group_of : K * list Z -> option DuplicateGroup)
    (buckets : list (K * list Z)) :
  (forall bucket g, group_of bucket = Some g -> feature_ids g = list_to_set (snd bucket)) ->
  NoDup (concat (List.map snd buckets)) ->
  ForallOrdPairs disjoint_ids (omap group_of buckets).
Proof.
  intros Hids Hnd.
  apply (fun Hf => ForallOrdPairs_omap _ _ _ _ Hf (NoDup_concat_buckets buckets Hnd)).
  intros b1 b2 g1 g2 E1 E2 Hd x Hx1 Hx2.
  rewrite (Hids b1 g1 E1) in Hx1. rewrite (Hids b2 g2 E2) in Hx2.
  apply elem_of_list_to_set in Hx1, Hx2. exact (Hd x Hx1 Hx2).
Qed.
End DisjointCandidates.

Section DisjointScans.
Context `{PyRuntime} {Geom : Type} `{GeometryEngine Geom}.
Implicit Types (self : DuplicateDetector.t (Geom := Geom)) (features : list (QgsFeature Geom)).

Lemma bucket_scan_NoDup {K : Type} (eqb : K -> K -> bool)
    (key_of : QgsFeature Geom -> option K)
    (step : list (K * list Z) -> QgsFeature Geom -> list (K * list Z)) features :
  (forall buckets f,
     step buckets f =
     match key_of f with
     | Some key => bucket_append eqb key (feature_id f) buckets
     | None => buckets
     end) ->
  NoDup (List.map feature_id features) ->
  NoDup (concat (List.map snd (fold_left step features []))).
Proof.
  intros Hstep Hnd.
  rewrite (bucket_fold_flat eqb key_of step Hstep features []).
  cbn [List.map concat app]. now apply NoDup_map_filter.
Qed.

Lemma detect_by_hash_disjoint self checker features :
  NoDup (List.map feature_id features) ->
  ForallOrdPairs disjoint_ids (DuplicateDetector._detect_by_hash self features checker).
Proof.
  intros Hnd. unfold DuplicateDetector._detect_by_hash. apply bucket_groups_disjoint.
  - intros bucket g. unfold DuplicateDetector.hash_group_of.
    destruct (Nat.ltb _ _); [|discriminate]. now intros [= <-].
  - apply (bucket_scan_NoDup String.eqb
             (fun f => if isNull (geometry f) then None
                       else Some (GeometryChecker.hash_geometry checker (geometry f))));
      [|exact Hnd].
    intros buckets f. unfold DuplicateDetector.hash_step. now destruct (isNull (geometry f)).
Qed.

Lemma detect_attribute_disjoint self features groups :
  NoDup (List.map feature_id features) ->
  DuplicateDetector._detect_attribute_duplicates self features = Ok groups ->
  ForallOrdPairs disjoint_ids groups.
Proof.
  intros Hnd. unfold DuplicateDetector._detect_attribute_duplicates.
  destruct (DuplicateDetector.fields self) as [|field1 fields']; [discriminate|].
  intros [= <-]. apply bucket_groups_disjoint.
  - intros [key fids] g. unfold DuplicateDetector.key_group_of.
    destruct (Nat.ltb _ _); [|discriminate]. now intros [= <-].
  - apply (bucket_scan_NoDup key_eqb
             (AttributeChecker.get_key
                (AttributeChecker.mk (field1 :: fields')
                   (DuplicateDetector.normalize_attributes self)
                   (DuplicateDetector.ignore_null self) false 0)));
      [|exact Hnd].
    intros buckets f. reflexivity.
Qed.

(** In the tolerance scan the groups share no id and lie within
    [processed]. *)
Lemma tolerance_step_disjoint self checker index cache
    (st : DuplicateDetector.scan_state) feature :
  ForallOrdPairs disjoint_ids (snd (fst st)) /\
  Forall (fun g => feature_ids g ⊆ fst (fst st)) (snd (fst st)) ->
  ForallOrdPairs disjoint_ids
    (snd (fst (DuplicateDetector.tolerance_step self checker index cache st feature))) /\
  Forall (fun g => feature_ids g ⊆
                   fst (fst (DuplicateDetector.tolerance_step self checker index cache st feature)))
         (snd (fst (DuplicateDetector.tolerance_step self checker index cache st feature))).
Proof.
  intros [Hpairs Hsub].
  destruct (tolerance_step_cases self checker index cache st feature)
    as [->|(geom & Hnp & Hg & ->)]; [now split|].
  destruct st as [[processed groups] score]. cbn [fst snd] in *. unfold seed_outcome.
  destruct (matched_candidates _ _ _ _) as [|cid matched] eqn:Em; cbn [fst snd].
  - split; [exact Hpairs|]. eapply Forall_impl; [exact Hsub|].
    intros g Hgs. etransitivity; [exact Hgs | apply union_subseteq_l].
  - assert (forall x, x ∈ feature_id feature :: cid :: matched -> x ∉ processed) as Hfresh.
    { intros x Hx. apply elem_of_cons in Hx as [->|Hx]; [exact Hnp|].
      rewrite <- Em in Hx. now apply matched_candidates_spec in Hx as (_ & Hx & _). }
    split.
    + apply ForallOrdPairs_snoc; [exact Hpairs|].
      eapply Forall_impl; [exact Hsub|]. intros g Hgs x Hx1 Hx2.
      cbn [feature_ids] in Hx2. apply elem_of_list_to_set in Hx2.
      exact (Hfresh x Hx2 (Hgs x Hx1)).
    + apply Forall_app. split.
      * eapply Forall_impl; [exact Hsub|].
        intros g Hgs. etransitivity; [exact Hgs | apply union_subseteq_l].
      * constructor; [apply union_subseteq_r | constructor].
Qed.

Lemma detect_by_tolerance_disjoint self checker features :
  ForallOrdPairs disjoint_ids (DuplicateDetector._detect_by_tolerance self features checker).
Proof.
  unfold DuplicateDetector._detect_by_tolerance, DuplicateDetector.tolerance_scan.
  generalize (DuplicateDetector.build_feature_cache features) as cache.
  generalize features at 1 as index. intros index cache.
  assert (forall scanned (st : DuplicateDetector.scan_state),
            ForallOrdPairs disjoint_ids (snd (fst st)) /\
            Forall (fun g => feature_ids g ⊆ fst (fst st)) (snd (fst st)) ->
            ForallOrdPairs disjoint_ids
              (snd (fst (fold_left (DuplicateDetector.tolerance_step self checker index cache)
                                   scanned st)))) as Hscan.
  { induction scanned as [|f scanned IH]; intros st Hinv; cbn [fold_left]; [apply Hinv|].
    apply IH, tolerance_step_disjoint, Hinv. }
  apply Hscan. cbn [fst snd]. split; constructor.
Qed.

Lemma detect_geometry_disjoint self features :
  NoDup (List.map feature_id features) ->
  ForallOrdPairs disjoint_ids (DuplicateDetector._detect_geometry_duplicates self features).
Proof.
  intros Hnd. unfold DuplicateDetector._detect_geometry_duplicates.
  destruct (PrimFloat.eqb _ _);
    [now apply detect_by_hash_disjoint | apply detect_by_tolerance_disjoint].
Qed.

Lemma resolve_disjoint (resolver : PriorityResolver.t (Geom := Geom)) groups :
  ForallOrdPairs disjoint_ids groups ->
  ForallOrdPairs disjoint_ids (PriorityResolver.resolve resolver groups).
Proof.
  unfold PriorityResolver.resolve.
  induction 1 as [|g groups Hg Hrest IH]; cbn [List.map]; constructor; [|exact IH].
  apply List.Forall_forall. intros g' Hg'. apply in_map_iff in Hg' as (g0 & <- & Hg0).
  rewrite List.Forall_forall in Hg. exact (Hg g0 Hg0).
Qed.

(** With the candidate groups of a run, consolidation has nothing to
    merge: the final list is the list of resolved candidates. *)
Lemma finish_detection_disjoint self lyr groups :
  ForallOrdPairs disjoint_ids groups ->
  DuplicateDetector.finish_detection self lyr groups =
  match DuplicateDetector.priority_rules self with
  | Some rules => PriorityResolver.resolve (PriorityResolver.init lyr rules) groups
  | None => groups
  end /\
  pairwise_disjoint (DuplicateDetector.finish_detection self lyr groups).
Proof.
  intros Hpairs. unfold DuplicateDetector.finish_detection.
  assert (ForallOrdPairs disjoint_ids
            match DuplicateDetector.priority_rules self with
            | Some rules => PriorityResolver.resolve (PriorityResolver.init lyr rules) groups
            | None => groups
            end) as Hres.
  { destruct (DuplicateDetector.priority_rules self); [now apply resolve_disjoint | exact Hpairs]. }
  rewrite (consolidate_groups_disjoint _ Hres). split; [reflexivity|].
  intros i j gi gj Hi Hj Hne.
  exact (ForallOrdPairs_lookup disjoint_ids _ disjoint_ids_sym Hres i j gi gj Hi Hj Hne).
Qed.

(** X10. The groups returned by [detect] are pairwise disjoint: the scan
    of one run creates candidate groups without common id (feature ids
    being unique in the layer), so that no feature is reported in two
    groups. *)
Lemma detect_groups_disjoint self lyr groups :
  DuplicateDetector.layer self = Some lyr ->
  NoDup (List.map feature_id (getFeatures lyr)) ->
  DuplicateDetector.detect self = Ok groups ->
  pairwise_disjoint groups.
Proof.
  intros Hl Hnd Hdetect. unfold DuplicateDetector.detect in Hdetect. rewrite Hl in Hdetect.
  destruct (negb (isValid lyr)); [discriminate|].
  assert (forall features,
            NoDup (List.map feature_id features) ->
            match
              (if String.eqb (DuplicateDetector.detection_type self) "geometry"
               then Ok (DuplicateDetector._detect_geometry_duplicates self features)
               else DuplicateDetector._detect_attribute_duplicates self features)
            with
            | Ok groups0 => Ok (DuplicateDetector.finish_detection self lyr groups0)
            | Raise e => Raise e
            end = Ok groups ->
            pairwise_disjoint groups) as Hscan.
  { intros features Hndf Hrun.
    destruct (String.eqb _ "geometry").
    - injection Hrun as <-.
      now apply finish_detection_disjoint, detect_geometry_disjoint.
    - destruct (DuplicateDetector._detect_attribute_duplicates self features)
        as [groups0|e] eqn:Ea; [|discriminate].
      injection Hrun as <-.
      apply finish_detection_disjoint. now apply (detect_attribute_disjoint self features). }
  destruct (DuplicateDetector.sample_mode self && _).
  - unfold DuplicateDetector._sample_features in Hdetect.
    destruct (Z.ltb _ 0); [discriminate|].
    apply (Hscan _ (NoDup_map_filter _ _ Hnd) Hdetect).
  - apply (Hscan _ Hnd Hdetect).
Qed.
End DisjointScans.

Section RunSuggestions.
Context `{PyRuntime} {Geom : Type} `{GeometryEngine Geom}.
Implicit Types (self : DuplicateDetector.t (Geom := Geom)) (features : list (QgsFeature Geom)).

Lemma detect_attribute_members self features groups g fid :
  NoDup (List.map feature_id features) ->
  DuplicateDetector._detect_attribute_duplicates self features = Ok groups ->
  g ∈ groups -> fid ∈ feature_ids g -> fid ∈ List.map feature_id features.
Proof.
  intros Hnd. unfold DuplicateDetector._detect_attribute_duplicates.
  destruct (DuplicateDetector.fields self) as [|field1 fields']; [discriminate|].
  intros [= <-] Hg Hfid.
  apply list_elem_of_omap in Hg as (bucket & Hb & Hgroup).
  eapply (bucket_scan_sound key_eqb
            (AttributeChecker.get_key
               (AttributeChecker.mk (field1 :: fields')
                  (DuplicateDetector.normalize_attributes self)
                  (DuplicateDetector.ignore_null self) false 0)))
    in Hb as [_ Hmem]; [| |exact Hnd].
  2:{ intros buckets f. reflexivity. }
  unfold DuplicateDetector.key_group_of in Hgroup. destruct bucket as [key fids].
  destruct (Nat.ltb _ _); [|discriminate]. injection Hgroup as <-.
  cbn [feature_ids snd] in *. apply elem_of_list_to_set, Hmem in Hfid as (f & Hf & <- & _).
  apply list_elem_of_In, in_map, list_elem_of_In, Hf.
Qed.

(** X11. In the list returned by [detect], with the id fallback alone,
    every group is suggested its smallest id: the run had nothing to
    merge. *)
Lemma detect_suggested_keep_smallest self lyr rules groups g :
  DuplicateDetector.layer self = Some lyr ->
  NoDup (List.map feature_id (getFeatures lyr)) ->
  DuplicateDetector.priority_rules self = Some rules ->
  only_fid_fallback rules ->
  DuplicateDetector.detect self = Ok groups ->
  g ∈ groups ->
  exists m, suggested_keep g = Some m /\ is_smallest_id (feature_ids g) m.
Proof.
  intros Hl Hnd Hrules Honly Hdetect Hg.
  unfold DuplicateDetector.detect in Hdetect. rewrite Hl in Hdetect.
  destruct (negb (isValid lyr)); [discriminate|].
  assert (forall candidates,
            ForallOrdPairs disjoint_ids candidates ->
            (forall g0, g0 ∈ candidates -> 2 <= size (feature_ids g0)) ->
            (forall g0 fid, g0 ∈ candidates -> fid ∈ feature_ids g0 ->
                            fid ∈ List.map feature_id (getFeatures lyr)) ->
            g ∈ DuplicateDetector.finish_detection self lyr candidates ->
            exists m, suggested_keep g = Some m /\ is_smallest_id (feature_ids g) m) as Hfinish.
  { intros candidates Hpairs Hsize Hmem Hin.
    destruct (finish_detection_disjoint self lyr candidates Hpairs) as [E _].
    rewrite E, Hrules in Hin. apply resolve_elem in Hin as (g0 & Hg0 & Hids & Hres).
    destruct (resolve_group_fid_fallback lyr rules g0 Honly) as (m & Hm & Hmin).
    - intros Hempty. specialize (Hsize g0 Hg0). rewrite Hempty, size_empty in Hsize. lia.
    - intros fid. apply Hmem, Hg0.
    - exists m. rewrite Hres, Hids. auto. }
  assert (forall features,
            NoDup (List.map feature_id features) ->
            (forall fid, fid ∈ List.map feature_id features ->
                         fid ∈ List.map feature_id (getFeatures lyr)) ->
            match
              (if String.eqb (DuplicateDetector.detection_type self) "geometry"
               then Ok (DuplicateDetector._detect_geometry_duplicates self features)
               else DuplicateDetector._detect_attribute_duplicates self features)
            with
            | Ok groups0 => Ok (DuplicateDetector.finish_detection self lyr groups0)
            | Raise e => Raise e
            end = Ok groups ->
            exists m, suggested_keep g = Some m /\ is_smallest_id (feature_ids g) m) as Hscan.
  { intros features Hndf Hsub Hrun.
    destruct (String.eqb _ "geometry").
    - injection Hrun as <-.
      pose proof (detect_geometry_sound self features Hndf) as Hsound.
      rewrite Forall_forall in Hsound.
      apply (Hfinish _ (detect_geometry_disjoint self features Hndf)); [| |exact Hg].
      + intros g0 Hg0. apply (Hsound g0 Hg0).
      + intros g0 fid Hg0 Hfid. apply Hsub.
        destruct (Hsound g0 Hg0) as [_ Hmem].
        destruct (Hmem fid Hfid) as (f & Hf & <- & _).
        apply list_elem_of_In, in_map, list_elem_of_In, Hf.
    - destruct (DuplicateDetector._detect_attribute_duplicates self features)
        as [groups0|e] eqn:Ea; [|discriminate].
      injection Hrun as <-.
      pose proof (detect_attribute_size self features groups0 Hndf Ea) as Hsize.
      rewrite Forall_forall in Hsize.
      apply (Hfinish _ (detect_attribute_disjoint self features groups0 Hndf Ea)); [| |exact Hg].
      + exact Hsize.
      + intros g0 fid Hg0 Hfid. apply Hsub.
        exact (detect_attribute_members self features groups0 g0 fid Hndf Ea Hg0 Hfid). }
  destruct (DuplicateDetector.sample_mode self && _).
  - unfold DuplicateDetector._sample_features in Hdetect.
    destruct (Z.ltb _ 0); [discriminate|].
    refine (Hscan _ (NoDup_map_filter _ _ Hnd) _ Hdetect).
    intros fid Hfid. now apply getFeatures_filtered_ids in Hfid as [_ Hfid].
  - exact (Hscan _ Hnd (fun fid Hfid => Hfid) Hdetect).
Qed.
End RunSuggestions.

(** ** Scenarios *)

(** Three points at the same place and one apart, tolerance 0: one group of
    the three, confidence 1.0; the fourth feature is in no group. *)
Example exact_duplicates_scenario :
  DuplicateDetector.detect (H := Line.runtime) (H0 := Line.engine)
    (Line.detector
       (Some (Line.layer_of [Line.point_feature 1 5; Line.point_feature 2 5;
                             Line.point_feature 3 5; Line.point_feature 4 8]))
       "geometry" 0 0 [] None)
  = Ok [Line.group_of [1; 2; 3]%Z].
Proof. vm_compute. reflexivity. Qed.

(** Two points one unit apart, tolerance 2, centroid distance: one group of
    the two with confidence 0.5. *)
Example tolerance_duplicates_scenario :
  DuplicateDetector.detect (H := Line.runtime) (H0 := Line.engine)
    (Line.detector
       (Some (Line.layer_of [Line.point_feature 1 5; Line.point_feature 2 6]))
       "geometry" 2 1 [] None)
  = Ok [Line.tolerance_group [1; 2]%Z 0.5].
Proof. vm_compute. reflexivity. Qed.

(** A group {1,2} and a group {1,3} are consolidated into {1,2,3}. *)
Example consolidation_scenario :
  DuplicateDetector._consolidate_groups (H := Line.runtime)
    [Line.group_of [1; 2]%Z; Line.group_of [1; 3]%Z]
  = [Line.group_of [1; 2; 3]%Z].
Proof. vm_compute. reflexivity. Qed.

(** * Further properties *)

(** ** The Levenshtein distance is a metric *)

Section EditDistanceMetric.
Implicit Types s t x y z : list ascii.

Lemma ced_upper s : forall t,
  classic_edit_distance s t <= Nat.max (length s) (length t).
Proof.
  induction s as [|a s IHs]; intros t.
  - rewrite ced_nil_l. cbn [length]. lia.
  - destruct t as [|b t].
    + rewrite ced_nil_r. lia.
    + rewrite ced_cons. specialize (IHs t). cbn [length].
      destruct (Ascii.eqb a b); lia.
Qed.

Lemma ced_lower s : forall t,
  length s <= length t + classic_edit_distance s t.
Proof.
  induction s as [|a s IHs]; intros t; [cbn [length]; lia|].
  induction t as [|b t IHt].
  - rewrite ced_nil_r. lia.
  - rewrite ced_cons. pose proof (IHs (b :: t)) as H1. pose proof (IHs t) as H2.
    cbn [length] in *. destruct (Ascii.eqb a b); lia.
Qed.

Lemma ced_zero s : forall t, classic_edit_distance s t = 0 -> s = t.
Proof.
  induction s as [|a s IHs]; intros t.
  - rewrite ced_nil_l. now destruct t.
  - destruct t as [|b t]; [rewrite ced_nil_r; discriminate|].
    rewrite ced_cons. destruct (Ascii.eqb_spec a b) as [->|Hne]; intros Hz.
    + f_equal. apply IHs. lia.
    + lia.
Qed.

Lemma ced_triangle_measure (n : nat) : forall x y z,
  length x + length y + length z <= n ->
  classic_edit_distance x z <= classic_edit_distance x y + classic_edit_distance y z.
Proof.
  induction n as [|n IH]; intros x y z Hn.
  - destruct x, y, z; cbn [length] in Hn; first [lia | reflexivity].
  - destruct x as [|a x].
    { rewrite !ced_nil_l. pose proof (ced_lower z y) as Hl.
      rewrite (ced_sym z y) in Hl. lia. }
    destruct z as [|c z].
    { rewrite !ced_nil_r. pose proof (ced_lower (a :: x) y). lia. }
    destruct y as [|b y].
    { rewrite ced_nil_r, ced_nil_l.
      pose proof (ced_upper (a :: x) (c :: z)). lia. }
    cbn [length] in Hn.
    pose proof (IH x (b :: y) (c :: z) ltac:(cbn [length]; lia)) as T1.
    pose proof (IH (a :: x) (b :: y) z ltac:(cbn [length]; lia)) as T2.
    pose proof (IH (a :: x) y z ltac:(cbn [length]; lia)) as T3.
    pose proof (IH (a :: x) y (c :: z) ltac:(cbn [length]; lia)) as T4.
    pose proof (IH x y (c :: z) ltac:(cbn [length]; lia)) as T5.
    pose proof (IH x y z ltac:(cbn [length]; lia)) as T6.
    pose proof (IH x (b :: y) z ltac:(cbn [length]; lia)) as T7.
    rewrite (ced_cons a x b y), (ced_cons b y c z), (ced_cons a x c z) in *.
    assert ((if Ascii.eqb a c then 0 else 1) <=
            (if Ascii.eqb a b then 0 else 1) + (if Ascii.eqb b c then 0 else 1)) as Hd.
    { destruct (Ascii.eqb a b) eqn:E1, (Ascii.eqb b c) eqn:E2,
        (Ascii.eqb a c) eqn:E3; try lia.
      apply Ascii.eqb_eq in E1, E2. subst.
      rewrite Ascii.eqb_refl in E3. discriminate. }
    revert T1 T2 T3 T4 T5 T6 T7 Hd.
    generalize (if Ascii.eqb a c then 0 else 1), (if Ascii.eqb a b then 0 else 1),
               (if Ascii.eqb b c then 0 else 1).
    generalize (classic_edit_distance x (c :: z)), (classic_edit_distance (a :: x) z),
               (classic_edit_distance x z), (classic_edit_distance x (b :: y)),
               (classic_edit_distance (a :: x) y), (classic_edit_distance x y),
               (classic_edit_distance y (c :: z)), (classic_edit_distance (b :: y) z),
               (classic_edit_distance y z).
    intros. lia.
Qed.
End EditDistanceMetric.

Lemma list_ascii_of_string_inj (s1 s2 : string) :
  list_ascii_of_string s1 = list_ascii_of_string s2 -> s1 = s2.
Proof.
  intros E. rewrite <- (string_of_list_ascii_of_string s1),
    <- (string_of_list_ascii_of_string s2). now rewrite E.
Qed.

(** X1. [_levenshtein_distance] is a metric on strings: it does not depend
    on the order of its two arguments (the swap at the head of the function
    changes nothing), it is 0 only for equal strings, and going through a
    third string never shortens the way. *)
Theorem levenshtein_distance_metric :
  (forall s1 s2 : string,
     AttributeChecker._levenshtein_distance s1 s2 =
     AttributeChecker._levenshtein_distance s2 s1) /\
  (forall s1 s2 : string,
     AttributeChecker._levenshtein_distance s1 s2 = 0 <-> s1 = s2) /\
  (forall s1 s2 s3 : string,
     AttributeChecker._levenshtein_distance s1 s3 <=
     AttributeChecker._levenshtein_distance s1 s2 +
     AttributeChecker._levenshtein_distance s2 s3).
Proof.
  split; [|split].
  - intros s1 s2. rewrite !levenshtein_distance_classic. apply ced_sym.
  - intros s1 s2. rewrite levenshtein_distance_classic. split.
    + intros Hz. apply list_ascii_of_string_inj. now apply ced_zero.
    + intros ->. apply ced_refl.
  - intros s1 s2 s3. rewrite !levenshtein_distance_classic.
    now apply (ced_triangle_measure _ _ _ _ (Nat.le_refl _)).
Qed.

(** X2. The distance of two strings lies between the difference of their
    lengths and the length of the longer one, so that the quotient
    distance / max_len of [_levenshtein_similarity] is at most 1. *)
Theorem levenshtein_distance_bounds (s1 s2 : string) :
  String.length s1 - String.length s2 <= AttributeChecker._levenshtein_distance s1 s2 /\
  String.length s2 - String.length s1 <= AttributeChecker._levenshtein_distance s1 s2 /\
  AttributeChecker._levenshtein_distance s1 s2 <=
    Nat.max (String.length s1) (String.length s2).
Proof.
  rewrite levenshtein_distance_classic, <- !length_list_ascii_of_string.
  pose proof (ced_lower (list_ascii_of_string s1) (list_ascii_of_string s2)) as H1.
  pose proof (ced_lower (list_ascii_of_string s2) (list_ascii_of_string s1)) as H2.
  rewrite (ced_sym (list_ascii_of_string s2)) in H2.
  pose proof (ced_upper (list_ascii_of_string s1) (list_ascii_of_string s2)) as H3.
  lia.
Qed.

(** ** The buckets of the exact scans

    For a key type whose [==] is plain equality (the hash strings), every
    bucket holds, in scan order, the ids of all the features with its key. *)

Section BucketClasses.
Context {Geom K : Type} (eqb : K -> K -> bool) (key_of : QgsFeature Geom -> option K).
Hypothesis eqb_eq : forall a b, eqb a b = true <-> a = b.
Variable step : list (K * list Z) -> QgsFeature Geom -> list (K * list Z).
Hypothesis step_eq : forall buckets f,
  step buckets f =
  match key_of f with
  | Some key => bucket_append eqb key (feature_id f) buckets
  | None => buckets
  end.

Lemma eqb_neq a b : eqb a b = false <-> a <> b.
Proof. rewrite <- eqb_eq. now destruct (eqb a b). Qed.

Lemma bucket_ids_append key fid key' (buckets : list (K * list Z)) :
  bucket_ids eqb key' (bucket_append eqb key fid buckets) =
  bucket_ids eqb key' buckets ++ (if eqb key key' then [fid] else []).
Proof.
  induction buckets as [|[k fids] rest IH]; cbn [bucket_append bucket_ids].
  - now destruct (eqb key key').
  - destruct (eqb k key) eqn:Ek; cbn [bucket_ids].
    + apply eqb_eq in Ek as ->.
      destruct (eqb key key'); [reflexivity | now rewrite app_nil_r].
    + destruct (eqb k key') eqn:Ek'; [|exact IH].
      apply eqb_eq in Ek' as ->. destruct (eqb key key') eqn:E.
      * apply eqb_eq in E as ->. apply eqb_neq in Ek. now destruct Ek.
      * now rewrite app_nil_r.
Qed.

Lemma bucket_append_keys key fid (buckets : list (K * list Z)) k' :
  k' ∈ List.map fst (bucket_append eqb key fid buckets) <->
  k' = key \/ k' ∈ List.map fst buckets.
Proof.
  induction buckets as [|[k fids] rest IH]; cbn [bucket_append List.map fst].
  - rewrite elem_of_cons. split; [intros [E|E]; [auto | inversion E]|].
    intros [E|E]; [auto | inversion E].
  - destruct (eqb k key) eqn:Ek; cbn [List.map fst]; rewrite !elem_of_cons.
    + apply eqb_eq in Ek as ->. tauto.
    + rewrite IH. tauto.
Qed.

Lemma bucket_append_NoDup key fid (buckets : list (K * list Z)) :
  NoDup (List.map fst buckets) ->
  NoDup (List.map fst (bucket_append eqb key fid buckets)).
Proof.
  induction buckets as [|[k fids] rest IH]; cbn [bucket_append List.map fst]; intros Hnd.
  - apply NoDup_singleton.
  - apply NoDup_cons in Hnd as [Hk Hnd].
    destruct (eqb k key) eqn:Ek; cbn [List.map fst]; apply NoDup_cons.
    + auto.
    + split; [|auto]. rewrite bucket_append_keys. intros [->|Hin]; [|auto].
      apply eqb_neq in Ek. now apply Ek.
Qed.

Lemma bucket_ids_elem (buckets : list (K * list Z)) k fids :
  NoDup (List.map fst buckets) -> (k, fids) ∈ buckets -> bucket_ids eqb k buckets = fids.
Proof.
  induction buckets as [|[k0 f0] rest IH]; cbn [List.map fst bucket_ids]; intros Hnd Hin.
  - inversion Hin.
  - apply NoDup_cons in Hnd as [Hk Hnd]. apply elem_of_cons in Hin as [[= -> ->]|Hin].
    + now rewrite (proj2 (eqb_eq k0 k0) eq_refl).
    + destruct (eqb k0 k) eqn:Ek; [|auto]. apply eqb_eq in Ek as ->.
      exfalso. apply Hk. apply list_elem_of_In, in_map_iff.
      exists (k, fids). split; [reflexivity | now apply list_elem_of_In].
Qed.

Lemma bucket_ids_present (buckets : list (K * list Z)) k :
  bucket_ids eqb k buckets <> [] -> (k, bucket_ids eqb k buckets) ∈ buckets.
Proof.
  induction buckets as [|[k0 f0] rest IH]; cbn [bucket_ids]; intros Hne; [congruence|].
  destruct (eqb k0 k) eqn:Ek.
  - apply eqb_eq in Ek as ->. apply elem_of_cons. now left.
  - apply elem_of_cons. right. auto.
Qed.

Lemma bucket_fold_keys_NoDup features : forall buckets,
  NoDup (List.map fst buckets) -> NoDup (List.map fst (fold_left step features buckets)).
Proof.
  induction features as [|f features IH]; intros buckets Hnd; cbn [fold_left]; [auto|].
  apply IH. rewrite step_eq. destruct (key_of f); [now apply bucket_append_NoDup | auto].
Qed.

(** The ids with key [k] met by the scan, in scan order. *)
Lemma bucket_fold_ids k features : forall buckets,
  bucket_ids eqb k (fold_left step features buckets) =
  bucket_ids eqb k buckets ++
  List.map feature_id
    (List.filter (fun f => match key_of f with Some k' => eqb k' k | None => false end)
                 features).
Proof.
  induction features as [|f features IH]; intros buckets; cbn [fold_left List.filter].
  - now rewrite app_nil_r.
  - rewrite IH, step_eq. destruct (key_of f) as [key|]; [|reflexivity].
    rewrite bucket_ids_append, <- app_assoc.
    now destruct (eqb key k).
Qed.
End BucketClasses.

Section HashClasses.
Context `{PyRuntime} {Geom : Type} `{GeometryEngine Geom}.
Implicit Types (self : DuplicateDetector.t (Geom := Geom)) (features : list (QgsFeature Geom)).

Lemma hashes_to_spec checker h (f : QgsFeature Geom) :
  hashes_to checker h f = true <->
  geometry f <> None /\ GeometryChecker.hash_geometry checker (geometry f) = h.
Proof.
  unfold hashes_to. destruct (geometry f) as [geom|]; cbn [isNull].
  - rewrite String.eqb_eq. split; [now intros -> | tauto].
  - split; [discriminate | now intros [Hn _]].
Qed.

Lemma hash_fold_ids checker features h :
  bucket_ids String.eqb h (fold_left (DuplicateDetector.hash_step checker) features []) =
  List.map feature_id (List.filter (hashes_to checker h) features).
Proof.
  rewrite (bucket_fold_ids String.eqb
             (fun f => if isNull (geometry f) then None
                       else Some (GeometryChecker.hash_geometry checker (geometry f)))
             String.eqb_eq); [reflexivity|].
  intros buckets f. unfold DuplicateDetector.hash_step. now destruct (isNull (geometry f)).
Qed.

Lemma hash_fold_bucket checker features h fids :
  (h, fids) ∈ fold_left (DuplicateDetector.hash_step checker) features [] ->
  fids = List.map feature_id (List.filter (hashes_to checker h) features).
Proof.
  intros Hb. rewrite <- hash_fold_ids. symmetry.
  apply (bucket_ids_elem String.eqb String.eqb_eq); [|exact Hb].
  apply (bucket_fold_keys_NoDup String.eqb
           (fun f => if isNull (geometry f) then None
                     else Some (GeometryChecker.hash_geometry checker (geometry f)))
           String.eqb_eq); [|apply NoDup_nil_2].
  intros buckets f. unfold DuplicateDetector.hash_step. now destruct (isNull (geometry f)).
Qed.

Lemma elem_of_hash_class checker features h fid :
  fid ∈ List.map feature_id (List.filter (hashes_to checker h) features) <->
  exists f, f ∈ features /\ feature_id f = fid /\ geometry f <> None /\
            GeometryChecker.hash_geometry checker (geometry f) = h.
Proof.
  rewrite list_elem_of_In, in_map_iff. split.
  - intros (f & E & Hf). apply filter_In in Hf as [Hf Hh].
    apply hashes_to_spec in Hh. exists f. rewrite list_elem_of_In. tauto.
  - intros (f & Hf & E & Hh). exists f. split; [exact E|].
    apply filter_In. split; [now apply list_elem_of_In | now apply hashes_to_spec].
Qed.

(** X3. A group of the exact-hash scan is a whole hash class: there is a
    hash such that the ids of the group are exactly the ids of the scanned
    features that have a geometry with this hash. *)
Theorem hash_group_is_hash_class self checker features g :
  g ∈ DuplicateDetector._detect_by_hash self features checker ->
  exists h, forall fid,
    fid ∈ feature_ids g <->
    exists f, f ∈ features /\ feature_id f = fid /\ geometry f <> None /\
              GeometryChecker.hash_geometry checker (geometry f) = h.
Proof.
  intros Hg. unfold DuplicateDetector._detect_by_hash in Hg.
  apply list_elem_of_omap in Hg as ([h fids] & Hb & Hgroup).
  apply hash_fold_bucket in Hb. unfold DuplicateDetector.hash_group_of in Hgroup.
  destruct (Nat.ltb _ _); [|discriminate]. injection Hgroup as <-.
  exists h. intros fid. cbn [feature_ids snd].
  rewrite elem_of_list_to_set, Hb. apply elem_of_hash_class.
Qed.

(** X4. The exact-hash scan misses no pair: two scanned features with
    different ids whose geometries are not null and have the same hash are
    members of one and the same group. *)
Theorem equal_hashes_share_a_group self checker features (f1 f2 : QgsFeature Geom) :
  f1 ∈ features -> f2 ∈ features ->
  feature_id f1 <> feature_id f2 ->
  geometry f1 <> None -> geometry f2 <> None ->
  GeometryChecker.hash_geometry checker (geometry f1) =
  GeometryChecker.hash_geometry checker (geometry f2) ->
  exists g, g ∈ DuplicateDetector._detect_by_hash self features checker /\
            feature_id f1 ∈ feature_ids g /\ feature_id f2 ∈ feature_ids g.
Proof.
  intros Hf1 Hf2 Hne Hg1 Hg2 Hh.
  set (h := GeometryChecker.hash_geometry checker (geometry f2)) in *.
  set (fids := List.map feature_id (List.filter (hashes_to checker h) features)).
  assert (feature_id f1 ∈ fids) as H1 by (apply elem_of_hash_class; eauto 6).
  assert (feature_id f2 ∈ fids) as H2 by (apply elem_of_hash_class; eauto 6).
  assert (1 < length fids) as Hlen.
  { destruct fids as [|a [|b rest]]; cbn [length]; [inversion H1| |lia].
    apply list_elem_of_singleton in H1, H2. congruence. }
  exists (mkGroup (list_to_set fids) "geometry" 1%float "Exact WKB match" None []).
  split; [|cbn [feature_ids]; now rewrite !elem_of_list_to_set].
  unfold DuplicateDetector._detect_by_hash. apply list_elem_of_omap.
  exists (h, fids). split.
  - unfold fids. rewrite <- hash_fold_ids.
    apply (bucket_ids_present String.eqb String.eqb_eq).
    rewrite hash_fold_ids. fold fids. intros E. rewrite E in H1. inversion H1.
  - unfold DuplicateDetector.hash_group_of. cbn [snd].
    now rewrite (proj2 (Nat.ltb_lt _ _) Hlen).
Qed.
End HashClasses.

Lemma hash_group_is_hash_class_witness :
  exists h, forall fid,
    fid ∈ feature_ids (Line.group_of [1; 2]%Z) <->
    exists f, f ∈ Line.two_points_and_null /\ feature_id f = fid /\ geometry f <> None /\
              GeometryChecker.hash_geometry (H := Line.runtime) (H0 := Line.engine)
                (GeometryChecker.mk 0 0 false 8) (geometry f) = h.
Proof.
  apply (hash_group_is_hash_class (H := Line.runtime) (H0 := Line.engine)
           (Line.detector None "geometry" 0 0 [] None) (GeometryChecker.mk 0 0 false 8)
           Line.two_points_and_null (Line.group_of [1; 2]%Z)).
  vm_compute. left.
Defined.

Lemma equal_hashes_share_a_group_witness :
  exists g,
    g ∈ DuplicateDetector._detect_by_hash (H := Line.runtime) (H0 := Line.engine)
          (Line.detector None "geometry" 0 0 [] None) Line.two_points_and_null
          (GeometryChecker.mk 0 0 false 8) /\
    feature_id (Line.point_feature 1 5) ∈ feature_ids g /\
    feature_id (Line.point_feature 2 5) ∈ feature_ids g.
Proof.
  apply (equal_hashes_share_a_group (H := Line.runtime) (H0 := Line.engine)
           (Line.detector None "geometry" 0 0 [] None) (GeometryChecker.mk 0 0 false 8)
           Line.two_points_and_null (Line.point_feature 1 5) (Line.point_feature 2 5)
           ltac:(left) ltac:(right; left) ltac:(cbn; lia)
           ltac:(cbn; congruence) ltac:(cbn; congruence) eq_refl).
Defined.

(** ** Attribute detection and null values *)

(** X5. With [ignore_null] enabled, a feature in which a configured field
    is null or missing belongs to no group of attribute detection, feature
    ids being unique within the scanned features. *)
Theorem null_field_never_grouped `{PyRuntime} {Geom : Type} `{GeometryEngine Geom}
    (self : DuplicateDetector.t (Geom := Geom)) (features : list (QgsFeature Geom))
    (groups : list DuplicateGroup) (f : QgsFeature Geom) (name : string) :
  DuplicateDetector.ignore_null self = true ->
  NoDup (List.map feature_id features) ->
  f ∈ features ->
  In name (DuplicateDetector.fields self) ->
  field_is_null (attributes f) name = true ->
  DuplicateDetector._detect_attribute_duplicates self features = Ok groups ->
  forall g, g ∈ groups -> feature_id f ∉ feature_ids g.
Proof.
  intros Hi Hnd Hf Hname Hnull. unfold DuplicateDetector._detect_attribute_duplicates.
  destruct (DuplicateDetector.fields self) as [|field1 fields'] eqn:Ef; [discriminate|].
  intros [= <-] g Hg Hin.
  apply list_elem_of_omap in Hg as (bucket & Hb & Hgroup).
  set (checker := AttributeChecker.mk (field1 :: fields')
                    (DuplicateDetector.normalize_attributes self)
                    (DuplicateDetector.ignore_null self) false 0) in *.
  eapply (bucket_scan_sound key_eqb (AttributeChecker.get_key checker))
    in Hb as [_ Hmem]; [| |exact Hnd].
  2:{ intros buckets f0. reflexivity. }
  unfold DuplicateDetector.key_group_of in Hgroup. destruct bucket as [key fids].
  destruct (Nat.ltb _ _); [|discriminate]. injection Hgroup as <-.
  cbn [feature_ids snd] in *.
  apply elem_of_list_to_set, Hmem in Hin as (f' & Hf' & Hid & Hkey).
  rewrite (NoDup_feature_id_inj features f' f Hnd Hf' Hf Hid) in Hkey.
  apply Hkey. rewrite get_key_closed.
  assert (existsb (field_is_null (attributes f)) (AttributeChecker.fields checker) = true)
    as ->.
  { apply existsb_exists. exists name. split; [exact Hname | exact Hnull]. }
  unfold checker. cbn [AttributeChecker.ignore_null]. now rewrite Hi.
Qed.

Lemma null_field_never_grouped_witness :
  feature_id (Line.named_feature 3 VNull) ∉ feature_ids Towns.paris_group.
Proof.
  apply (null_field_never_grouped (H := Line.runtime) (H0 := Line.engine)
           (Towns.detector true) Towns.features [Towns.paris_group]
           (Line.named_feature 3 VNull) "name"
           eq_refl ltac:(closed_set_fact) ltac:(right; right; left)
           ltac:(left; reflexivity) eq_refl ltac:(vm_compute; reflexivity)
           Towns.paris_group ltac:(left)).
Defined.

(** ** Scores of the geometry comparison *)

Lemma float_ltb_leb (x y : float) : PrimFloat.ltb x y = true -> PrimFloat.leb x y = true.
Proof.
  rewrite FloatAxioms.ltb_spec, FloatAxioms.leb_spec. unfold SFltb, SFleb.
  now destruct (SFcompare _ _) as [[]|].
Qed.

(** What lies above 0.9 is not below 0.5. *)
Lemma float_above_0_9 (x : float) :
  PrimFloat.ltb float_0_9 x = true -> PrimFloat.leb 0.5%float x = true.
Proof.
  rewrite FloatAxioms.ltb_spec, FloatAxioms.leb_spec.
  change (Prim2SF float_0_9) with (S754_finite false 8106479329266893 (-53)).
  change (Prim2SF 0.5%float) with (S754_finite false 4503599627370496 (-53)).
  unfold SFltb, SFleb.
  destruct (Prim2SF x) as [[]|[]| |[] m e]; cbn [SFcompare]; try discriminate;
    try reflexivity.
  destruct (Z.compare (-53) e); try discriminate; try reflexivity.
  change (Pos.compare_cont Eq 8106479329266893 m) with (Pos.compare 8106479329266893 m).
  change (Pos.compare_cont Eq 4503599627370496 m) with (Pos.compare 4503599627370496 m).
  destruct (Pos.compare_spec 8106479329266893 m) as [E|L|G]; try discriminate.
  intros _. destruct (Pos.compare_spec 4503599627370496 m) as [E'|L'|G']; try reflexivity.
  pose proof (Pos.lt_trans _ _ _ L G') as Hlt. vm_compute in Hlt. discriminate Hlt.
Qed.

(** [max(0.5, score)] is at least 0.5, also when [score] is not a number. *)
Lemma py_max_half (score : float) :
  PrimFloat.leb 0.5%float (py_max 0.5%float score) = true.
Proof.
  unfold py_max. destruct (PrimFloat.ltb 0.5 score) eqn:E; [|reflexivity].
  now apply float_ltb_leb.
Qed.

Section ScoreFacts.
Context `{PyRuntime} {Geom : Type} `{GeometryEngine Geom}.
Implicit Types (self : GeometryChecker.t) (g p : Geom).

Lemma compare_centroid_score self g1 g2 tolerance :
  score_in_range (GeometryChecker._compare_centroid self g1 g2 tolerance).
Proof.
  unfold GeometryChecker._compare_centroid, score_in_range, is_match, score_of.
  destruct (centroid g1) as [c1|]; [|reflexivity].
  destruct (centroid g2) as [c2|]; [|reflexivity]. cbv zeta.
  destruct (PrimFloat.leb _ tolerance); cbn [fst snd]; [apply py_max_half | reflexivity].
Qed.

Lemma compare_single_score self g1 g2 tolerance :
  score_in_range (GeometryChecker._compare_single self g1 g2 tolerance).
Proof.
  assert (score_in_range (GeometryChecker._compare_wkb self g1 g2)) as Hwkb.
  { unfold GeometryChecker._compare_wkb, score_in_range, is_match, score_of. cbv zeta.
    destruct (String.eqb _ _); reflexivity. }
  unfold GeometryChecker._compare_single.
  destruct (Z.eqb _ GeometryChecker.METHOD_WKB_HASH); [exact Hwkb|].
  destruct (Z.eqb _ GeometryChecker.METHOD_CENTROID); [apply compare_centroid_score|].
  destruct (Z.eqb _ GeometryChecker.METHOD_HAUSDORFF).
  { unfold GeometryChecker._compare_hausdorff.
    destruct (hausdorffDistance g1 g2) as [d|]; [|apply compare_centroid_score].
    unfold score_in_range, is_match, score_of. cbv zeta.
    destruct (PrimFloat.leb d tolerance); cbn [fst snd]; [apply py_max_half | reflexivity]. }
  destruct (Z.eqb _ GeometryChecker.METHOD_BBOX); [|exact Hwkb].
  unfold GeometryChecker._compare_bbox, score_in_range, is_match, score_of. cbv zeta.
  destruct (_ || _); [reflexivity|].
  destruct (rect_intersects _ _); [|reflexivity].
  destruct (PrimFloat.ltb 0 _); [|reflexivity].
  destruct (PrimFloat.ltb float_0_9 _) eqn:E; cbn [fst snd]; [|reflexivity].
  now apply float_above_0_9.
Qed.

(** What the two loops over the parts return is the result of a matching
    pair of parts; they return nothing when no pair matches. *)
Lemma first_match_in_spec self p1 parts2 tolerance :
  match GeometryChecker.first_match_in self p1 parts2 tolerance with
  | Some r => is_match r = true /\
              exists p2, In p2 parts2 /\ r = GeometryChecker._compare_single self p1 p2 tolerance
  | None => forall p2, In p2 parts2 ->
                       is_match (GeometryChecker._compare_single self p1 p2 tolerance) = false
  end.
Proof.
  induction parts2 as [|p2 rest IH]; cbn [GeometryChecker.first_match_in].
  - intros p2 [].
  - cbv zeta. fold (is_match (GeometryChecker._compare_single self p1 p2 tolerance)).
    destruct (is_match (GeometryChecker._compare_single self p1 p2 tolerance)) eqn:Em.
    + split; [exact Em|]. exists p2. split; [now left | reflexivity].
    + destruct (GeometryChecker.first_match_in self p1 rest tolerance) as [r|].
      * destruct IH as [Hm (p & Hp & E)]. split; [exact Hm|]. exists p. split; [now right | exact E].
      * intros p [<-|Hp]; [exact Em | now apply IH].
Qed.

Lemma first_part_match_spec self parts1 parts2 tolerance :
  match GeometryChecker.first_part_match self parts1 parts2 tolerance with
  | Some r => is_match r = true /\
              exists p1 p2, In p1 parts1 /\ In p2 parts2 /\
                            r = GeometryChecker._compare_single self p1 p2 tolerance
  | None => forall p1 p2, In p1 parts1 -> In p2 parts2 ->
                          is_match (GeometryChecker._compare_single self p1 p2 tolerance) = false
  end.
Proof.
  induction parts1 as [|p1 rest IH]; cbn [GeometryChecker.first_part_match].
  - intros p1 p2 [].
  - pose proof (first_match_in_spec self p1 parts2 tolerance) as Hin.
    destruct (GeometryChecker.first_match_in self p1 parts2 tolerance) as [r|].
    + destruct Hin as [Hm (p2 & Hp2 & E)]. split; [exact Hm|].
      exists p1, p2. split; [now left|]. now split.
    + destruct (GeometryChecker.first_part_match self rest parts2 tolerance) as [r|].
      * destruct IH as [Hm (q1 & q2 & Hq1 & Hq2 & E)]. split; [exact Hm|].
        exists q1, q2. split; [now right|]. now split.
      * intros q1 q2 [<-|Hq1] Hq2; [now apply Hin | now apply IH].
Qed.
End ScoreFacts.

(** X6. Whatever the method, the tolerance and the decomposition option,
    the score returned by [compare] is 0.0 when it reports no match and at
    least 0.5 when it reports one (for the bounding-box method the ratio is
    above 0.9, for the distance methods the score is [max(0.5, ..)], also
    when the quotient is not a number). *)
Theorem compare_score_in_range `{PyRuntime} {Geom : Type} `{GeometryEngine Geom}
    (self : GeometryChecker.t) (geom1 geom2 : QgsGeometry Geom) (override : option float) :
  score_in_range (GeometryChecker.compare self geom1 geom2 override).
Proof.
  unfold GeometryChecker.compare. cbv zeta.
  destruct geom1 as [g1|]; [|reflexivity]. destruct geom2 as [g2|]; [|reflexivity].
  destruct (GeometryChecker.decompose_multipart self); [|apply compare_single_score].
  match goal with
  | |- context [GeometryChecker.first_part_match self ?a ?b ?c] =>
      pose proof (first_part_match_spec self a b c) as Hp;
      destruct (GeometryChecker.first_part_match self a b c) as [r|]
  end; [|reflexivity].
  destruct Hp as [_ (p1 & p2 & _ & _ & ->)]. apply compare_single_score.
Qed.

(** X7. With multipart decomposition on, [compare] reports a match for two
    non-null geometries exactly when some part of the first one matches
    some part of the second one under the configured method. *)
Theorem decomposed_compare_matches_some_parts
    `{PyRuntime} {Geom : Type} `{GeometryEngine Geom}
    (self : GeometryChecker.t) (g1 g2 : Geom) (tolerance : float) :
  GeometryChecker.decompose_multipart self = true ->
  (is_match (GeometryChecker.compare self (Some g1) (Some g2) (Some tolerance)) = true <->
   exists p1 p2,
     In p1 (GeometryChecker._get_parts g1) /\ In p2 (GeometryChecker._get_parts g2) /\
     is_match (GeometryChecker._compare_single self p1 p2 tolerance) = true).
Proof.
  intros Hd. unfold GeometryChecker.compare. cbv zeta. rewrite Hd.
  pose proof (first_part_match_spec self (GeometryChecker._get_parts g1)
                (GeometryChecker._get_parts g2) tolerance) as Hp.
  destruct (GeometryChecker.first_part_match self _ _ tolerance) as [r|].
  - destruct Hp as [Hm (p1 & p2 & H1 & H2 & E)]. split; [|intros _; exact Hm].
    intros _. exists p1, p2. rewrite <- E. auto.
  - split; [discriminate|]. intros (p1 & p2 & H1 & H2 & Hm).
    rewrite (Hp p1 p2 H1 H2) in Hm. discriminate.
Qed.

Lemma decomposed_compare_matches_some_parts_witness :
  is_match (GeometryChecker.compare (H := Line.runtime) (H0 := Line.engine)
              (GeometryChecker.mk 0 0 true 8) (Some [1; 2]%Z) (Some [3; 2]%Z)
              (Some 0%float)) = true.
Proof.
  apply (proj2 (decomposed_compare_matches_some_parts (H := Line.runtime) (H0 := Line.engine)
                  (GeometryChecker.mk 0 0 true 8) [1; 2]%Z [3; 2]%Z 0%float eq_refl)).
  exists [2%Z], [2%Z]. vm_compute. auto.
Defined.

(** ** The rules of the priority resolver *)

Lemma fold_min_le (l : list nat) : forall a,
  fold_left Nat.min l a <= a /\ forall x, In x l -> fold_left Nat.min l a <= x.
Proof.
  induction l as [|b l IH]; intros a; cbn [fold_left].
  - split; [lia | intros x []].
  - destruct (IH (Nat.min a b)) as [Ha Hl]. split; [lia|].
    intros x [<-|Hx]; [lia | auto].
Qed.

Lemma fold_min_attained (l : list nat) : forall a,
  fold_left Nat.min l a = a \/ In (fold_left Nat.min l a) l.
Proof.
  induction l as [|b l IH]; intros a; cbn [fold_left]; [now left|].
  destruct (IH (Nat.min a b)) as [E|Hin]; [|right; now right].
  rewrite E. destruct (Nat.min_spec a b) as [[_ ->]|[_ ->]]; [now left | right; now left].
Qed.

Lemma filter_unique {A : Type} (p : A -> bool) (x : A) (l : list A) :
  NoDup l -> x ∈ l -> (forall y, y ∈ l -> (p y = true <-> y = x)) ->
  List.filter p l = [x].
Proof.
  induction l as [|a l IH]; intros Hnd Hin Hp; [inversion Hin|].
  apply NoDup_cons in Hnd as [Ha Hnd]. cbn [List.filter].
  assert (forall y, y ∈ a :: l -> y <> x -> p y = false) as Hrest.
  { intros y Hy Hne. destruct (p y) eqn:E; [|reflexivity].
    apply Hp in E; [contradiction | exact Hy]. }
  apply elem_of_cons in Hin as [->|Hin].
  - rewrite (proj2 (Hp a ltac:(left)) eq_refl). f_equal.
    assert (forall y, y ∈ l -> p y = false) as Hl.
    { intros y Hy. apply Hrest; [now right|]. intros ->. contradiction. }
    clear -Hl. induction l as [|b l IHl]; [reflexivity|]. cbn [List.filter].
    rewrite (Hl b ltac:(left)). apply IHl. intros y Hy. apply Hl. now right.
  - rewrite (Hrest a ltac:(left)); [|intros ->; contradiction].
    apply IH; [exact Hnd | exact Hin |]. intros y Hy. apply Hp. now right.
Qed.

Section KeyedEntries.
Context {A B : Type} (get : Z -> option A) (val : A -> B).

Lemma keyed_entries_elem candidates fid b :
  (fid, b) ∈ keyed_entries get val candidates <->
  fid ∈ candidates /\ exists feature, get fid = Some feature /\ b = val feature.
Proof.
  unfold keyed_entries. rewrite list_elem_of_omap. split.
  - intros (x & Hx & E). destruct (get x) as [feature|] eqn:Eg; [|discriminate].
    injection E as E1 E2. subst. eauto.
  - intros (Hin & feature & Eg & ->). exists fid. now rewrite Eg.
Qed.

Lemma keyed_entries_NoDup candidates : NoDup candidates -> NoDup (keyed_entries get val candidates).
Proof.
  induction candidates as [|a l IH]; intros Hnd; [apply NoDup_nil_2|].
  apply NoDup_cons in Hnd as [Ha Hnd]. unfold keyed_entries. cbn [omap list_omap].
  fold (keyed_entries get val l).
  destruct (get a) as [feature|]; [|now apply IH].
  apply NoDup_cons. split; [|now apply IH].
  intros Hin. apply keyed_entries_elem in Hin as [Hin _]. contradiction.
Qed.
End KeyedEntries.

Section CompletenessRule.
Context `{PyRuntime} {Geom : Type} `{GeometryEngine Geom}.
Implicit Types (self : PriorityResolver.t (Geom := Geom)) (features : list (QgsFeature Geom)).

(** The completeness rule answers with a candidate exactly when this
    candidate has a feature with strictly fewer null fields than the feature
    of every other candidate; on a tie for the fewest nulls it gives no
    answer.  The candidates are the keys of a dictionary, hence distinct. *)
Lemma completeness_rule_spec self features (candidates : list Z)
    (fid : Z) :
  NoDup candidates ->
  (PriorityResolver._apply_completeness_rule self features candidates = Some fid <->
   fid ∈ candidates /\
   exists f, PriorityResolver.features_get features fid = Some f /\
     forall fid' f', fid' ∈ candidates -> fid' <> fid ->
                     PriorityResolver.features_get features fid' = Some f' ->
                     PriorityResolver.null_count f < PriorityResolver.null_count f').
Proof.
  intros Hnd. unfold PriorityResolver._apply_completeness_rule.
  fold (keyed_entries (PriorityResolver.features_get features)
                      PriorityResolver.null_count candidates).
  pose proof (keyed_entries_elem (PriorityResolver.features_get features)
                PriorityResolver.null_count candidates) as Helem.
  pose proof (keyed_entries_NoDup (PriorityResolver.features_get features)
                PriorityResolver.null_count candidates Hnd) as Hnde.
  destruct (keyed_entries _ _ candidates) as [|[k first] others] eqn:El.
  { split; [discriminate|]. intros (Hin & f & Ef & _).
    assert ((fid, PriorityResolver.null_count f) ∈ ([] : list (Z * nat))) as Hx
      by (apply Helem; eauto).
    inversion Hx. }
  cbv zeta. set (L := (k, first) :: others) in *.
  set (m := fold_left Nat.min (List.map snd others) first).
  assert (forall e, e ∈ L -> m <= snd e) as Hlow.
  { intros e He. destruct (fold_min_le (List.map snd others) first) as [Ha Hl].
    apply elem_of_cons in He as [->|He]; [exact Ha|].
    apply Hl, in_map, list_elem_of_In, He. }
  assert (exists e, e ∈ L /\ snd e = m) as (e0 & He0 & Em0).
  { destruct (fold_min_attained (List.map snd others) first) as [E|Hin].
    - exists (k, first). split; [left | now symmetry].
    - apply in_map_iff in Hin as (e & E & He). exists e.
      split; [right; now apply list_elem_of_In | exact E]. }
  split.
  - intros Hbest.
    assert (List.filter (fun kv => Nat.eqb (snd kv) m) L = [(fid, m)] \/
            exists c, List.filter (fun kv => Nat.eqb (snd kv) m) L = [(fid, c)]) as Hf.
    { destruct (List.filter _ L) as [|[a c] [|b rest]]; try discriminate.
      injection Hbest as ->. right. now exists c. }
    assert (exists c, List.filter (fun kv => Nat.eqb (snd kv) m) L = [(fid, c)])
      as [c Hfc] by (destruct Hf as [E|E]; eauto).
    assert ((fid, c) ∈ L /\ c = m) as [Hin Ec].
    { assert (In (fid, c) (List.filter (fun kv => Nat.eqb (snd kv) m) L)) as Hi
        by (rewrite Hfc; now left).
      apply filter_In in Hi as [Hi Hb]. apply Nat.eqb_eq in Hb.
      split; [now apply list_elem_of_In | exact Hb]. }
    apply Helem in Hin as (Hcand & f & Ef & Ec'). split; [exact Hcand|].
    exists f. split; [exact Ef|]. intros fid' f' Hin' Hne Ef'.
    assert ((fid', PriorityResolver.null_count f') ∈ L) as He by (apply Helem; eauto).
    pose proof (Hlow _ He) as Hle. cbn [snd] in Hle.
    destruct (Nat.eq_dec (PriorityResolver.null_count f') m) as [Eq|Hneq]; [|lia].
    exfalso. assert (In (fid', PriorityResolver.null_count f')
                        (List.filter (fun kv => Nat.eqb (snd kv) m) L)) as Hi.
    { apply filter_In. split; [now apply list_elem_of_In | now apply Nat.eqb_eq]. }
    rewrite Hfc in Hi. destruct Hi as [E|[]]. congruence.
  - intros (Hcand & f & Ef & Hstrict).
    assert ((fid, PriorityResolver.null_count f) ∈ L) as Hin by (apply Helem; eauto).
    assert (forall e, e ∈ L -> fst e <> fid -> PriorityResolver.null_count f < snd e)
      as Hothers.
    { intros [fid' c'] He Hne. apply Helem in He as (Hin' & f' & Ef' & ->).
      now apply (Hstrict fid' f'). }
    assert (forall e, e ∈ L -> fst e = fid -> e = (fid, PriorityResolver.null_count f))
      as Hsame.
    { intros [fid' c'] He E. cbn [fst] in E. subst fid'.
      apply Helem in He as (_ & f' & Ef' & ->). congruence. }
    assert (m = PriorityResolver.null_count f) as Em.
    { destruct (Z.eq_dec (fst e0) fid) as [E|Hne].
      - rewrite (Hsame e0 He0 E) in Em0. now symmetry.
      - pose proof (Hothers e0 He0 Hne). pose proof (Hlow _ Hin). cbn [snd] in *. lia. }
    rewrite (filter_unique _ (fid, PriorityResolver.null_count f) L Hnde Hin);
      [reflexivity|].
    intros e He. rewrite Nat.eqb_eq. split.
    + intros Es. apply (Hsame e He). destruct (Z.eq_dec (fst e) fid) as [E|Hne]; [exact E|].
      pose proof (Hothers e He Hne). lia.
    + intros ->. cbn [snd]. now symmetry.
Qed.

Lemma dict_keys_NoDup (ids : list Z) : forall keys,
  NoDup keys -> NoDup (dict_keys ids keys).
Proof.
  induction ids as [|i ids IH]; intros keys Hnd; cbn [dict_keys]; [exact Hnd|].
  apply IH. case_bool_decide as Hi; [exact Hnd|].
  apply NoDup_app. split; [exact Hnd|]. split; [|apply NoDup_singleton].
  intros x Hx Hxi. apply list_elem_of_singleton in Hxi as ->. contradiction.
Qed.

Lemma features_get_spec features fid (f : QgsFeature Geom) :
  NoDup (List.map feature_id features) ->
  (PriorityResolver.features_get features fid = Some f <->
   f ∈ features /\ feature_id f = fid).
Proof.
  intros Hnd. unfold PriorityResolver.features_get. split.
  - intros E. apply find_some in E as [Hin Hb]. apply Z.eqb_eq in Hb.
    split; [|exact Hb]. now apply list_elem_of_In, in_rev.
  - intros [Hf Hid].
    destruct (List.find _ (rev features)) as [f'|] eqn:E.
    + apply find_some in E as [Hin Hb]. apply Z.eqb_eq in Hb.
      f_equal. apply (NoDup_feature_id_inj features f' f Hnd); [|exact Hf|congruence].
      now apply list_elem_of_In, in_rev.
    + assert (In f (rev features)) as Hr by (apply -> in_rev; now apply list_elem_of_In).
      pose proof (find_none _ _ E f Hr) as Hb.
      cbn beta in Hb. rewrite Hid, Z.eqb_refl in Hb. discriminate.
Qed.
End CompletenessRule.

Section ResolveGroup.
Context `{PyRuntime} {Geom : Type} `{GeometryEngine Geom}.
Implicit Types (self : PriorityResolver.t (Geom := Geom)) (group : DuplicateGroup).

(** The candidates of [_resolve_group]: the ids of the group found in the
    layer, each once. *)
Lemma resolve_candidates self group :
  let candidates :=
    dict_keys (List.map feature_id
                 (getFeatures_filtered (PriorityResolver.layer self)
                                       (set_iter (feature_ids group)))) [] in
  NoDup candidates /\
  forall x, x ∈ candidates <->
            x ∈ feature_ids group /\
            x ∈ List.map feature_id (getFeatures (PriorityResolver.layer self)).
Proof.
  cbv zeta. split; [apply dict_keys_NoDup, NoDup_nil_2|].
  intros x. rewrite dict_keys_elem, getFeatures_filtered_ids, set_iter_elem.
  split; [intros [Hx|Hx]; [inversion Hx | exact Hx] | auto].
Qed.

(** X8. With the completeness rule alone (no field rule, no area rule, no
    id fallback) and unique feature ids in the layer, a group of two or more
    ids is suggested the feature [fid] exactly when [fid] is not 0, belongs
    to the group and its feature has strictly fewer null fields than every
    other feature of the group: a tie gives no suggestion, and neither does
    the feature with id 0, whose id is false in [if result:]. *)
Theorem completeness_only_suggestion self group (fid : Z) :
  NoDup (List.map feature_id (getFeatures (PriorityResolver.layer self))) ->
  2 <= size (feature_ids group) ->
  PriorityResolver.field_name self = None ->
  PriorityResolver.use_completeness self = true ->
  PriorityResolver.area_rule self = None ->
  PriorityResolver.fid_fallback self = false ->
  (PriorityResolver._resolve_group self group = Some fid <->
   fid <> 0%Z /\ fid ∈ feature_ids group /\
   exists f, f ∈ getFeatures (PriorityResolver.layer self) /\ feature_id f = fid /\
     forall f', f' ∈ getFeatures (PriorityResolver.layer self) ->
                feature_id f' ∈ feature_ids group -> feature_id f' <> fid ->
                PriorityResolver.null_count f < PriorityResolver.null_count f').
Proof.
  intros Hnd Hsize Hfield Hcomp Harea Hfb.
  unfold PriorityResolver._resolve_group.
  rewrite (proj2 (Nat.ltb_ge _ _) Hsize), Hfield, Hcomp, Harea, Hfb.
  cbn [str_truthy andb fid_truthy]. cbv zeta.
  destruct (resolve_candidates self group) as [Hndc Hcand]. cbv zeta in Hndc, Hcand.
  set (fetched := getFeatures_filtered (PriorityResolver.layer self)
                    (set_iter (feature_ids group))) in *.
  assert (NoDup (List.map feature_id fetched)) as Hndf by apply NoDup_map_filter, Hnd.
  assert (forall f, f ∈ fetched <->
                    f ∈ getFeatures (PriorityResolver.layer self) /\
                    feature_id f ∈ feature_ids group) as Hfetched.
  { intros f. unfold fetched, getFeatures_filtered.
    rewrite list_elem_of_In, filter_In, bool_decide_eq_true, set_iter_elem.
    now rewrite list_elem_of_In. }
  destruct (dict_keys (List.map feature_id fetched) []) as [|first others] eqn:Ek.
  { split; [discriminate|]. intros (_ & Hin & f & Hf & Hid & _).
    assert (fid ∈ ([] : list Z)) as Hx.
    { apply Hcand. split; [exact Hin|]. rewrite <- Hid.
      apply list_elem_of_In, in_map, list_elem_of_In, Hf. }
    inversion Hx. }
  pose proof (completeness_rule_spec self fetched (first :: others)) as Hrule.
  destruct (PriorityResolver._apply_completeness_rule self fetched (first :: others))
    as [best|] eqn:Eb; cbn [fid_truthy].
  - specialize (Hrule best Hndc). destruct Hrule as [Hrule _].
    destruct (Hrule eq_refl) as (Hbc & f & Ef & Hstrict).
    apply (features_get_spec fetched best f Hndf) in Ef as [Hf Hid].
    apply Hfetched in Hf as [Hf Hg].
    assert (forall fid0,
              fid0 = best ->
              fid0 ∈ feature_ids group /\
              exists f0, f0 ∈ getFeatures (PriorityResolver.layer self) /\
                feature_id f0 = fid0 /\
                forall f', f' ∈ getFeatures (PriorityResolver.layer self) ->
                  feature_id f' ∈ feature_ids group -> feature_id f' <> fid0 ->
                  PriorityResolver.null_count f0 < PriorityResolver.null_count f') as Hbest.
    { intros fid0 ->. split; [now rewrite <- Hid|]. exists f.
      split; [exact Hf|]. split; [exact Hid|]. intros f' Hf' Hg' Hne.
      apply (Hstrict (feature_id f') f'); [|exact Hne|].
      - apply Hcand. split; [exact Hg'|].
        apply list_elem_of_In, in_map, list_elem_of_In, Hf'.
      - apply (features_get_spec fetched _ f' Hndf). split; [|reflexivity].
        apply Hfetched. now split. }
    assert (forall fid0,
              (fid0 ∈ feature_ids group /\
               exists f0, f0 ∈ getFeatures (PriorityResolver.layer self) /\
                 feature_id f0 = fid0 /\
                 forall f', f' ∈ getFeatures (PriorityResolver.layer self) ->
                   feature_id f' ∈ feature_ids group -> feature_id f' <> fid0 ->
                   PriorityResolver.null_count f0 < PriorityResolver.null_count f') ->
              fid0 = best) as Huniq.
    { intros fid0 (Hg0 & f0 & Hf0 & Hid0 & Hs0).
      destruct (Z.eq_dec fid0 best) as [E|Hne]; [exact E|]. exfalso.
      assert (PriorityResolver.null_count f0 < PriorityResolver.null_count f) as H1.
      { apply Hs0; [exact Hf | exact Hg | congruence]. }
      assert (PriorityResolver.null_count f < PriorityResolver.null_count f0) as H2.
      { apply (Hstrict fid0 f0); [|exact Hne|].
        - apply Hcand. split; [exact Hg0|]. rewrite <- Hid0.
          apply list_elem_of_In, in_map, list_elem_of_In, Hf0.
        - apply (features_get_spec fetched _ f0 Hndf). split; [|exact Hid0].
          apply Hfetched. split; [exact Hf0 | now rewrite Hid0]. }
      lia. }
    destruct (Z.eqb_spec best 0) as [Ez|Hnz]; cbn [negb].
    + split; [discriminate|]. intros (Hn0 & Hrest).
      apply Huniq in Hrest. congruence.
    + split.
      * intros [= <-]. split; [exact Hnz|]. now apply Hbest.
      * intros (_ & Hrest). f_equal. symmetry. now apply Huniq.
  - split; [discriminate|]. intros (_ & Hg & f & Hf & Hid & Hs).
    assert (@None Z = Some fid) as Habs; [|discriminate].
    apply (Hrule fid Hndc). split.
    + apply Hcand. split; [exact Hg|]. rewrite <- Hid.
      apply list_elem_of_In, in_map, list_elem_of_In, Hf.
    + exists f. split.
      * apply (features_get_spec fetched _ f Hndf). split; [|exact Hid].
        apply Hfetched. split; [exact Hf | now rewrite Hid].
      * intros fid' f' Hc' Hne Ef'.
        apply (features_get_spec fetched _ f' Hndf) in Ef' as [Hf' Hid'].
        apply Hfetched in Hf' as [Hf' Hg']. apply Hs; [exact Hf' | exact Hg' | congruence].
Qed.
End ResolveGroup.

Lemma completeness_only_suggestion_witness :
  2%Z <> 0%Z /\ 2%Z ∈ feature_ids (Line.group_of [1; 2]%Z) /\
  exists f, f ∈ getFeatures Parcels.layer /\ feature_id f = 2%Z /\
    forall f', f' ∈ getFeatures Parcels.layer ->
               feature_id f' ∈ feature_ids (Line.group_of [1; 2]%Z) ->
               feature_id f' <> 2%Z ->
               PriorityResolver.null_count f < PriorityResolver.null_count f'.
Proof.
  apply (proj1 (completeness_only_suggestion (H := Line.runtime) (H0 := Line.engine)
                  Parcels.completeness_only (Line.group_of [1; 2]%Z) 2%Z
                  ltac:(closed_set_fact) ltac:(vm_compute; lia)
                  eq_refl eq_refl eq_refl eq_refl)).
  vm_compute. reflexivity.
Defined.

(** Feature 0 has a name and feature 1 has none, yet the group of the two
    gets no suggestion. *)
Example most_complete_feature_0_not_suggested :
  PriorityResolver._apply_completeness_rule
    Parcels.completeness_only Parcels.features [0; 1]%Z = Some 0%Z /\
  PriorityResolver._resolve_group (H := Line.runtime) (H0 := Line.engine)
    Parcels.completeness_only (Line.group_of [0; 1]%Z) = None.
Proof. split; vm_compute; reflexivity. Qed.

(** ** What consolidation keeps *)

Section ConsolidationKeeps.
Context `{PyRuntime}.

Lemma find_existing_Some (m : gmap Z nat) (ids : list Z) (handle : nat) :
  DuplicateDetector.find_existing m ids = Some handle ->
  exists fid, fid ∈ ids /\ m !! fid = Some handle.
Proof.
  induction ids as [|fid ids IH]; cbn [DuplicateDetector.find_existing]; [discriminate|].
  destruct (m !! fid) as [h|] eqn:E.
  - intros [= ->]. exists fid. split; [left | exact E].
  - intros Hf. destruct (IH Hf) as (x & Hx & Ex). exists x. split; [now right | exact Ex].
Qed.

Lemma consolidate_step_keeps seen st group :
  keeps seen st ->
  keeps (seen ++ [group]) (DuplicateDetector.consolidate_step st group) /\
  length (snd (DuplicateDetector.consolidate_step st group)) <= S (length (snd st)).
Proof.
  destruct st as [m cons]. intros [Hvalid Hkept]. cbn [fst snd] in *.
  unfold keeps, DuplicateDetector.consolidate_step.
  destruct (DuplicateDetector.find_existing m (set_iter (feature_ids group)))
    as [handle|] eqn:Ef; cbn [fst snd].
  - apply find_existing_Some in Ef as (fid0 & _ & E0).
    pose proof (Hvalid _ _ E0) as Hlt.
    destruct (lookup_lt_is_Some_2 cons handle Hlt) as [e He].
    split; [split|].
    + intros fid h. rewrite assign_all_lookup, length_alter.
      case_bool_decide; [intros [= <-]; exact Hlt | apply Hvalid].
    + intros g Hg. apply elem_of_app in Hg as [Hg|Hg].
      * destruct (Hkept g Hg) as (g' & Hg' & Hsub).
        apply list_elem_of_lookup in Hg' as [i Hi].
        destruct (decide (i = handle)) as [->|Hne].
        -- exists (merge_with g' group). split.
           ++ apply list_elem_of_lookup. exists handle.
              rewrite list_lookup_alter_eq, Hi. reflexivity.
           ++ cbn. set_solver.
        -- exists g'. split; [|exact Hsub].
           apply list_elem_of_lookup. exists i. now rewrite list_lookup_alter_ne.
      * apply list_elem_of_singleton in Hg as ->.
        exists (merge_with e group). split.
        -- apply list_elem_of_lookup. exists handle.
           rewrite list_lookup_alter_eq, He. reflexivity.
        -- cbn. set_solver.
    + rewrite length_alter. lia.
  - split; [split|].
    + intros fid h. rewrite assign_all_lookup, length_app. cbn [length].
      case_bool_decide; [intros [= <-]; lia|]. intros Hh. specialize (Hvalid _ _ Hh). lia.
    + intros g Hg. apply elem_of_app in Hg as [Hg|Hg].
      * destruct (Hkept g Hg) as (g' & Hg' & Hsub). exists g'.
        split; [apply elem_of_app; now left | exact Hsub].
      * apply list_elem_of_singleton in Hg as ->. exists group.
        split; [apply elem_of_app; right; now apply list_elem_of_singleton | reflexivity].
    + rewrite length_app. cbn [length]. lia.
Qed.

Lemma consolidate_fold_keeps groups : forall seen st,
  keeps seen st ->
  keeps (seen ++ groups) (fold_left DuplicateDetector.consolidate_step groups st) /\
  length (snd (fold_left DuplicateDetector.consolidate_step groups st)) <=
    length (snd st) + length groups.
Proof.
  induction groups as [|group groups IH]; intros seen st Hst; cbn [fold_left].
  - rewrite app_nil_r. split; [exact Hst | lia].
  - destruct (consolidate_step_keeps seen st group Hst) as [Hk Hlen].
    destruct (IH _ _ Hk) as [Hk' Hlen'].
    replace (seen ++ group :: groups) with ((seen ++ [group]) ++ groups)
      by now rewrite <- app_assoc.
    split; [exact Hk'|]. cbn [length]. lia.
Qed.

(** X9. Consolidation loses no feature id and invents none: every
    candidate group lies within some group of the result, every id of a
    group of the result is an id of some candidate group, and the result
    has at most as many groups as there are candidates. *)
Theorem consolidate_groups_keeps_every_id (groups : list DuplicateGroup) :
  (forall g, g ∈ groups ->
     exists g', g' ∈ DuplicateDetector._consolidate_groups groups /\
                feature_ids g ⊆ feature_ids g') /\
  (forall g' fid, g' ∈ DuplicateDetector._consolidate_groups groups ->
     fid ∈ feature_ids g' -> exists g, g ∈ groups /\ fid ∈ feature_ids g) /\
  length (DuplicateDetector._consolidate_groups groups) <= length groups.
Proof.
  split; [|split].
  - unfold DuplicateDetector._consolidate_groups.
    destruct groups as [|g0 rest]; [intros g Hg; inversion Hg|].
    destruct (consolidate_fold_keeps (g0 :: rest) [] (∅, [])) as [[_ Hkept] _].
    + split; [intros fid handle Hl; cbn [fst] in Hl; rewrite lookup_empty in Hl; discriminate|].
      intros g Hg. inversion Hg.
    + exact Hkept.
  - intros g' fid Hg' Hfid.
    destruct (consolidate_groups_made_of groups g' Hg') as [_ Hids]. exact (Hids fid Hfid).
  - unfold DuplicateDetector._consolidate_groups.
    destruct groups as [|g0 rest]; [reflexivity|].
    destruct (consolidate_fold_keeps (g0 :: rest) [] (∅, [])) as [_ Hlen].
    + split; [intros fid handle Hl; cbn [fst] in Hl; rewrite lookup_empty in Hl; discriminate|].
      intros g Hg. inversion Hg.
    + exact Hlen.
Qed.
End ConsolidationKeeps.

(** ** Detection runs on a small layer *)

Lemma detect_groups_disjoint_witness :
  pairwise_disjoint (Pairs.groups None None).
Proof.
  apply (detect_groups_disjoint (H := Line.runtime) (H0 := Line.engine)
           (Line.detector (Some Pairs.layer) "geometry" 0 0 [] None) Pairs.layer
           (Pairs.groups None None)
           eq_refl ltac:(closed_set_fact) ltac:(vm_compute; reflexivity)).
Defined.

Lemma detect_suggested_keep_smallest_witness :
  exists m,
    suggested_keep (set_suggested_keep (Line.group_of [3; 4]%Z) (Some 3%Z)) = Some m /\
    is_smallest_id (feature_ids (set_suggested_keep (Line.group_of [3; 4]%Z) (Some 3%Z))) m.
Proof.
  apply (detect_suggested_keep_smallest (H := Line.runtime) (H0 := Line.engine)
           (Line.detector (Some Pairs.layer) "geometry" 0 0 [] (Some Line.fid_fallback_only))
           Pairs.layer Line.fid_fallback_only (Pairs.groups (Some 1%Z) (Some 3%Z))
           (set_suggested_keep (Line.group_of [3; 4]%Z) (Some 3%Z))
           eq_refl ltac:(closed_set_fact) eq_refl
           ltac:(repeat split; reflexivity)
           ltac:(vm_compute; reflexivity) ltac:(right; left)).
Defined.

(** ** Confidence of the groups of a tolerance scan *)

Section ToleranceConfidence.
Context `{PyRuntime} {Geom : Type} `{GeometryEngine Geom}.
Implicit Types (self : DuplicateDetector.t (Geom := Geom)) (features : list (QgsFeature Geom)).


(** A group of the tolerance scan as the loop builds it: the seed and
    its matches, with the score that [compare] returned for the seed and the
    last candidate compared with it, a scanned feature with a geometry. *)
Lemma tolerance_group_shape self features checker (g : DuplicateGroup) :
  g ∈ DuplicateDetector._detect_by_tolerance self features checker ->
  exists (ids : list Z) (seed candidate : QgsFeature Geom) (geom cgeom : Geom),
    seed ∈ features /\ geometry seed = Some geom /\
    candidate ∈ features /\ geometry candidate = Some cgeom /\
    feature_id candidate <> feature_id seed /\
    g = mkGroup (list_to_set ids) "geometry"
                (score_of (GeometryChecker.compare checker (Some geom) (Some cgeom)
                             (Some (DuplicateDetector.tolerance self))))
                ("Within " +:+ py_float_str (DuplicateDetector.tolerance self)
                           +:+ " tolerance")
                None [].
Proof.
  unfold DuplicateDetector._detect_by_tolerance. intros Hg.
  apply tolerance_scan_groups in Hg as [Hg|(pre & seed & post & Hsplit & Hstep)];
    [inversion Hg|].
  assert (seed ∈ features) as Hseed.
  { rewrite Hsplit. apply elem_of_app. right. left. }
  set (st := DuplicateDetector.tolerance_scan self checker features
               (DuplicateDetector.build_feature_cache features) pre (∅, [], None)) in *.
  destruct (tolerance_step_cases self checker features
              (DuplicateDetector.build_feature_cache features) st seed)
    as [E|(geom & _ & Hgeom & E)]; rewrite E in Hstep.
  { apply (f_equal length) in Hstep. rewrite length_app in Hstep. cbn in Hstep. lia. }
  destruct st as [[processed groups] score]. unfold seed_outcome in Hstep.
  cbn [fst snd] in Hstep.
  set (compared := compared_candidates (DuplicateDetector.build_feature_cache features)
                     processed (feature_id seed) (candidates_of self features geom)) in *.
  destruct (matched_candidates self checker geom compared) as [|cid matched] eqn:Em;
    cbn [fst snd] in Hstep.
  { apply (f_equal length) in Hstep. rewrite length_app in Hstep. cbn in Hstep. lia. }
  apply app_inj_tail in Hstep as [_ <-].
  destruct (last compared) as [p|] eqn:El.
  - apply last_Some_elem_of in El. unfold compared, compared_candidates in El.
    apply list_elem_of_omap in El as (c & _ & Hc).
    destruct (eligible_candidate_spec _ _ _ _ _ Hc) as (Hne & _ & candidate & Hcache & Hcg).
    apply build_feature_cache_lookup in Hcache as [Hin Hid].
    exists (feature_id seed :: cid :: matched), seed, candidate, geom, (snd p).
    split; [exact Hseed|]. split; [exact Hgeom|]. split; [exact Hin|].
    split; [exact Hcg|]. split; [congruence | reflexivity].
  - apply last_None in El. unfold matched_candidates in Em. rewrite El in Em.
    discriminate Em.
Qed.

End ToleranceConfidence.


(** ** A detection run, step by step *)

Section DetectionRun.
Context `{PyRuntime} {Geom : Type} `{GeometryEngine Geom}.
Implicit Types (self : DuplicateDetector.t (Geom := Geom)) (features : list (QgsFeature Geom)).

Lemma resolve_elem_fields (resolver : PriorityResolver.t (Geom := Geom)) groups g :
  g ∈ PriorityResolver.resolve resolver groups ->
  exists g0, g0 ∈ groups /\
             g = set_suggested_keep g0 (PriorityResolver._resolve_group resolver g0).
Proof.
  unfold PriorityResolver.resolve. rewrite list_elem_of_In, in_map_iff.
  intros (g0 & <- & Hin). exists g0. rewrite list_elem_of_In. auto.
Qed.

(** A successful run scans a list of features of the layer with distinct
    ids; the scan yields candidate groups without common id, of two ids or
    more, all ids of scanned features; the result is the list of candidates,
    after the priority rules if there are any. *)
Lemma detect_run self lyr groups :
  DuplicateDetector.layer self = Some lyr ->
  NoDup (List.map feature_id (getFeatures lyr)) ->
  DuplicateDetector.detect self = Ok groups ->
  exists features candidates,
    NoDup (List.map feature_id features) /\
    (forall f, f ∈ features -> f ∈ getFeatures lyr) /\
    (if String.eqb (DuplicateDetector.detection_type self) "geometry"
     then Ok (DuplicateDetector._detect_geometry_duplicates self features)
     else DuplicateDetector._detect_attribute_duplicates self features) = Ok candidates /\
    ForallOrdPairs disjoint_ids candidates /\
    (forall g, g ∈ candidates ->
       2 <= size (feature_ids g) /\
       forall fid, fid ∈ feature_ids g -> fid ∈ List.map feature_id features) /\
    groups = match DuplicateDetector.priority_rules self with
             | Some rules =>
                 PriorityResolver.resolve (PriorityResolver.init lyr rules) candidates
             | None => candidates
             end.
Proof.
  intros Hl Hnd Hdetect. unfold DuplicateDetector.detect in Hdetect. rewrite Hl in Hdetect.
  destruct (negb (isValid lyr)); [discriminate|].
  assert (exists features,
            NoDup (List.map feature_id features) /\
            (forall f, f ∈ features -> f ∈ getFeatures lyr) /\
            match
              (if String.eqb (DuplicateDetector.detection_type self) "geometry"
               then Ok (DuplicateDetector._detect_geometry_duplicates self features)
               else DuplicateDetector._detect_attribute_duplicates self features)
            with
            | Ok groups0 => Ok (DuplicateDetector.finish_detection self lyr groups0)
            | Raise e => Raise e
            end = Ok groups) as (features & Hndf & Hsub & Hrun).
  { destruct (DuplicateDetector.sample_mode self && _).
    - unfold DuplicateDetector._sample_features in Hdetect.
      destruct (Z.ltb _ 0); [discriminate|].
      eexists. split; [apply NoDup_map_filter, Hnd|]. split; [|exact Hdetect].
      intros f Hf. unfold getFeatures_filtered in Hf.
      apply list_elem_of_In, filter_In in Hf as [Hf _]. now apply list_elem_of_In.
    - exists (getFeatures lyr). auto. }
  exists features.
  assert (exists candidates,
            (if String.eqb (DuplicateDetector.detection_type self) "geometry"
             then Ok (DuplicateDetector._detect_geometry_duplicates self features)
             else DuplicateDetector._detect_attribute_duplicates self features)
            = Ok candidates /\
            groups = DuplicateDetector.finish_detection self lyr candidates /\
            ForallOrdPairs disjoint_ids candidates /\
            forall g, g ∈ candidates ->
              2 <= size (feature_ids g) /\
              forall fid, fid ∈ feature_ids g -> fid ∈ List.map feature_id features)
    as (candidates & Hscan & -> & Hpairs & Hmem).
  { destruct (String.eqb _ "geometry").
    - injection Hrun as <-. eexists. split; [reflexivity|]. split; [reflexivity|].
      split; [now apply detect_geometry_disjoint|].
      intros g Hg. pose proof (detect_geometry_sound self features Hndf) as Hsound.
      rewrite Forall_forall in Hsound. destruct (Hsound g Hg) as [Hsize Hin].
      split; [exact Hsize|]. intros fid Hfid.
      destruct (Hin fid Hfid) as (f & Hf & <- & _).
      apply list_elem_of_In, in_map, list_elem_of_In, Hf.
    - destruct (DuplicateDetector._detect_attribute_duplicates self features)
        as [groups0|e] eqn:Ea; [|discriminate].
      injection Hrun as <-. exists groups0. split; [reflexivity|]. split; [reflexivity|].
      split; [now apply (detect_attribute_disjoint self features)|].
      intros g Hg. split.
      + pose proof (detect_attribute_size self features groups0 Hndf Ea) as Hsize.
        rewrite Forall_forall in Hsize. now apply Hsize.
      + intros fid Hfid. now apply (detect_attribute_members self features groups0 g). }
  exists candidates. split; [exact Hndf|]. split; [exact Hsub|]. split; [exact Hscan|].
  split; [exact Hpairs|]. split; [exact Hmem|].
  now destruct (finish_detection_disjoint self lyr candidates Hpairs) as [E _].
Qed.
End DetectionRun.

(** ** The partition invariant and the suggestions of a run *)

Section RunInvariants.
Context `{PyRuntime} {Geom : Type} `{GeometryEngine Geom}.
Implicit Types (self : DuplicateDetector.t (Geom := Geom)) (features : list (QgsFeature Geom)).



End RunInvariants.



(** ** Counting the ids of disjoint groups *)

Lemma fold_left_add_acc (l : list nat) : forall a,
  fold_left Nat.add l a = a + fold_left Nat.add l 0.
Proof.
  induction l as [|x l IH]; intros a; cbn [fold_left]; [lia|].
  rewrite (IH (a + x)), (IH (0 + x)). lia.
Qed.

Lemma sum_sizes_at_least (groups : list DuplicateGroup) :
  (forall g, g ∈ groups -> 2 <= size (feature_ids g)) ->
  2 * length groups <=
  fold_left Nat.add (List.map (fun g => size (feature_ids g)) groups) 0.
Proof.
  induction groups as [|g groups IH]; intros Hall; cbn [List.map fold_left length]; [lia|].
  rewrite fold_left_add_acc.
  pose proof (Hall g ltac:(left)). pose proof (IH (fun g' Hg' => Hall g' ltac:(now right))).
  lia.
Qed.

Lemma sum_sizes_disjoint (groups : list DuplicateGroup) :
  ForallOrdPairs disjoint_ids groups ->
  fold_left Nat.add (List.map (fun g => size (feature_ids g)) groups) 0 =
  size (⋃ (List.map feature_ids groups)).
Proof.
  induction 1 as [|g groups Hg Hrest IH]; cbn [List.map fold_left].
  - now rewrite union_list_nil, size_empty.
  - rewrite union_list_cons, fold_left_add_acc, IH, size_union; [lia|].
    intros fid Hfid Hu. apply elem_of_union_list in Hu as (ids & Hids & Hin).
    apply list_elem_of_In, in_map_iff in Hids as (g' & <- & Hg').
    rewrite List.Forall_forall in Hg. exact (Hg g' Hg' fid Hfid Hin).
Qed.

Lemma sum_sizes_at_most (groups : list DuplicateGroup) (ids : list Z) :
  ForallOrdPairs disjoint_ids groups ->
  (forall g fid, g ∈ groups -> fid ∈ feature_ids g -> fid ∈ ids) ->
  fold_left Nat.add (List.map (fun g => size (feature_ids g)) groups) 0 <= length ids.
Proof.
  intros Hpairs Hsub. rewrite (sum_sizes_disjoint groups Hpairs).
  transitivity (size (list_to_set ids : gset Z)).
  - apply subseteq_size. intros fid Hu.
    apply elem_of_union_list in Hu as (s & Hs & Hin).
    apply list_elem_of_In, in_map_iff in Hs as (g & <- & Hg).
    apply elem_of_list_to_set. apply (Hsub g fid); [now apply list_elem_of_In | exact Hin].
  - clear. induction ids as [|i ids IH]; cbn [list_to_set length].
    + now rewrite size_empty.
    + rewrite size_union_alt, size_singleton.
      assert (size ((list_to_set ids : gset Z) ∖ {[i]}) <= size (list_to_set ids : gset Z))
        by (apply subseteq_size, subseteq_difference_l; reflexivity).
      lia.
Qed.

(** ** What a run reports *)

Section RunResults.
Context `{PyRuntime} {Geom : Type} `{GeometryEngine Geom}.
Implicit Types (self : DuplicateDetector.t (Geom := Geom)) (features : list (QgsFeature Geom)).

Lemma hash_group_shape self features checker (g : DuplicateGroup) :
  g ∈ DuplicateDetector._detect_by_hash self features checker ->
  exists ids : list Z, g = mkGroup (list_to_set ids) "geometry" 1%float "Exact WKB match" None [].
Proof.
  unfold DuplicateDetector._detect_by_hash. intros Hg.
  apply list_elem_of_omap in Hg as ([h fids] & _ & Hgroup).
  unfold DuplicateDetector.hash_group_of in Hgroup.
  destruct (Nat.ltb _ _); [|discriminate]. injection Hgroup as <-.
  exists fids. reflexivity.
Qed.

Lemma attribute_group_shape self features groups (g : DuplicateGroup) :
  DuplicateDetector._detect_attribute_duplicates self features = Ok groups ->
  g ∈ groups ->
  exists (ids : list Z) reason key,
    g = mkGroup (list_to_set ids) "attribute" 1%float reason None [("key", key)].
Proof.
  unfold DuplicateDetector._detect_attribute_duplicates.
  destruct (DuplicateDetector.fields self) as [|field1 fields']; [discriminate|].
  intros [= <-] Hg. apply list_elem_of_omap in Hg as ([key fids] & _ & Hgroup).
  unfold DuplicateDetector.key_group_of in Hgroup.
  destruct (Nat.ltb _ _); [|discriminate]. injection Hgroup as <-.
  exists fids. eexists. exists key. reflexivity.
Qed.

(** X13. In the list returned by [detect] (feature ids unique in the
    layer), a group has no suggestion when no priority rules are given; any
    detection type other than "geometry" runs attribute detection, whose
    groups have the type "attribute" and the confidence 1.0; a geometry run
    gives groups of type "geometry", with confidence 1.0 and the reason
    "Exact WKB match" when the tolerance is 0. *)
Theorem detect_group_fields self lyr groups (g : DuplicateGroup) :
  DuplicateDetector.layer self = Some lyr ->
  NoDup (List.map feature_id (getFeatures lyr)) ->
  DuplicateDetector.detect self = Ok groups ->
  g ∈ groups ->
  (DuplicateDetector.priority_rules self = None -> suggested_keep g = None) /\
  (String.eqb (DuplicateDetector.detection_type self) "geometry" = false ->
   detection_type g = "attribute" /\ confidence_score g = 1%float) /\
  (String.eqb (DuplicateDetector.detection_type self) "geometry" = true ->
   detection_type g = "geometry" /\
   (PrimFloat.eqb (DuplicateDetector.tolerance self) 0%float = true ->
    confidence_score g = 1%float /\ match_reason g = "Exact WKB match")).
Proof.
  intros Hl Hnd Hdetect Hg.
  destruct (detect_run self lyr groups Hl Hnd Hdetect)
    as (features & candidates & _ & _ & Hscan & _ & _ & ->).
  assert (exists g0 keep,
            g0 ∈ candidates /\ g = set_suggested_keep g0 keep /\
            (DuplicateDetector.priority_rules self = None -> keep = suggested_keep g0))
    as (g0 & keep & Hg0 & -> & Hkeep).
  { destruct (DuplicateDetector.priority_rules self) as [rules|].
    - apply resolve_elem_fields in Hg as (g0 & Hg0 & ->). exists g0. eexists.
      split; [exact Hg0|]. split; [reflexivity | discriminate].
    - exists g, (suggested_keep g). split; [exact Hg|]. split; [now destruct g | reflexivity]. }
  cbn [set_suggested_keep suggested_keep detection_type confidence_score match_reason].
  destruct (String.eqb (DuplicateDetector.detection_type self) "geometry").
  - injection Hscan as <-. unfold DuplicateDetector._detect_geometry_duplicates in Hg0.
    destruct (PrimFloat.eqb (DuplicateDetector.tolerance self) 0).
    + apply hash_group_shape in Hg0 as (ids & ->). cbn.
      split; [intros Hn; now rewrite (Hkeep Hn)|]. split; [discriminate|]. auto.
    + apply tolerance_group_shape in Hg0
        as (ids & seed & candidate & geom & cgeom & _ & _ & _ & _ & _ & ->). cbn.
      split; [intros Hn; now rewrite (Hkeep Hn)|]. split; [discriminate|].
      intros _. split; [reflexivity | discriminate].
  - apply (attribute_group_shape self features candidates g0 Hscan) in Hg0
      as (ids & reason & key & ->). cbn.
    split; [intros Hn; now rewrite (Hkeep Hn)|]. split; [auto | discriminate].
Qed.

(** X14. After a successful run (feature ids unique in the layer),
    [get_statistics] returns the empty dictionary exactly when no group was
    found; when groups were found, it returns the number of features of the
    layer, the number of groups, and a number of duplicate features that is
    at least twice the number of groups and at most the number of features
    of the layer. *)
Theorem statistics_after_detect self lyr groups :
  DuplicateDetector.layer self = Some lyr ->
  NoDup (List.map feature_id (getFeatures lyr)) ->
  DuplicateDetector.detect self = Ok groups ->
  (get_statistics self lyr groups = None <-> groups = []) /\
  (groups <> [] ->
   exists statistics,
     get_statistics self lyr groups = Some statistics /\
     total_features statistics = length (getFeatures lyr) /\
     duplicate_groups statistics = length groups /\
     2 * duplicate_groups statistics <= duplicate_features statistics /\
     duplicate_features statistics <= total_features statistics).
Proof.
  intros Hl Hnd Hdetect.
  destruct (detect_run self lyr groups Hl Hnd Hdetect)
    as (features & candidates & Hndf & Hsub & _ & Hpairs & Hmem & Hgroups).
  assert (ForallOrdPairs disjoint_ids groups /\
          forall g, g ∈ groups ->
            2 <= size (feature_ids g) /\
            forall fid, fid ∈ feature_ids g -> fid ∈ List.map feature_id features)
    as [Hpairs' Hmem'].
  { rewrite Hgroups. destruct (DuplicateDetector.priority_rules self) as [rules|]; [|auto].
    split; [now apply resolve_disjoint|]. intros g Hg.
    apply resolve_elem in Hg as (g0 & Hg0 & -> & _). now apply Hmem. }
  split.
  - unfold get_statistics. destruct groups; split; intros E; try reflexivity; discriminate E.
  - intros Hne. unfold get_statistics. destruct groups as [|g0 rest] eqn:Eg; [congruence|].
    rewrite <- Eg in *. cbv zeta. eexists. split; [reflexivity|].
    cbn [total_features duplicate_groups duplicate_features].
    split; [reflexivity|]. split; [reflexivity|]. split.
    + apply sum_sizes_at_least. intros g Hg. now apply Hmem'.
    + unfold featureCount. rewrite <- (length_map feature_id (getFeatures lyr)).
      apply sum_sizes_at_most; [exact Hpairs'|]. intros g fid Hg Hfid.
      destruct (Hmem' g Hg) as [_ Hin]. specialize (Hin fid Hfid).
      apply list_elem_of_In, in_map_iff in Hin as (f & <- & Hf).
      apply list_elem_of_In, in_map, list_elem_of_In, Hsub. now apply list_elem_of_In.
Qed.
End RunResults.

Lemma detect_group_fields_witness :
  detection_type (set_suggested_keep (Line.group_of [1; 2]%Z) None) = "geometry" /\
  confidence_score (set_suggested_keep (Line.group_of [1; 2]%Z) None) = 1%float /\
  suggested_keep (set_suggested_keep (Line.group_of [1; 2]%Z) None) = None.
Proof.
  destruct (detect_group_fields (H := Line.runtime) (H0 := Line.engine)
              (Line.detector (Some Pairs.layer) "geometry" 0 0 [] None) Pairs.layer
              (Pairs.groups None None) (set_suggested_keep (Line.group_of [1; 2]%Z) None)
              eq_refl ltac:(closed_set_fact) ltac:(vm_compute; reflexivity) ltac:(left))
    as (Hkeep & _ & Hgeometry).
  destruct (Hgeometry eq_refl) as [Htype Hexact].
  destruct (Hexact eq_refl) as [Hscore _].
  split; [exact Htype|]. split; [exact Hscore | exact (Hkeep eq_refl)].
Defined.

Lemma statistics_after_detect_witness :
  exists statistics,
    get_statistics (H := Line.runtime) (H0 := Line.engine)
      (Line.detector (Some Pairs.layer) "geometry" 0 0 [] None) Pairs.layer
      (Pairs.groups None None) = Some statistics /\
    total_features statistics = length (getFeatures Pairs.layer) /\
    duplicate_groups statistics = length (Pairs.groups None None) /\
    2 * duplicate_groups statistics <= duplicate_features statistics /\
    duplicate_features statistics <= total_features statistics.
Proof.
  apply (proj2 (statistics_after_detect (H := Line.runtime) (H0 := Line.engine)
                  (Line.detector (Some Pairs.layer) "geometry" 0 0 [] None) Pairs.layer
                  (Pairs.groups None None)
                  eq_refl ltac:(closed_set_fact) ltac:(vm_compute; reflexivity))).
  discriminate.
Defined.

(** On the layer of the two pairs: four features, two groups, four
    duplicate features, a rate of 1.0. *)
Example statistics_of_two_pairs :
  get_statistics (H := Line.runtime) (H0 := Line.engine)
    (Line.detector (Some Pairs.layer) "geometry" 0 0 [] None) Pairs.layer
    (Pairs.groups None None)
  = Some (mkStatistics 4 2 4 1%float "geometry" 0%float []).
Proof. vm_compute. reflexivity. Qed.

(** ** Field values and differences of two features *)

Section FieldValues.
Context {Geom : Type}.
Implicit Types (self : AttributeChecker.t) (feature : QgsFeature Geom).

Lemma feature_getitem_None attrs name :
  feature_getitem attrs name = None <-> name ∉ List.map fst attrs.
Proof.
  induction attrs as [|[n v] attrs IH]; cbn [feature_getitem List.map fst].
  - split; [intros _ Hin; inversion Hin | reflexivity].
  - rewrite not_elem_of_cons. destruct (String.eqb_spec n name) as [->|Hne].
    + split; [discriminate | now intros [Hn _]].
    + rewrite IH. split; [intros Hn; split; [congruence | exact Hn] | now intros [_ Hn]].
Qed.

Lemma insert_fold_lookup attrs (names : list string) name :
  forall acc : gmap string FieldValue,
  fold_left (fun result field_name =>
               <[field_name := match feature_getitem attrs field_name with
                               | Some value => value
                               | None => VNull
                               end]> result) names acc !! name =
  if bool_decide (name ∈ names)
  then Some (default VNull (feature_getitem attrs name))
  else acc !! name.
Proof.
  induction names as [|n names IH]; intros acc; cbn [fold_left].
  - now rewrite bool_decide_eq_false_2 by (intros Hin; inversion Hin).
  - rewrite IH. destruct (decide (name ∈ names)) as [Hin|Hnin].
    + rewrite !bool_decide_eq_true_2; [reflexivity | now right | exact Hin].
    + rewrite (bool_decide_eq_false_2 _ Hnin).
      destruct (decide (name = n)) as [->|Hne].
      * rewrite lookup_insert_eq, bool_decide_eq_true_2 by left.
        now destruct (feature_getitem attrs n).
      * rewrite lookup_insert_ne by congruence.
        rewrite bool_decide_eq_false_2; [reflexivity|].
        intros Hx. apply elem_of_cons in Hx as [?|?]; auto.
Qed.

(** With [all_fields], the dictionary is the feature read field by
    field. *)
Lemma field_values_all self feature (name : string) :
  AttributeFields.get_field_values self feature true !! name =
  feature_getitem (attributes feature) name.
Proof.
  unfold AttributeFields.get_field_values. cbv zeta. rewrite insert_fold_lookup.
  case_bool_decide as Hin.
  - destruct (feature_getitem (attributes feature) name) eqn:E; [reflexivity|].
    now apply feature_getitem_None in E.
  - rewrite lookup_empty. symmetry. now apply feature_getitem_None.
Qed.

(** X15. [get_field_values] maps each requested field to the value the
    feature has for it: with [all_fields], exactly the fields of the feature
    are keys, each with the value [feature[name]] gives; otherwise the keys
    are the configured fields, with NULL for a field the feature lacks. *)
Theorem get_field_values_lookup self feature (name : string) :
  AttributeFields.get_field_values self feature true !! name =
    feature_getitem (attributes feature) name /\
  AttributeFields.get_field_values self feature false !! name =
    if bool_decide (name ∈ AttributeChecker.fields self)
    then Some (default VNull (feature_getitem (attributes feature) name))
    else None.
Proof.
  split; [apply field_values_all|].
  unfold AttributeFields.get_field_values. cbv zeta.
  now rewrite insert_fold_lookup, lookup_empty.
Qed.

Section Differences.
Variables (self : AttributeChecker.t) (feature1 feature2 : QgsFeature Geom).

Lemma all_fields_of_spec (field : string) :
  field ∈ AttributeFields.all_fields_of self feature1 feature2 <->
  feature_getitem (attributes feature1) field <> None \/
  feature_getitem (attributes feature2) field <> None.
Proof.
  unfold AttributeFields.all_fields_of.
  rewrite elem_of_union, !elem_of_dom, !field_values_all.
  unfold is_Some. split.
  - intros [[v E]|[v E]]; rewrite E; [left | right]; discriminate.
  - intros [Hn|Hn]; [left | right];
      (destruct (feature_getitem _ field) as [v|]; [now exists v | congruence]).
Qed.

Lemma differences_step_at acc (x field : string) :
  x ∈ AttributeFields.all_fields_of self feature1 feature2 ->
  (differences_at acc x = due_at feature1 feature2 x \/
   differences_at acc x = (None, None, None, None)) ->
  differences_at
    (AttributeFields.differences_step
       (AttributeFields.get_field_values self feature1 true)
       (AttributeFields.get_field_values self feature2 true) acc x) field =
  if bool_decide (field = x) then due_at feature1 feature2 x else differences_at acc field.
Proof.
  intros Hx Hacc. apply all_fields_of_spec in Hx.
  unfold AttributeFields.differences_step. cbv zeta.
  assert (forall feature : QgsFeature Geom,
            bool_decide (x ∈ dom (AttributeFields.get_field_values self feature true)) =
            match feature_getitem (attributes feature) x with
            | Some _ => true
            | None => false
            end) as Hdom.
  { intros feature.
    destruct (feature_getitem (attributes feature) x) as [v|] eqn:E.
    - apply bool_decide_eq_true_2, elem_of_dom. rewrite field_values_all, E. now exists v.
    - apply bool_decide_eq_false_2. rewrite elem_of_dom, field_values_all, E.
      now intros [v Ev]. }
  rewrite !Hdom, !field_values_all. unfold due_at, differences_at in *.
  destruct (feature_getitem (attributes feature1) x) as [v1|] eqn:E1,
           (feature_getitem (attributes feature2) x) as [v2|] eqn:E2;
    cbn [from_option id due_entry negb] in *.
  - destruct (value_eqb v1 v2); cbn [same different only_in_feature1 only_in_feature2];
      case_bool_decide as Ef; subst;
      rewrite ?lookup_insert_eq, ?lookup_insert_ne by congruence;
      try reflexivity; destruct Hacc as [Ha|Ha]; now inversion Ha.
  - cbn [same different only_in_feature1 only_in_feature2].
    case_bool_decide as Ef; subst;
      rewrite ?lookup_insert_eq, ?lookup_insert_ne by congruence;
      try reflexivity; destruct Hacc as [Ha|Ha]; now inversion Ha.
  - cbn [same different only_in_feature1 only_in_feature2].
    case_bool_decide as Ef; subst;
      rewrite ?lookup_insert_eq, ?lookup_insert_ne by congruence;
      try reflexivity; destruct Hacc as [Ha|Ha]; now inversion Ha.
  - destruct Hx as [Hx|Hx]; congruence.
Qed.

Lemma differences_fold (order : list string) : forall seen acc,
  (forall x, x ∈ order -> x ∈ AttributeFields.all_fields_of self feature1 feature2) ->
  (forall field, differences_at acc field =
                 if bool_decide (field ∈ seen) then due_at feature1 feature2 field
                 else (None, None, None, None)) ->
  forall field,
    differences_at
      (fold_left (AttributeFields.differences_step
                    (AttributeFields.get_field_values self feature1 true)
                    (AttributeFields.get_field_values self feature2 true)) order acc)
      field =
    if bool_decide (field ∈ seen ++ order) then due_at feature1 feature2 field
    else (None, None, None, None).
Proof.
  induction order as [|x order IH]; intros seen acc Hsub Hacc field; cbn [fold_left].
  - rewrite app_nil_r. apply Hacc.
  - replace (seen ++ x :: order) with ((seen ++ [x]) ++ order) by now rewrite <- app_assoc.
    apply IH; [intros y Hy; apply Hsub; now right|].
    intros field'. rewrite differences_step_at.
    + case_bool_decide as Ef.
      * subst. rewrite bool_decide_eq_true_2; [reflexivity|].
        apply elem_of_app. right. now apply list_elem_of_singleton.
      * rewrite Hacc.
        rewrite (bool_decide_ext (field' ∈ seen ++ [x]) (field' ∈ seen)); [reflexivity|].
        rewrite elem_of_app, list_elem_of_singleton. tauto.
    + apply Hsub. left.
    + rewrite Hacc. case_bool_decide; auto.
Qed.
End Differences.

(** X16. [find_differences] files every field under exactly one heading,
    whatever the order in which the set of field names is iterated: a field
    of both features under [same] when the two values are equal (NULL equals
    NULL) and under [different] with both values otherwise, a field of one
    feature only under [only_in_feature1] or [only_in_feature2] with its
    value, and any other name under none. *)
Theorem find_differences_classifies self (feature1 feature2 : QgsFeature Geom)
    (all_fields : list string) (field : string) :
  list_to_set all_fields = AttributeFields.all_fields_of self feature1 feature2 ->
  differences_at (AttributeFields.find_differences self feature1 feature2 all_fields) field
  = due_at feature1 feature2 field.
Proof.
  intros Hset. unfold AttributeFields.find_differences. cbv zeta.
  rewrite (differences_fold self feature1 feature2 all_fields [] (mkDifferences ∅ ∅ ∅ ∅)).
  - cbn [app]. case_bool_decide as Hin; [reflexivity|].
    assert (field ∉ AttributeFields.all_fields_of self feature1 feature2) as Hout.
    { rewrite <- Hset. now rewrite elem_of_list_to_set. }
    rewrite all_fields_of_spec in Hout. unfold due_at.
    destruct (feature_getitem (attributes feature1) field);
      [exfalso; apply Hout; left; discriminate|].
    destruct (feature_getitem (attributes feature2) field);
      [exfalso; apply Hout; right; discriminate|].
    reflexivity.
  - intros x Hx. rewrite <- Hset. now apply elem_of_list_to_set.
  - intros field'. rewrite bool_decide_eq_false_2 by (intros Hin; inversion Hin).
    unfold differences_at. cbn [same different only_in_feature1 only_in_feature2].
    now rewrite !lookup_empty.
Qed.
End FieldValues.

Lemma find_differences_classifies_witness :
  differences_at
    (AttributeFields.find_differences Line.name_checker Records.first Records.second
                                      ["zip"; "name"; "pop"])
    "pop"
  = due_at Records.first Records.second "pop".
Proof.
  apply (find_differences_classifies Line.name_checker Records.first Records.second
           ["zip"; "name"; "pop"] "pop" ltac:(closed_set_fact)).
Defined.

(** The two records agree on the name, differ on the population, and
    only the second one has a zip code. *)
Example differences_of_two_records :
  List.map (differences_at
              (AttributeFields.find_differences Line.name_checker Records.first
                 Records.second ["zip"; "name"; "pop"]))
           ["name"; "pop"; "zip"; "area"]
  = [(Some (VText "a"), None, None, None);
     (None, Some (VInteger 3, VInteger 4), None, None);
     (None, None, None, Some VNull);
     (None, None, None, None)].
Proof. vm_compute. reflexivity. Qed.

(** ** The attribute comparison does not depend on the order of the pair *)

Lemma SFeqb_sym (a b : spec_float) : SFeqb a b = SFeqb b a.
Proof.
  unfold SFeqb.
  destruct a as [sa|sa| |sa ma ea], b as [sb|sb| |sb mb eb]; cbn [SFcompare];
    try reflexivity; try (destruct sa, sb; reflexivity); try (now destruct sa);
    try (now destruct sb).
  change (Pos.compare_cont Eq ma mb) with (Pos.compare ma mb).
  change (Pos.compare_cont Eq mb ma) with (Pos.compare mb ma).
  rewrite (Z.compare_antisym ea eb), (Pos.compare_antisym ma mb).
  destruct sa, sb; try reflexivity;
    destruct (Z.compare ea eb); cbn [CompOpp]; try reflexivity;
    destruct (Pos.compare ma mb); reflexivity.
Qed.

Lemma float_eqb_sym (x y : float) : PrimFloat.eqb x y = PrimFloat.eqb y x.
Proof. rewrite !FloatAxioms.eqb_spec. apply SFeqb_sym. Qed.

Lemma value_eqb_sym (v1 v2 : FieldValue) : value_eqb v1 v2 = value_eqb v2 v1.
Proof.
  destruct v1, v2; cbn [value_eqb]; try reflexivity;
    [apply String.eqb_sym | apply Z.eqb_sym | apply float_eqb_sym | apply String.eqb_sym].
Qed.

Lemma key_eqb_sym (k1 : list FieldValue) : forall k2, key_eqb k1 k2 = key_eqb k2 k1.
Proof.
  induction k1 as [|v1 k1 IH]; intros [|v2 k2]; cbn [key_eqb]; try reflexivity.
  now rewrite value_eqb_sym, IH.
Qed.

Lemma levenshtein_similarity_sym (s1 s2 : string) :
  AttributeChecker._levenshtein_similarity s1 s2 =
  AttributeChecker._levenshtein_similarity s2 s1.
Proof.
  unfold AttributeChecker._levenshtein_similarity.
  rewrite (String.eqb_sym s1 s2), (orb_comm (Nat.eqb (String.length s1) 0)),
    (Nat.max_comm (String.length s1)), !levenshtein_distance_classic,
    (ced_sym (list_ascii_of_string s1)).
  reflexivity.
Qed.

Lemma field_similarity_sym (v1 v2 : FieldValue) :
  AttributeChecker.field_similarity v1 v2 = AttributeChecker.field_similarity v2 v1.
Proof.
  destruct v1, v2; cbn [AttributeChecker.field_similarity]; try reflexivity;
    try apply levenshtein_similarity_sym;
    match goal with
    | |- context [value_eqb ?a ?b] => now rewrite (value_eqb_sym a b)
    end.
Qed.

Lemma calculate_similarity_sym (key1 : list FieldValue) : forall key2,
  AttributeChecker._calculate_similarity key1 key2 =
  AttributeChecker._calculate_similarity key2 key1.
Proof.
  intros key2. unfold AttributeChecker._calculate_similarity.
  rewrite (Nat.eqb_sym (length key1)).
  assert (List.map (fun p => AttributeChecker.field_similarity (fst p) (snd p))
                   (combine key1 key2) =
          List.map (fun p => AttributeChecker.field_similarity (fst p) (snd p))
                   (combine key2 key1)) as ->; [|reflexivity].
  revert key2. induction key1 as [|v1 key1 IH]; intros [|v2 key2];
    cbn [combine List.map fst snd]; try reflexivity.
  now rewrite field_similarity_sym, IH.
Qed.

(** X17. [compare] of the attribute checker does not depend on the order
    of the two features: match, score and reason are the same, also with
    fuzzy matching ([==] on values, the Levenshtein distance and the
    per-field similarities are symmetric). *)
Theorem attribute_compare_symmetric `{PyRuntime} {Geom : Type}
    (self : AttributeChecker.t) (feature1 feature2 : QgsFeature Geom) :
  AttributeChecker.compare self feature1 feature2 =
  AttributeChecker.compare self feature2 feature1.
Proof.
  unfold AttributeChecker.compare.
  destruct (AttributeChecker.get_key self feature1) as [key1|],
           (AttributeChecker.get_key self feature2) as [key2|]; try reflexivity.
  now rewrite (key_eqb_sym key1 key2), (calculate_similarity_sym key1 key2).
Qed.

(** ** The suggestion is a member of the group *)

Section ResolveMember.
Context `{PyRuntime} {Geom : Type} `{GeometryEngine Geom}.
Implicit Types (self : PriorityResolver.t (Geom := Geom)) (group : DuplicateGroup).

Lemma fold_pick_member {A : Type} (pick : A -> A -> A) (others : list A) :
  (forall a b, pick a b = a \/ pick a b = b) ->
  forall first, In (fold_left pick others first) (first :: others).
Proof.
  intros Hpick. induction others as [|o others IH]; intros first; cbn [fold_left].
  - now left.
  - destruct (IH (pick first o)) as [E|Hin]; [|right; now right].
    rewrite <- E. destruct (Hpick first o) as [-> | ->]; [now left | right; now left].
Qed.

Lemma area_rule_member self (features : list (QgsFeature Geom)) candidates fid :
  PriorityResolver._apply_area_rule self features candidates = Some fid ->
  fid ∈ candidates.
Proof.
  unfold PriorityResolver._apply_area_rule.
  destruct (PriorityResolver.area_rule self) as [rule|]; [|discriminate].
  destruct (String.eqb rule ""); [discriminate|]. cbv zeta.
  match goal with
  | |- context [omap ?f candidates] =>
      assert (forall kv, In kv (omap f candidates) -> fst kv ∈ candidates) as Hkeys;
      [|destruct (omap f candidates) as [|first others]; [discriminate|]]
  end.
  { intros kv Hkv. apply list_elem_of_In, list_elem_of_omap in Hkv as (c & Hc & E).
    destruct (PriorityResolver.features_get features c) as [feature|]; [|discriminate].
    destruct (geometry feature); [|discriminate]. injection E as <-. exact Hc. }
  destruct (String.eqb rule "largest").
  - intros [= <-]. apply Hkeys. unfold PriorityResolver.max_by_area.
    apply fold_pick_member. intros a b. destruct (PrimFloat.ltb _ _); auto.
  - destruct (String.eqb rule "smallest"); [|discriminate].
    intros [= <-]. apply Hkeys. unfold PriorityResolver.min_by_area.
    apply fold_pick_member. intros a b. destruct (PrimFloat.ltb _ _); auto.
Qed.

(** X18. When the field rule is not configured, the feature suggested for
    a group is one of the group: the completeness rule, the area rule and
    the id fallback all choose among the ids of the group that the layer
    holds. *)
Theorem resolve_group_suggests_member self group (fid : Z) :
  str_truthy (PriorityResolver.field_name self) = false ->
  PriorityResolver._resolve_group self group = Some fid ->
  fid ∈ feature_ids group.
Proof.
  intros Hfield. unfold PriorityResolver._resolve_group.
  destruct (Nat.ltb _ 2).
  { intros Hhead. apply set_iter_elem.
    destruct (set_iter (feature_ids group)) as [|x rest]; [discriminate|].
    injection Hhead as ->. left. }
  cbv zeta. rewrite Hfield. cbn [andb fid_truthy].
  destruct (resolve_candidates self group) as [Hndc Hcand]. cbv zeta in Hndc, Hcand.
  set (fetched := getFeatures_filtered (PriorityResolver.layer self)
                    (set_iter (feature_ids group))) in *.
  destruct (dict_keys (List.map feature_id fetched) []) as [|first others];
    [discriminate|].
  assert (forall x, x ∈ first :: others -> x ∈ feature_ids group) as Hmember
    by (intros x Hx; now apply Hcand in Hx as [Hx _]).
  destruct (fid_truthy (if PriorityResolver.use_completeness self then _ else None)) eqn:E2.
  { destruct (PriorityResolver.use_completeness self); [|discriminate].
    intros Hrule. apply Hmember.
    now apply (completeness_rule_spec self fetched (first :: others) fid Hndc) in Hrule
      as [Hin _]. }
  destruct (fid_truthy (if _ && _ then _ else None)) eqn:E3.
  { destruct (_ && _); [|discriminate].
    intros Hrule. apply Hmember. now apply (area_rule_member self fetched). }
  destruct (PriorityResolver.fid_fallback self); [|discriminate].
  intros [= <-]. apply Hmember. now destruct (min_fid_spec others first) as [Hin _].
Qed.
End ResolveMember.

Lemma resolve_group_suggests_member_witness :
  1%Z ∈ feature_ids (Line.group_of [1; 2]%Z).
Proof.
  apply (resolve_group_suggests_member (H := Line.runtime) (H0 := Line.engine)
           (PriorityResolver.init Pairs.layer Line.fid_fallback_only)
           (Line.group_of [1; 2]%Z) 1%Z eq_refl ltac:(vm_compute; reflexivity)).
Defined.
